(** * AtoD: response normalisation and resource aggregation

    A shallow embedding of [diagram_analyzer.py] (class [DiagramAnalyzer]) and
    of [display_resources_table] from [app1.py], with the properties of the
    normaliser, the aggregator and the tabular export.

    Conventions of the embedding.
    - A Python [str] is a [string]; a character is a code point below 256.
    - A value built by [json.loads] is a [pyval].  JSON numbers with a
      fraction or an exponent (Python floats) are outside the model.
    - A dict is an association list in insertion order, as Python keeps it.
    - Code that can raise returns an [outcome]: [Ok v] or [Raised e].
    - Interpreter messages are worded as CPython 3.11 words them. *)

From Stdlib Require Import String Ascii List ZArith Lia Bool Arith.
From Stdlib Require Import Sorted Permutation OrderedTypeEx DecimalString.
Import ListNotations.
Open Scope string_scope.
Set Warnings "-register-all".

(* ================================================================== *)
(** * Values and exceptions *)

Inductive pyval : Type :=
| VNone
| VBool (b : bool)
| VInt (z : Z)
| VStr (s : string)
| VList (l : list pyval)
| VDict (d : list (string * pyval)).

Definition type_name (v : pyval) : string :=
  match v with
  | VNone => "NoneType"
  | VBool _ => "bool"
  | VInt _ => "int"
  | VStr _ => "str"
  | VList _ => "list"
  | VDict _ => "dict"
  end.

Inductive exn_class : Type :=
| JSONDecodeError
| TypeError
| AttributeError
| ValueError
| OtherException (name : string).

(** An exception derived from [Exception], with its class and [str(e)]. *)
Record exn : Type := Exn { exn_cls : exn_class; exn_msg : string }.

Inductive outcome (A : Type) : Type :=
| Ok (a : A)
| Raised (e : exn).
Arguments Ok {A} a.
Arguments Raised {A} e.

Definition bind {A B} (m : outcome A) (k : A -> outcome B) : outcome B :=
  match m with
  | Ok a => k a
  | Raised e => Raised e
  end.

Declare Scope py_scope.
Delimit Scope py_scope with py.
Notation "x <- m ;; k" := (bind m (fun x => k))
  (at level 61, m at next level, right associativity) : py_scope.
Open Scope py_scope.

Definition raise {A} (c : exn_class) (m : string) : outcome A :=
  Raised (Exn c m).

(** A [for] loop whose body can raise: the accumulator is threaded from left
    to right and the first exception ends the loop. *)
Fixpoint for_each {A S} (body : S -> A -> outcome S) (l : list A) (s : S)
  : outcome S :=
  match l with
  | [] => Ok s
  | x :: l' => s' <- body s x ;; for_each body l' s'
  end.

(* ================================================================== *)
(** * Strings: whitespace, [str.strip], substring test *)

(** [str.isspace] on one code point below 256; [\s] of [re] on a [str]
    pattern tests the same set. *)
Definition isspace (c : ascii) : bool :=
  let n := nat_of_ascii c in
  (((9 <=? n) && (n <=? 13)) || ((28 <=? n) && (n <=? 32))
   || (n =? 133) || (n =? 160))%nat.

Fixpoint lstrip (s : string) : string :=
  match s with
  | EmptyString => EmptyString
  | String c s' => if isspace c then lstrip s' else s
  end.

Fixpoint rstrip (s : string) : string :=
  match s with
  | EmptyString => EmptyString
  | String c s' =>
      match rstrip s' with
      | EmptyString => if isspace c then EmptyString else String c EmptyString
      | r => String c r
      end
  end.

(** [s.strip()] *)
Definition strip (s : string) : string := rstrip (lstrip s).

Fixpoint drop (n : nat) (s : string) : string :=
  match n, s with
  | O, _ => s
  | S n', String _ s' => drop n' s'
  | S _, EmptyString => EmptyString
  end.

(** The double quote, and a text between double quotes. *)
Definition dquote : ascii := "034"%char.

Definition quoted (s : string) : string :=
  String dquote (s ++ String dquote EmptyString).

(** [sub in s] on two strings *)
Fixpoint contains_substr (sub s : string) : bool :=
  prefix sub s ||
  match s with
  | EmptyString => false
  | String _ s' => contains_substr sub s'
  end.

(* ================================================================== *)
(** * The fence pattern of [_parse_response]

    [re.sub(r'```json\s*|\s*```', '', text)]: the text is scanned from the
    left; at each position the first alternative is tried before the second;
    a match is deleted and the scan resumes after it.  Both alternatives
    hold three backticks, so no match is empty. *)

Definition fence : string := "```".
Definition fence_json : string := "```json".

(** Number of leading whitespace characters: what a greedy [\s*] takes. *)
Fixpoint space_run (s : string) : nat :=
  match s with
  | EmptyString => 0
  | String c s' => if isspace c then S (space_run s') else 0
  end.

(** Length of the match of the pattern at the head of [s], if any.  In the
    second alternative a shorter run of whitespace never helps: the character
    after it would be whitespace, not a backtick. *)
Definition fence_match (s : string) : option nat :=
  if prefix fence_json s then
    Some (String.length fence_json + space_run (drop (String.length fence_json) s))
  else
    let n := space_run s in
    if prefix fence (drop n s) then Some (n + String.length fence) else None.

(** The scan; [skip] counts the characters of the current match still to be
    dropped. *)
Fixpoint sub_scan (skip : nat) (s : string) : string :=
  match s with
  | EmptyString => EmptyString
  | String c s' =>
      match skip with
      | S k => sub_scan k s'
      | O =>
          match fence_match s with
          | Some (S k) => sub_scan k s'
          | _ => String c (sub_scan 0 s')
          end
      end
  end.

Definition re_sub_fences (text : string) : string := sub_scan 0 text.

(** The two cleanup lines of [_parse_response]. *)
Definition clean_text (response_text : string) : string :=
  strip (re_sub_fences response_text).

(* ================================================================== *)
(** * Dicts and the dynamic operations the code uses *)

Definition pydict : Type := list (string * pyval).

Fixpoint dict_get (d : pydict) (k : string) : option pyval :=
  match d with
  | [] => None
  | (k', v) :: d' => if String.eqb k' k then Some v else dict_get d' k
  end.

Definition dict_mem (d : pydict) (k : string) : bool :=
  match dict_get d k with Some _ => true | None => false end.

(** [d[k] = v]: an existing key keeps its place, a new key goes last. *)
Fixpoint dict_set (d : pydict) (k : string) (v : pyval) : pydict :=
  match d with
  | [] => [(k, v)]
  | (k', v') :: d' =>
      if String.eqb k' k then (k', v) :: d' else (k', v') :: dict_set d' k v
  end.

(** [o.get(k, default)] *)
Definition py_get (o : pyval) (k : string) (default : pyval) : outcome pyval :=
  match o with
  | VDict d =>
      match dict_get d k with
      | Some v => Ok v
      | None => Ok default
      end
  | _ => raise AttributeError
           ("'" ++ type_name o ++ "' object has no attribute 'get'")
  end.

Definition is_str (k : string) (v : pyval) : bool :=
  match v with
  | VStr s => String.eqb s k
  | _ => false
  end.

(** [k in o] for a string [k] *)
Definition py_contains (k : string) (o : pyval) : outcome bool :=
  match o with
  | VDict d => Ok (dict_mem d k)
  | VList l => Ok (existsb (is_str k) l)
  | VStr s => Ok (contains_substr k s)
  | _ => raise TypeError
           ("argument of type '" ++ type_name o ++ "' is not iterable")
  end.

(** [o[k] = v] for a string [k] *)
Definition py_setitem (o : pyval) (k : string) (v : pyval) : outcome pyval :=
  match o with
  | VDict d => Ok (VDict (dict_set d k v))
  | VList _ => raise TypeError "list indices must be integers or slices, not str"
  | _ => raise TypeError
           ("'" ++ type_name o ++ "' object does not support item assignment")
  end.

(** [len(o)] *)
Definition py_len (o : pyval) : outcome nat :=
  match o with
  | VStr s => Ok (String.length s)
  | VList l => Ok (List.length l)
  | VDict d => Ok (List.length d)
  | _ => raise TypeError
           ("object of type '" ++ type_name o ++ "' has no len()")
  end.

Fixpoint chars (s : string) : list pyval :=
  match s with
  | EmptyString => []
  | String c s' => VStr (String c EmptyString) :: chars s'
  end.

(** The items a [for] loop over [o] visits. *)
Definition py_iter (o : pyval) : outcome (list pyval) :=
  match o with
  | VList l => Ok l
  | VStr s => Ok (chars s)
  | VDict d => Ok (map (fun kv => VStr (fst kv)) d)
  | _ => raise TypeError ("'" ++ type_name o ++ "' object is not iterable")
  end.

(** Truth value of [o], as [if o:] and [not o] take it. *)
Definition py_truthy (o : pyval) : bool :=
  match o with
  | VNone => false
  | VBool b => b
  | VInt z => negb (Z.eqb z 0)
  | VStr s => negb (String.eqb s EmptyString)
  | VList l => negb (Nat.eqb (List.length l) 0)
  | VDict d => negb (Nat.eqb (List.length d) 0)
  end.

(* ================================================================== *)
(** * ResponseNormalizer: [_parse_response] *)

(** The four top-level keys and the values they are back-filled with. *)
Definition default_resources : pyval := VList [].
Definition default_architecture_pattern : pyval := VStr "Not identified".
Definition default_summary : pyval := VStr "No summary available".
Definition default_confidence : pyval := VStr "medium".

(** [if k not in result: result[k] = v] *)
Definition backfill (result : pyval) (k : string) (v : pyval) : outcome pyval :=
  present <- py_contains k result ;;
  if negb present then py_setitem result k v else Ok result.

Section Normalizer.

(** [json.loads] belongs to the Python library, not to this repository: it
    is a parameter of the normaliser.  A text that is not valid JSON makes
    it raise a [JSONDecodeError]. *)
Variable json_loads : string -> outcome pyval.

Definition _parse_response (response_text : string) : outcome pyval :=
  let cleaned_text := re_sub_fences response_text in
  let cleaned_text := strip cleaned_text in
  result <- json_loads cleaned_text ;;
  result <- backfill result "resources" default_resources ;;
  result <- backfill result "architecture_pattern" default_architecture_pattern ;;
  result <- backfill result "summary" default_summary ;;
  result <- backfill result "confidence" default_confidence ;;
  Ok result.

(* ---------------------------------------------------------------- *)
(** ** The orchestrator boundary: [analyze_diagram] *)

(** [_create_error_response], with the time stamp it reads. *)
Definition _create_error_response (timestamp : string) (error_message : string)
  : pyval :=
  VDict [ ("metadata", VDict [ ("success", VBool false);
                               ("error", VStr error_message);
                               ("timestamp", VStr timestamp) ]);
          ("resources", VList []);
          ("architecture_pattern", VStr "Error");
          ("summary", VStr error_message);
          ("confidence", VStr "N/A") ].

(** [str(e)] *)
Definition str_exn (e : exn) : string := exn_msg e.

(** [except json.JSONDecodeError] *)
Definition is_json_decode_error (e : exn) : bool :=
  match exn_cls e with
  | JSONDecodeError => true
  | _ => false
  end.

(** The body of the [try]: [response] is what
    [self.model.generate_content([prompt, image])] followed by
    [response.text] yields, a text or an exception; [clock n] is the n-th
    reading of [datetime.now().isoformat()]. *)
Definition analyze_try (model_name : string) (clock : nat -> string)
           (response : outcome string) : outcome pyval :=
  text <- response ;;
  result <- _parse_response text ;;
  py_setitem result "metadata"
    (VDict [ ("success", VBool true);
             ("model", VStr model_name);
             ("timestamp", VStr (clock 0)) ]).

(** Number of clock readings made inside the [try] before it raised: the
    time stamp of the metadata is read before the item assignment. *)
Definition readings_before_raise (response : outcome string) : nat :=
  match response with
  | Raised _ => 0
  | Ok text =>
      match _parse_response text with
      | Raised _ => 0
      | Ok _ => 1
      end
  end.

Definition analyze_diagram (model_name : string) (clock : nat -> string)
           (response : outcome string) : pyval :=
  match analyze_try model_name clock response with
  | Ok result => result
  | Raised e =>
      let timestamp := clock (readings_before_raise response) in
      if is_json_decode_error e then
        _create_error_response timestamp
          ("Failed to parse AI response as JSON: " ++ str_exn e)
      else
        _create_error_response timestamp
          ("Analysis error: " ++ str_exn e)
  end.

End Normalizer.

(* ================================================================== *)
(** * A reader for a fragment of JSON

    A stand-in for [json.loads] on which the model can be run: objects,
    arrays, strings with the one-letter escapes, integers, [true], [false]
    and [null].  Its messages are not CPython's: a rejected text is reported
    as "Expecting value" and text after the value as "Extra data", with no
    position.  It rejects numbers with a fraction or an exponent and [\u]
    escapes, which the model of values does not hold.  The theorems on the normaliser are stated for
    every [json_loads]; this reader only instantiates them. *)

Module MiniJson.

Definition backslash : ascii := "092"%char.

Definition is_ws (c : ascii) : bool :=
  let n := nat_of_ascii c in
  ((n =? 32) || (n =? 9) || (n =? 10) || (n =? 13))%nat.

Fixpoint skip_ws (s : string) : string :=
  match s with
  | EmptyString => EmptyString
  | String c s' => if is_ws c then skip_ws s' else s
  end.

Definition is_digit (c : ascii) : bool :=
  let n := nat_of_ascii c in ((48 <=? n) && (n <=? 57))%nat.

Fixpoint read_digits (acc : Z) (s : string) : Z * string :=
  match s with
  | EmptyString => (acc, s)
  | String c s' =>
      if is_digit c
      then read_digits (10 * acc + Z.of_nat (nat_of_ascii c - 48)) s'
      else (acc, s)
  end.

Definition starts_float_tail (s : string) : bool :=
  match s with
  | String c _ => Ascii.eqb c "." || Ascii.eqb c "e" || Ascii.eqb c "E"
  | EmptyString => false
  end.

(** [0] or a digit from 1 to 9 followed by digits; no fraction. *)
Definition read_nat (s : string) : option (Z * string) :=
  match s with
  | String c s' =>
      if Ascii.eqb c "0" then
        if starts_float_tail s' then None else Some (0%Z, s')
      else if is_digit c then
        let '(z, rest) := read_digits 0 s in
        if starts_float_tail rest then None else Some (z, rest)
      else None
  | EmptyString => None
  end.

Definition unescape (c : ascii) : option ascii :=
  if Ascii.eqb c dquote then Some dquote
  else if Ascii.eqb c backslash then Some backslash
  else if Ascii.eqb c "/" then Some "/"%char
  else if Ascii.eqb c "b" then Some "008"%char
  else if Ascii.eqb c "f" then Some "012"%char
  else if Ascii.eqb c "n" then Some "010"%char
  else if Ascii.eqb c "r" then Some "013"%char
  else if Ascii.eqb c "t" then Some "009"%char
  else None.

(** The text after an opening quote, up to the closing one. *)
Fixpoint read_string (s : string) : option (string * string) :=
  match s with
  | EmptyString => None
  | String c r =>
      if Ascii.eqb c dquote then Some (EmptyString, r)
      else if Ascii.eqb c backslash then
        match r with
        | String e r' =>
            match unescape e, read_string r' with
            | Some c', Some (t, rest) => Some (String c' t, rest)
            | _, _ => None
            end
        | EmptyString => None
        end
      else if (nat_of_ascii c <? 32)%nat then None
      else
        match read_string r with
        | Some (t, rest) => Some (String c t, rest)
        | None => None
        end
  end.

Definition read_literal (lit : string) (v : pyval) (s : string)
  : option (pyval * string) :=
  if prefix lit s then Some (v, drop (String.length lit) s) else None.

Fixpoint read_value (fuel : nat) (s : string) : option (pyval * string) :=
  match fuel with
  | O => None
  | S f =>
      match skip_ws s with
      | EmptyString => None
      | String c r =>
          if Ascii.eqb c "{" then
            match skip_ws r with
            | String c' r' =>
                if Ascii.eqb c' "}" then Some (VDict [], r')
                else read_members f (String c' r') []
            | EmptyString => None
            end
          else if Ascii.eqb c "[" then
            match skip_ws r with
            | String c' r' =>
                if Ascii.eqb c' "]" then Some (VList [], r')
                else read_elements f (String c' r') []
            | EmptyString => None
            end
          else if Ascii.eqb c dquote then
            match read_string r with
            | Some (t, rest) => Some (VStr t, rest)
            | None => None
            end
          else if Ascii.eqb c "-" then
            match read_nat r with
            | Some (z, rest) => Some (VInt (- z), rest)
            | None => None
            end
          else if is_digit c then
            match read_nat (String c r) with
            | Some (z, rest) => Some (VInt z, rest)
            | None => None
            end
          else if Ascii.eqb c "t" then read_literal "true" (VBool true) (String c r)
          else if Ascii.eqb c "f" then read_literal "false" (VBool false) (String c r)
          else if Ascii.eqb c "n" then read_literal "null" VNone (String c r)
          else None
      end
  end

with read_members (fuel : nat) (s : string) (acc : pydict)
  : option (pyval * string) :=
  match fuel with
  | O => None
  | S f =>
      match s with
      | String q r =>
          if Ascii.eqb q dquote then
            match read_string r with
            | Some (k, r1) =>
                match skip_ws r1 with
                | String colon r2 =>
                    if Ascii.eqb colon ":" then
                      match read_value f r2 with
                      | Some (v, r3) =>
                          match skip_ws r3 with
                          | String sep r4 =>
                              if Ascii.eqb sep "," then
                                read_members f (skip_ws r4) (dict_set acc k v)
                              else if Ascii.eqb sep "}" then
                                Some (VDict (dict_set acc k v), r4)
                              else None
                          | EmptyString => None
                          end
                      | None => None
                      end
                    else None
                | EmptyString => None
                end
            | None => None
            end
          else None
      | EmptyString => None
      end
  end

with read_elements (fuel : nat) (s : string) (acc : list pyval)
  : option (pyval * string) :=
  match fuel with
  | O => None
  | S f =>
      match read_value f s with
      | Some (v, r1) =>
          match skip_ws r1 with
          | String sep r2 =>
              if Ascii.eqb sep "," then read_elements f r2 (acc ++ [v])%list
              else if Ascii.eqb sep "]" then Some (VList (acc ++ [v])%list, r2)
              else None
          | EmptyString => None
          end
      | None => None
      end
  end.

Definition loads (s : string) : outcome pyval :=
  match read_value (S (String.length s)) s with
  | Some (v, rest) =>
      match skip_ws rest with
      | EmptyString => Ok v
      | _ => raise JSONDecodeError "Extra data"
      end
  | None => raise JSONDecodeError "Expecting value"
  end.

End MiniJson.

(* ================================================================== *)
(** * Dicts and sets keyed by values

    [categories], [stats['resources_by_category']] and the [set] of
    categories are keyed by whatever [resource.get('category', 'Other')]
    returns.  Keys are compared as Python compares them: [True] and [1] are
    one key. *)

Definition kdict (V : Type) : Type := list (pyval * V).

Definition key_num (v : pyval) : option Z :=
  match v with
  | VInt z => Some z
  | VBool b => Some (if b then 1%Z else 0%Z)
  | _ => None
  end.

(** [a == b] on hashable values *)
Definition key_eqb (a b : pyval) : bool :=
  match a, b with
  | VNone, VNone => true
  | VStr s, VStr t => String.eqb s t
  | _, _ =>
      match key_num a, key_num b with
      | Some x, Some y => Z.eqb x y
      | _, _ => false
      end
  end.

(** Hashing a list or a dict raises. *)
Definition check_hashable (v : pyval) : outcome unit :=
  match v with
  | VList _ | VDict _ =>
      raise TypeError ("unhashable type: '" ++ type_name v ++ "'")
  | _ => Ok tt
  end.

Fixpoint kdict_get {V} (d : kdict V) (k : pyval) : option V :=
  match d with
  | [] => None
  | (k', v) :: d' => if key_eqb k' k then Some v else kdict_get d' k
  end.

Definition kdict_mem {V} (d : kdict V) (k : pyval) : bool :=
  match kdict_get d k with Some _ => true | None => false end.

(** [d[k] = v]: an existing entry keeps its place and its key object. *)
Fixpoint kdict_set {V} (d : kdict V) (k : pyval) (v : V) : kdict V :=
  match d with
  | [] => [(k, v)]
  | (k', v') :: d' =>
      if key_eqb k' k then (k', v) :: d' else (k', v') :: kdict_set d' k v
  end.

(** [d.get(k, default)] *)
Definition kdict_get_default {V} (d : kdict V) (k : pyval) (default : V) : V :=
  match kdict_get d k with Some v => v | None => default end.

(** [set.add] on a set kept in order of first insertion *)
Definition set_add (seen : list pyval) (k : pyval) : list pyval :=
  if existsb (fun k' => key_eqb k' k) seen then seen else (seen ++ [k])%list.

(** [a < b] *)
Definition py_lt (a b : pyval) : outcome bool :=
  match a, b with
  | VStr s, VStr t => Ok (String.ltb s t)
  | _, _ =>
      match key_num a, key_num b with
      | Some x, Some y => Ok (Z.ltb x y)
      | _, _ =>
          raise TypeError
            ("'<' not supported between instances of '" ++ type_name a
             ++ "' and '" ++ type_name b ++ "'")
      end
  end.

(** [sorted(d.items())]: the items of a dict have pairwise different keys, so
    two items are ordered by their keys alone.  The sort is an insertion
    sort; keys that cannot be ordered raise a [TypeError], whose message names
    the two types of the comparison this insertion fails on (CPython's sort
    may meet another pair first). *)
Fixpoint insert_item {V} (x : pyval * V) (l : list (pyval * V))
  : outcome (list (pyval * V)) :=
  match l with
  | [] => Ok [x]
  | y :: l' =>
      lt <- py_lt (fst x) (fst y) ;;
      if lt then Ok (x :: y :: l')
      else (r <- insert_item x l' ;; Ok (y :: r))
  end.

Definition py_sorted_items {V} (items : list (pyval * V))
  : outcome (list (pyval * V)) :=
  for_each (fun acc x => insert_item x acc) items [].

(* ================================================================== *)
(** * ResourceAggregator *)

(** [resource.get('category', 'Other')] *)
Definition category_of (resource : pyval) : outcome pyval :=
  py_get resource "category" (VStr "Other").

(** [len(r.get('connections', []))] *)
Definition connection_count (r : pyval) : outcome nat :=
  c <- py_get r "connections" (VList []) ;;
  py_len c.

(** The body of the loop of [get_resources_by_category]. *)
Definition group_step (categories : kdict (list pyval)) (resource : pyval)
  : outcome (kdict (list pyval)) :=
  category <- category_of resource ;;
  _ <- check_hashable category ;;
  let categories :=
    if negb (kdict_mem categories category)
    then kdict_set categories category []
    else categories in
  Ok (kdict_set categories category
        (kdict_get_default categories category [] ++ [resource])%list).

Definition get_resources_by_category (result : pyval)
  : outcome (kdict (list pyval)) :=
  resources <- py_get result "resources" (VList []) ;;
  items <- py_iter resources ;;
  categories <- for_each group_step items [] ;;
  py_sorted_items categories.

(** [stats['most_connected_resource']] *)
Record most_connected : Type :=
  { name : pyval; connections : nat }.

Record statistics : Type :=
  { total_resources : nat;
    total_categories : nat;
    total_connections : nat;
    resources_by_category : kdict nat;
    most_connected_resource : option most_connected;
    confidence : pyval }.

(** [max(items, key=key)]: the running maximum is replaced only by a
    strictly greater key. *)
Fixpoint max_scan (key : pyval -> outcome nat) (best : pyval) (best_key : nat)
         (rest : list pyval) : outcome pyval :=
  match rest with
  | [] => Ok best
  | r :: rest' =>
      k <- key r ;;
      if (best_key <? k)%nat then max_scan key r k rest'
      else max_scan key best best_key rest'
  end.

Definition py_max (key : pyval -> outcome nat) (items : list pyval)
  : outcome pyval :=
  match items with
  | [] => raise ValueError "max() arg is an empty sequence"
  | x :: rest => k <- key x ;; max_scan key x k rest
  end.

(** One element of the generator given to [set]. *)
Definition category_seen (seen : list pyval) (r : pyval) : outcome (list pyval) :=
  c <- category_of r ;;
  _ <- check_hashable c ;;
  Ok (set_add seen c).

(** One term of the [sum] of connection counts. *)
Definition add_connections (acc : nat) (r : pyval) : outcome nat :=
  k <- connection_count r ;;
  Ok (acc + k)%nat.

(** The body of the counting loop. *)
Definition count_step (by_category : kdict nat) (resource : pyval)
  : outcome (kdict nat) :=
  category <- category_of resource ;;
  _ <- check_hashable category ;;
  Ok (kdict_set by_category category
        (kdict_get_default by_category category 0 + 1)%nat).

Definition get_resource_statistics (result : pyval) : outcome statistics :=
  resources <- py_get result "resources" (VList []) ;;
  n_resources <- py_len resources ;;
  items <- py_iter resources ;;
  categories <- for_each category_seen items [] ;;
  n_connections <- for_each add_connections items 0%nat ;;
  conf <- py_get result "confidence" (VStr "N/A") ;;
  by_category <- for_each count_step items [] ;;
  most <- (if py_truthy resources then
             most_connected <- py_max connection_count items ;;
             nm <- py_get most_connected "resource_name" (VStr "Unknown") ;;
             k <- connection_count most_connected ;;
             Ok (Some {| name := nm; connections := k |})
           else Ok None) ;;
  Ok {| total_resources := n_resources;
        total_categories := List.length categories;
        total_connections := n_connections;
        resources_by_category := by_category;
        most_connected_resource := most;
        confidence := conf |}.

(* ================================================================== *)
(** * ReportExporter: [display_resources_table] of [app1.py] *)

(** A row of [df_data]; the columns are 'Resource Name', 'Type', 'Category',
    'Connections' and 'Description'. *)
Record table_row : Type :=
  { Resource_Name : pyval;
    Type_ : pyval;
    Category : pyval;
    Connections : nat;
    Description : pyval }.

(** What the function shows below its header: the warning, or the table. *)
Inductive table_view : Type :=
| st_warning (text : string)
| st_dataframe (df_data : list table_row).

(** [o[:n]] *)
Definition py_slice_to (n : nat) (o : pyval) : outcome pyval :=
  match o with
  | VStr s => Ok (VStr (substring 0 n s))
  | VList l => Ok (VList (firstn n l))
  | VDict _ => raise TypeError "unhashable type: 'slice'"
  | _ => raise TypeError ("'" ++ type_name o ++ "' object is not subscriptable")
  end.

(** [o + '...'] *)
Definition py_add_str (o : pyval) (s : string) : outcome pyval :=
  match o with
  | VStr t => Ok (VStr (t ++ s))
  | VList _ => raise TypeError ("can only concatenate list (not " ++ quoted "str" ++ ") to list")
  | _ => raise TypeError
           ("unsupported operand type(s) for +: '" ++ type_name o
            ++ "' and 'str'")
  end.

Definition max_description : nat := 100.
Definition ellipsis : string := "...".

(** The 'Description' cell: the condition of the conditional expression is
    evaluated first, then one of its two branches. *)
Definition description_cell (resource : pyval) : outcome pyval :=
  d <- py_get resource "description" (VStr EmptyString) ;;
  n <- py_len d ;;
  if (max_description <? n)%nat then
    d' <- py_get resource "description" (VStr EmptyString) ;;
    cut <- py_slice_to max_description d' ;;
    py_add_str cut ellipsis
  else py_get resource "description" (VStr EmptyString).

Definition table_row_of (resource : pyval) : outcome table_row :=
  nm <- py_get resource "resource_name" (VStr EmptyString) ;;
  ty <- py_get resource "resource_type" (VStr EmptyString) ;;
  cat <- py_get resource "category" (VStr EmptyString) ;;
  k <- connection_count resource ;;
  descr <- description_cell resource ;;
  Ok {| Resource_Name := nm; Type_ := ty; Category := cat;
        Connections := k; Description := descr |}.

Definition display_resources_table (result : pyval) : outcome table_view :=
  resources <- py_get result "resources" (VList []) ;;
  if negb (py_truthy resources) then Ok (st_warning "No resources to display.")
  else
    items <- py_iter resources ;;
    df_data <- for_each (fun rows resource =>
                           row <- table_row_of resource ;;
                           Ok (rows ++ [row])%list) items [] ;;
    Ok (st_dataframe df_data).

(* ================================================================== *)
(** * Vocabulary of the properties

    The definitions from here on are not in the source: they name the shapes
    of the inputs, the pure readings of the loops and the sample data that
    the properties are stated with. *)

(* ------------------------------------------------------------------ *)
(** ** The normaliser *)

(** [if k not in d: d[k] = v] on a dict *)
Definition fill (d : pydict) (k : string) (v : pyval) : pydict :=
  if dict_mem d k then d else dict_set d k v.

(** The dict [_parse_response] returns on the dict [d]. *)
Definition with_defaults (d : pydict) : pydict :=
  fill (fill (fill (fill d "resources" default_resources)
                   "architecture_pattern" default_architecture_pattern)
             "summary" default_summary)
       "confidence" default_confidence.

(** The text [{"summary": "two tiers"}] inside a fenced block. *)
Definition sample_fenced : string :=
  "```json" ++ String "010"%char
    ("{" ++ quoted "summary" ++ ": " ++ quoted "two tiers" ++ "}"
     ++ String "010"%char "```").

(* ------------------------------------------------------------------ *)
(** ** The back-fill on a value that is not a dict *)

(** The four back-fills of [_parse_response], on the parsed value. *)
Definition backfill_all (v : pyval) : outcome pyval :=
  result <- backfill v "resources" default_resources ;;
  result <- backfill result "architecture_pattern" default_architecture_pattern ;;
  result <- backfill result "summary" default_summary ;;
  result <- backfill result "confidence" default_confidence ;;
  Ok result.

Definition is_dict (v : pyval) : bool :=
  match v with VDict _ => true | _ => false end.

(** [k in v] holds: [v] is a list with the element [k] or a string with the
    substring [k]. *)
Definition holds_name (k : string) (v : pyval) : bool :=
  match v with
  | VList l => existsb (is_str k) l
  | VStr s => contains_substr k s
  | _ => false
  end.

Definition holds_all_names (v : pyval) : bool :=
  holds_name "resources" v && holds_name "architecture_pattern" v
  && holds_name "summary" v && holds_name "confidence" v.

(* ------------------------------------------------------------------ *)
(** ** The error boundary *)

(** The message of the handler that catches [e]. *)
Definition handler_message (e : exn) : string :=
  if is_json_decode_error e
  then "Failed to parse AI response as JSON: " ++ exn_msg e
  else "Analysis error: " ++ exn_msg e.

(** The text of an array holding the four key names. *)
Definition array_of_key_names : string :=
  "[" ++ quoted "resources" ++ "," ++ quoted "architecture_pattern" ++ ","
      ++ quoted "summary" ++ "," ++ quoted "confidence" ++ "]".

(* ------------------------------------------------------------------ *)
(** ** Fenced blocks *)

Definition newline : string := String "010"%char EmptyString.

(** The text [{}] in a fenced block that starts after a line break. *)
Definition fenced_after_newline : string :=
  newline ++ "```json" ++ newline ++ "{}" ++ newline ++ "```".

(* ------------------------------------------------------------------ *)
(** ** The texts around a fenced block *)

(** Every character of [w] is white space. *)
Fixpoint all_space (w : string) : bool :=
  match w with
  | EmptyString => true
  | String c w' => isspace c && all_space w'
  end.

(** Neither white space nor a backtick. *)
Definition solid (c : ascii) : bool :=
  negb (isspace c) && negb (Ascii.eqb c "`").

(** The text is empty or starts with a solid character. *)
Definition starts_solid (s : string) : bool :=
  match s with
  | EmptyString => true
  | String c _ => solid c
  end.

(** The text is empty or ends with a solid character. *)
Fixpoint ends_solid (s : string) : bool :=
  match s with
  | EmptyString => true
  | String c EmptyString => solid c
  | String _ s' => ends_solid s'
  end.

(** What may follow the text inside a fenced block: nothing, or the closing
    fence and white space. *)
Definition closing (rest : string) : Prop :=
  rest = EmptyString
  \/ exists w, all_space w = true /\ rest = fence ++ w.

(** The text is empty or starts with white space or a backtick. *)
Definition starts_loose (t : string) : Prop :=
  match t with
  | EmptyString => True
  | String c _ => solid c = false
  end.

(** No proper split of the pattern [p] has its first part ending on a solid
    character and its second part at the head of [t]. *)
Fixpoint no_straddle (p t : string) : bool :=
  match p with
  | EmptyString => true
  | String a p' =>
      match p' with
      | EmptyString => true
      | _ => negb (solid a) || negb (prefix p' t)
      end && no_straddle p' t
  end.

(* ------------------------------------------------------------------ *)
(** ** Dicts whose keys are strings

    When every category is a string, the dicts keyed by values are the image
    of association lists keyed by strings. *)

Definition skeys {V : Type} (g : list (string * V)) : kdict V :=
  map (fun kv => (VStr (fst kv), snd kv)) g.

Fixpoint s_get {V : Type} (g : list (string * V)) (k : string) : option V :=
  match g with
  | [] => None
  | (k', v) :: g' => if String.eqb k' k then Some v else s_get g' k
  end.

Fixpoint s_set {V : Type} (g : list (string * V)) (k : string) (v : V)
  : list (string * V) :=
  match g with
  | [] => [(k, v)]
  | (k', v') :: g' =>
      if String.eqb k' k then (k', v) :: g' else (k', v') :: s_set g' k v
  end.

(* ------------------------------------------------------------------ *)
(** ** Resources of the shape the data model gives them *)

(** The resource is a dict whose [category], when present, is a string. *)
Definition str_category (r : pyval) : bool :=
  match r with
  | VDict d =>
      match dict_get d "category" with
      | None | Some (VStr _) => true
      | Some _ => false
      end
  | _ => false
  end.

(** The resource is a dict whose [connections], when present, is a list. *)
Definition list_connections (r : pyval) : bool :=
  match r with
  | VDict d =>
      match dict_get d "connections" with
      | None | Some (VList _) => true
      | Some _ => false
      end
  | _ => false
  end.

(** The category string the aggregator reads on such a resource. *)
Definition category_str (r : pyval) : string :=
  match r with
  | VDict d =>
      match dict_get d "category" with
      | Some (VStr s) => s
      | _ => "Other"
      end
  | _ => "Other"
  end.

(** The number of connections the aggregator reads on such a resource. *)
Definition conn_count (r : pyval) : nat :=
  match r with
  | VDict d =>
      match dict_get d "connections" with
      | Some (VList l) => List.length l
      | _ => 0
      end
  | _ => 0
  end.

(** [result.get('resources', [])] is the list [rs]. *)
Definition resources_are (result : pyval) (rs : list pyval) : Prop :=
  py_get result "resources" (VList []) = Ok (VList rs).

(* ------------------------------------------------------------------ *)
(** ** Grouping, on string keys *)

Definition bucket (g : list (string * list pyval)) (k : string) : list pyval :=
  match s_get g k with Some b => b | None => [] end.

(** The loop body of [get_resources_by_category]. *)
Definition bucket_add (g : list (string * list pyval)) (r : pyval)
  : list (string * list pyval) :=
  s_set g (category_str r) (bucket g (category_str r) ++ [r])%list.

Definition has_category (k : string) (r : pyval) : bool :=
  String.eqb (category_str r) k.

(* ------------------------------------------------------------------ *)
(** ** Sorting items by string keys *)

Definition key_lt (a b : string) : Prop := String.ltb a b = true.

Fixpoint s_insert {V : Type} (x : string * V) (l : list (string * V))
  : list (string * V) :=
  match l with
  | [] => [x]
  | y :: l' =>
      if String.ltb (fst x) (fst y) then x :: y :: l'
      else y :: s_insert x l'
  end.

Definition s_sort_from {V : Type} (acc l : list (string * V)) : list (string * V) :=
  fold_left (fun acc x => s_insert x acc) l acc.

Definition s_sort {V : Type} (l : list (string * V)) : list (string * V) :=
  s_sort_from [] l.

(** The grouping of the resources [rs], on string keys. *)
Definition grouped (rs : list pyval) : list (string * list pyval) :=
  s_sort (fold_left bucket_add rs []).

(** Two resources, the first in "Storage" and the second in "Compute". *)
Definition storage_then_compute : pyval :=
  VDict [ ("resources",
           VList [ VDict [("resource_name", VStr "blob");
                          ("category", VStr "Storage")];
                   VDict [("resource_name", VStr "vm");
                          ("category", VStr "Compute")] ]) ].

(* ------------------------------------------------------------------ *)
(** ** Statistics, on string keys *)

(** A resource of the shape the statistics need. *)
Definition well_shaped (r : pyval) : bool :=
  str_category r && list_connections r.

Definition count (g : list (string * nat)) (k : string) : nat :=
  match s_get g k with Some n => n | None => 0 end.

(** The body of the counting loop. *)
Definition count_add (g : list (string * nat)) (r : pyval)
  : list (string * nat) :=
  s_set g (category_str r) (count g (category_str r) + 1).

(** One insertion into the set of categories. *)
Definition seen_add (seen : list string) (r : pyval) : list string :=
  if existsb (fun k' => String.eqb k' (category_str r)) seen then seen
  else (seen ++ [category_str r])%list.

(** The scan of [max], on connection counts that are numbers. *)
Fixpoint first_max (best : pyval) (rest : list pyval) : pyval :=
  match rest with
  | [] => best
  | r :: rest' =>
      if (conn_count best <? conn_count r)%nat then first_max r rest'
      else first_max best rest'
  end.

(** [most_connected.get('resource_name', 'Unknown')] on a dict *)
Definition name_or_unknown (r : pyval) : pyval :=
  match r with
  | VDict d =>
      match dict_get d "resource_name" with
      | Some v => v
      | None => VStr "Unknown"
      end
  | _ => VStr "Unknown"
  end.

Definition most_connected_of (rs : list pyval) : option most_connected :=
  match rs with
  | [] => None
  | x :: rest =>
      let m := first_max x rest in
      Some {| name := name_or_unknown m; connections := conn_count m |}
  end.

(** [result.get('confidence', 'N/A')] on a dict *)
Definition confidence_or_na (result : pyval) : pyval :=
  match result with
  | VDict d =>
      match dict_get d "confidence" with
      | Some v => v
      | None => VStr "N/A"
      end
  | _ => VStr "N/A"
  end.

(** The statistics of a result whose resources are the well-shaped [rs]. *)
Definition statistics_of (result : pyval) (rs : list pyval) : statistics :=
  {| total_resources := List.length rs;
     total_categories := List.length (fold_left seen_add rs []);
     total_connections := fold_left (fun acc r => acc + conn_count r) rs 0;
     resources_by_category := skeys (fold_left count_add rs []);
     most_connected_resource := most_connected_of rs;
     confidence := confidence_or_na result |}.

(** The resources A (connected to B) and B (connected to A and C). *)
Definition two_resources : pyval :=
  VDict [ ("resources",
           VList [ VDict [ ("resource_name", VStr "A");
                           ("connections", VList [VStr "B"]) ];
                   VDict [ ("resource_name", VStr "B");
                           ("connections", VList [VStr "A"; VStr "C"]) ] ]) ].

(** Three resources: one in "Compute", two without a category. *)
Definition three_resources : list pyval :=
  [ VDict [ ("resource_name", VStr "vm"); ("category", VStr "Compute") ];
    VDict [ ("resource_name", VStr "x") ];
    VDict [ ("resource_name", VStr "y"); ("connections", VList [VStr "x"]) ] ].

(** The resource has no [category] key. *)
Definition category_missing (r : pyval) : bool :=
  match r with
  | VDict d =>
      match dict_get d "category" with
      | None => true
      | Some _ => false
      end
  | _ => false
  end.

(** The resource has no [category] key, or its category is "Other". *)
Definition missing_or_other (r : pyval) : bool :=
  match r with
  | VDict d =>
      match dict_get d "category" with
      | None => true
      | Some (VStr s) => String.eqb s "Other"
      | Some _ => false
      end
  | _ => false
  end.

(** A resource without a category, after one in "Other". *)
Definition other_and_missing : list pyval :=
  [ VDict [ ("resource_name", VStr "misc"); ("category", VStr "Other") ];
    VDict [ ("resource_name", VStr "bare") ] ].

(** A resource whose category is the empty string. *)
Definition unnamed_category : pyval :=
  VDict [ ("resource_name", VStr "db"); ("category", VStr EmptyString) ].

(* ------------------------------------------------------------------ *)
(** ** The table *)

(** The resource is a dict whose [description], when present, is a string. *)
Definition str_description (r : pyval) : bool :=
  match r with
  | VDict d =>
      match dict_get d "description" with
      | None | Some (VStr _) => true
      | Some _ => false
      end
  | _ => false
  end.

(** A resource of the shape the table needs. *)
Definition table_shaped (r : pyval) : bool :=
  list_connections r && str_description r.

(** [resource.get(k, '')] on a dict *)
Definition field_or_empty (r : pyval) (k : string) : pyval :=
  match r with
  | VDict d =>
      match dict_get d k with
      | Some v => v
      | None => VStr EmptyString
      end
  | _ => VStr EmptyString
  end.

(** The description string the table reads on such a resource. *)
Definition description_str (r : pyval) : string :=
  match r with
  | VDict d =>
      match dict_get d "description" with
      | Some (VStr s) => s
      | _ => EmptyString
      end
  | _ => EmptyString
  end.

Definition truncated (s : string) : string :=
  if (max_description <? String.length s)%nat
  then substring 0 max_description s ++ ellipsis
  else s.

Definition row_of (r : pyval) : table_row :=
  {| Resource_Name := field_or_empty r "resource_name";
     Type_ := field_or_empty r "resource_type";
     Category := field_or_empty r "category";
     Connections := conn_count r;
     Description := VStr (truncated (description_str r)) |}.

(** A row is the row of a resource: the name, type and category cells are
    the fields read with the default [''], the connections cell is the
    number of connections, and the description cell is the description, cut
    to its first 100 characters and followed by [...] when it is longer than
    100 characters, untouched otherwise. *)
Definition row_matches (r : pyval) (row : table_row) : Prop :=
  Resource_Name row = field_or_empty r "resource_name"
  /\ Type_ row = field_or_empty r "resource_type"
  /\ Category row = field_or_empty r "category"
  /\ Connections row = conn_count r
  /\ (String.length (description_str r) <= 100 ->
      Description row = VStr (description_str r))
  /\ (100 < String.length (description_str r) ->
      exists cut,
        Description row = VStr (cut ++ "...")
        /\ String.length cut = 100
        /\ prefix cut (description_str r) = true).

(** A description of 150 characters and one of 90 characters. *)
Definition chars_10 : string := "0123456789".
Definition chars_50 : string :=
  chars_10 ++ chars_10 ++ chars_10 ++ chars_10 ++ chars_10.
Definition chars_90 : string :=
  chars_50 ++ chars_10 ++ chars_10 ++ chars_10 ++ chars_10.
Definition chars_100 : string := chars_50 ++ chars_50.
Definition chars_150 : string := chars_100 ++ chars_50.

Definition long_and_short : list pyval :=
  [ VDict [ ("resource_name", VStr "long"); ("description", VStr chars_150) ];
    VDict [ ("resource_name", VStr "short"); ("description", VStr chars_90);
            ("connections", VList [VStr "long"]) ] ].

(* ================================================================== *)
(** * The rest of [DiagramAnalyzer] *)

(** [model_mapping] of [__init__] *)
Definition model_mapping : list (string * string) :=
  [ ("gemini-1.5-flash", "gemini-1.5-flash-latest");
    ("gemini-1.5-pro", "gemini-1.5-pro-latest");
    ("gemini-1.5-flash-latest", "gemini-1.5-flash-latest");
    ("gemini-1.5-pro-latest", "gemini-1.5-pro-latest") ].

(** [m.get(k, default)] on a dict from strings to strings *)
Fixpoint mapping_get (m : list (string * string)) (k default : string)
  : string :=
  match m with
  | [] => default
  | (k', v) :: m' => if String.eqb k' k then v else mapping_get m' k default
  end.

(** The attributes [__init__] stores; the Gemini client it configures is
    outside the model. *)
Record DiagramAnalyzer : Type :=
  { api_key : string; model_name : string }.

(** The default of the parameter [model_name]. *)
Definition default_model_name : string := "gemini-1.5-flash".

Definition __init__ (api_key model_name : string) : DiagramAnalyzer :=
  {| api_key := api_key;
     model_name := mapping_get model_mapping model_name
                     "gemini-1.5-flash-latest" |}.

(** The dict [export_to_dict] returns: its keys are fixed. *)
Record exported : Type :=
  { export_architecture_pattern : pyval;
    export_summary : pyval;
    export_confidence : pyval;
    export_resources : pyval;
    export_statistics : statistics;
    export_metadata : pyval }.

Definition export_to_dict (result : pyval) : outcome exported :=
  pattern <- py_get result "architecture_pattern" (VStr "Not identified") ;;
  summary <- py_get result "summary" (VStr "No summary available") ;;
  conf <- py_get result "confidence" (VStr "N/A") ;;
  resources <- py_get result "resources" (VList []) ;;
  stats <- get_resource_statistics result ;;
  metadata <- py_get result "metadata" (VDict []) ;;
  Ok {| export_architecture_pattern := pattern;
        export_summary := summary;
        export_confidence := conf;
        export_resources := resources;
        export_statistics := stats;
        export_metadata := metadata |}.

(* ================================================================== *)
(** * The rest of [app1.py] *)

(** The test of [main] on a result:
    [result.get('metadata', {}).get('success')], taken as a condition. *)
Definition metadata_success (result : pyval) : outcome bool :=
  metadata <- py_get result "metadata" (VDict []) ;;
  success <- py_get metadata "success" VNone ;;
  Ok (py_truthy success).

(** [str(n)] for a number that is not negative *)
Definition decimal (n : nat) : string :=
  NilZero.string_of_uint (Nat.to_uint n).

(** What a display function puts on the page.  Titles are kept without their
    leading pictograph, which is not a code point below 256; the layout
    calls ([st.columns], [with col]) put nothing on the page by
    themselves. *)
Inductive widget : Type :=
| st_header (title : string)
| st_markdown (body : string).

(** A display function runs to its end or to an exception; what it put on
    the page before stays there. *)
Definition ui (A : Type) : Type := (list widget * outcome A)%type.

Definition ui_bind {A B} (m : ui A) (k : A -> ui B) : ui B :=
  match m with
  | (shown, Ok a) => let (shown', r) := k a in ((shown ++ shown')%list, r)
  | (shown, Raised e) => (shown, Raised e)
  end.

Definition emit (w : widget) : ui unit := ([w], Ok tt).

Definition lift {A} (o : outcome A) : ui A := ([], o).

Notation "x <~ m ;; k" := (ui_bind m (fun x => k))
  (at level 61, m at next level, right associativity) : py_scope.

(** The box of [display_statistics]: the f-string with [value] in its
    heading and [label] in its paragraph. *)
Definition stat_box (value label : string) : string :=
  newline ++ "        <div class=" ++ quoted "stat-box" ++ ">" ++ newline
  ++ "            <h2>" ++ value ++ "</h2>" ++ newline
  ++ "            <p>" ++ label ++ "</p>" ++ newline
  ++ "        </div>" ++ newline
  ++ "        ".

Section StatisticsView.

(** [str.upper] belongs to Python; its results leave the code points below
    256 (on [y] with diaeresis, for one), so it is a parameter. *)
Variable str_upper : string -> string.

(** [o.upper()] *)
Definition py_upper (o : pyval) : outcome string :=
  match o with
  | VStr s => Ok (str_upper s)
  | _ => raise AttributeError
           ("'" ++ type_name o ++ "' object has no attribute 'upper'")
  end.

Definition display_statistics (result : pyval) : ui unit :=
  _ <~ emit (st_header "Analysis Statistics") ;;
  resources <~ lift (py_get result "resources" (VList [])) ;;
  metadata <~ lift (py_get result "metadata" (VDict [])) ;;
  n_resources <~ lift (py_len resources) ;;
  _ <~ emit (st_markdown (stat_box (decimal n_resources) "Total Resources")) ;;
  items <~ lift (py_iter resources) ;;
  categories <~ lift (for_each category_seen items []) ;;
  _ <~ emit (st_markdown
               (stat_box (decimal (List.length categories)) "Categories")) ;;
  total_connections <~ lift (for_each add_connections items 0%nat) ;;
  _ <~ emit (st_markdown
               (stat_box (decimal total_connections) "Connections")) ;;
  conf <~ lift (py_get result "confidence" (VStr "N/A")) ;;
  upper <~ lift (py_upper conf) ;;
  emit (st_markdown (stat_box upper "Confidence")).

End StatisticsView.

(** [sep.join(o)]: the items must be strings. *)
Fixpoint join_items (sep : string) (items : list pyval) (i : nat)
  : outcome string :=
  match items with
  | [] => Ok EmptyString
  | VStr s :: items' =>
      match items' with
      | [] => Ok s
      | _ => rest <- join_items sep items' (S i) ;; Ok (s ++ sep ++ rest)
      end
  | v :: _ =>
      raise TypeError
        ("sequence item " ++ decimal i ++ ": expected str instance, "
         ++ type_name v ++ " found")
  end.

Definition py_join (sep : string) (o : pyval) : outcome string :=
  match o with
  | VList l => join_items sep l 0
  | VStr s => join_items sep (chars s) 0
  | VDict d => join_items sep (map (fun kv => VStr (fst kv)) d) 0
  | _ => raise TypeError "can only join an iterable"
  end.

(** A row of the [df_data] that [display_export_options] builds for the CSV
    download; the columns are 'Resource Name', 'Resource Type', 'Category',
    'Description', 'Connections' and 'Connection Count'. *)
Record csv_row : Type :=
  { csv_Resource_Name : pyval;
    csv_Resource_Type : pyval;
    csv_Category : pyval;
    csv_Description : pyval;
    csv_Connections : string;
    csv_Connection_Count : nat }.

Definition csv_row_of (resource : pyval) : outcome csv_row :=
  nm <- py_get resource "resource_name" (VStr EmptyString) ;;
  ty <- py_get resource "resource_type" (VStr EmptyString) ;;
  cat <- py_get resource "category" (VStr EmptyString) ;;
  descr <- py_get resource "description" (VStr EmptyString) ;;
  conns <- py_get resource "connections" (VList []) ;;
  joined <- py_join "; " conns ;;
  k <- connection_count resource ;;
  Ok {| csv_Resource_Name := nm; csv_Resource_Type := ty;
        csv_Category := cat; csv_Description := descr;
        csv_Connections := joined; csv_Connection_Count := k |}.

(** The CSV column of [display_export_options]: the rows given to
    [pd.DataFrame], or nothing when there are no resources. *)
Definition export_csv_rows (result : pyval) : outcome (option (list csv_row)) :=
  resources <- py_get result "resources" (VList []) ;;
  if py_truthy resources then
    items <- py_iter resources ;;
    df_data <- for_each (fun rows resource =>
                           row <- csv_row_of resource ;;
                           Ok (rows ++ [row])%list) items [] ;;
    Ok (Some df_data)
  else Ok None.

(* ================================================================== *)
(** * Vocabulary of the further properties

    As above: shapes, pure readings and sample data, none of them in the
    source. *)

(* ------------------------------------------------------------------ *)
(** ** The analysis result and what reads it *)

(** The metadata of a successful analysis. *)
Definition success_metadata (model : string) (timestamp : string) : pyval :=
  VDict [ ("success", VBool true);
          ("model", VStr model);
          ("timestamp", VStr timestamp) ].

(** The text [{"metadata": 1, "summary": "s"}]. *)
Definition text_with_metadata : string :=
  "{" ++ quoted "metadata" ++ ": 1, " ++ quoted "summary" ++ ": "
      ++ quoted "s" ++ "}".

(** The statistics of a result without resources. *)
Definition empty_statistics (conf : pyval) : statistics :=
  {| total_resources := 0;
     total_categories := 0;
     total_connections := 0;
     resources_by_category := [];
     most_connected_resource := None;
     confidence := conf |}.

(* ------------------------------------------------------------------ *)
(** ** Responses without a backtick *)

(** The text holds no backtick. *)
Fixpoint no_backtick (s : string) : bool :=
  match s with
  | EmptyString => true
  | String c s' => negb (Ascii.eqb c "`") && no_backtick s'
  end.

(* ------------------------------------------------------------------ *)
(** ** [display_statistics] *)

(** The page up to the third box. *)
Definition three_boxes (st : statistics) : list widget :=
  [ st_header "Analysis Statistics";
    st_markdown (stat_box (decimal (total_resources st)) "Total Resources");
    st_markdown (stat_box (decimal (total_categories st)) "Categories");
    st_markdown (stat_box (decimal (total_connections st)) "Connections") ].

Definition is_strv (v : pyval) : bool :=
  match v with VStr _ => true | _ => false end.

(** The text [{"confidence": null}]. *)
Definition text_null_confidence : string :=
  "{" ++ quoted "confidence" ++ ": null}".

(* ------------------------------------------------------------------ *)
(** ** The CSV rows of [display_export_options] *)

(** The resource is a dict whose [connections], when present, is a list of
    strings. *)
Definition str_connections (r : pyval) : bool :=
  match r with
  | VDict d =>
      match dict_get d "connections" with
      | None => true
      | Some (VList l) => forallb is_strv l
      | Some _ => false
      end
  | _ => false
  end.

Fixpoint strings_of (l : list pyval) : list string :=
  match l with
  | [] => []
  | VStr s :: l' => s :: strings_of l'
  | _ :: l' => strings_of l'
  end.

(** The names a resource is connected to. *)
Definition connection_names (r : pyval) : list string :=
  match r with
  | VDict d =>
      match dict_get d "connections" with
      | Some (VList l) => strings_of l
      | _ => []
      end
  | _ => []
  end.

Definition csv_of (r : pyval) : csv_row :=
  {| csv_Resource_Name := field_or_empty r "resource_name";
     csv_Resource_Type := field_or_empty r "resource_type";
     csv_Category := field_or_empty r "category";
     csv_Description := field_or_empty r "description";
     csv_Connections := String.concat "; " (connection_names r);
     csv_Connection_Count := List.length (connection_names r) |}.

(** A row of the table and a row of the CSV export say the same of their
    resource: same name, type and category, same number of connections; the
    description of the table is the description of the export, cut when it is
    longer than 100 characters. *)
Definition rows_agree (row : table_row) (crow : csv_row) : Prop :=
  Resource_Name row = csv_Resource_Name crow
  /\ Type_ row = csv_Resource_Type crow
  /\ Category row = csv_Category crow
  /\ Connections row = csv_Connection_Count crow
  /\ exists s, csv_Description crow = VStr s
               /\ Description row = VStr (truncated s).

(** A resource connected to "db" and to the number 3. *)
Definition number_connection : pydict :=
  [ ("resource_name", VStr "api");
    ("connections", VList [VStr "db"; VInt 3]) ].

(* ------------------------------------------------------------------ *)
(** ** Results that are not of the expected shape *)

(** The exception of [o.get] on a value that is not a dict. *)
Definition no_get (v : pyval) : exn :=
  Exn AttributeError ("'" ++ type_name v ++ "' object has no attribute 'get'").

(** The text [{"resources": ["vm"]}]. *)
Definition text_resource_name_only : string :=
  "{" ++ quoted "resources" ++ ": [" ++ quoted "vm" ++ "]}".

(** [None], a boolean or a number: a value with no length and no items. *)
Definition is_scalar (v : pyval) : bool :=
  match v with
  | VNone | VBool _ | VInt _ => true
  | _ => false
  end.

(** The text [{"resources": null}]. *)
Definition text_null_resources : string :=
  "{" ++ quoted "resources" ++ ": null}".

(* ------------------------------------------------------------------ *)
(** ** Categories that are not all strings *)

(** The kinds of keys that [<] separates: strings, numbers (with the
    booleans), [None], and the values that cannot be keys. *)
Definition key_class (v : pyval) : nat :=
  match v with
  | VStr _ => 0
  | VInt _ | VBool _ => 1
  | VNone => 2
  | VList _ | VDict _ => 3
  end.

(** What [resource.get('category', 'Other')] returns on a dict. *)
Definition category_val (r : pyval) : pyval :=
  match r with
  | VDict d =>
      match dict_get d "category" with
      | Some v => v
      | None => VStr "Other"
      end
  | _ => VStr "Other"
  end.

(** The resource is a dict whose [category], when present, can be a key. *)
Definition hashable_category (r : pyval) : bool :=
  match r with
  | VDict d =>
      match dict_get d "category" with
      | Some (VList _) | Some (VDict _) => false
      | _ => true
      end
  | _ => false
  end.

(** A resource in the category "Compute" and one in the category 7. *)
Definition string_and_number : list pyval :=
  [ VDict [ ("resource_name", VStr "vm"); ("category", VStr "Compute") ];
    VDict [ ("resource_name", VStr "x"); ("category", VInt 7) ] ].

(* ================================================================== *)
(** * Facts on dicts *)

Lemma dict_get_set (d : pydict) (k k' : string) (v : pyval) :
  dict_get (dict_set d k v) k' =
  if String.eqb k k' then Some v else dict_get d k'.
Proof.
  induction d as [|[k0 v0] d IH]; simpl.
  - reflexivity.
  - destruct (String.eqb k0 k) eqn:E0; simpl.
    + apply String.eqb_eq in E0; subst k0.
      destruct (String.eqb k k'); reflexivity.
    + destruct (String.eqb k0 k') eqn:E1.
      * destruct (String.eqb k k') eqn:E2; [|reflexivity].
        apply String.eqb_eq in E1, E2; subst.
        rewrite String.eqb_refl in E0. discriminate.
      * apply IH.
Qed.

Lemma backfill_dict (d : pydict) (k : string) (v : pyval) :
  backfill (VDict d) k v = Ok (VDict (fill d k v)).
Proof.
  unfold backfill, fill; simpl.
  destruct (dict_mem d k); reflexivity.
Qed.

Lemma dict_get_fill (d : pydict) (k k' : string) (v : pyval) :
  dict_get (fill d k v) k' =
  match dict_get d k' with
  | Some x => Some x
  | None => if String.eqb k k' then Some v else None
  end.
Proof.
  unfold fill, dict_mem.
  destruct (dict_get d k) eqn:Ek.
  - destruct (dict_get d k') eqn:Ek'; [reflexivity|].
    destruct (String.eqb k k') eqn:E; [|reflexivity].
    apply String.eqb_eq in E; subst k'. congruence.
  - rewrite dict_get_set.
    destruct (String.eqb k k') eqn:E.
    + apply String.eqb_eq in E; subst k'. rewrite Ek. reflexivity.
    + destruct (dict_get d k'); reflexivity.
Qed.

Lemma parse_response_dict (json_loads : string -> outcome pyval)
      (text : string) (d : pydict) :
  json_loads (clean_text text) = Ok (VDict d) ->
  _parse_response json_loads text = Ok (VDict (with_defaults d)).
Proof.
  intros H. unfold _parse_response. fold (clean_text text). rewrite H.
  simpl bind.
  repeat (rewrite backfill_dict; simpl bind).
  reflexivity.
Qed.

Lemma dict_get_with_defaults (d : pydict) (k : string) :
  dict_get (with_defaults d) k =
  match dict_get d k with
  | Some x => Some x
  | None =>
      if String.eqb "resources" k then Some default_resources
      else if String.eqb "architecture_pattern" k
           then Some default_architecture_pattern
      else if String.eqb "summary" k then Some default_summary
      else if String.eqb "confidence" k then Some default_confidence
      else None
  end.
Proof.
  unfold with_defaults. rewrite !dict_get_fill.
  destruct (dict_get d k); [reflexivity|].
  destruct (String.eqb "resources" k); [reflexivity|].
  destruct (String.eqb "architecture_pattern" k); [reflexivity|].
  destruct (String.eqb "summary" k); reflexivity.
Qed.

(* ================================================================== *)
(** * Properties of the normaliser *)

(** C1.  When the cleaned text parses to a JSON object [d], [_parse_response]
    returns a dict that keeps every key of [d] with its value and in which a
    missing [confidence] is "medium", a missing [architecture_pattern] is
    "Not identified", a missing [summary] is "No summary available" and a
    missing [resources] is the empty list; no other key is added. *)
Theorem parse_response_backfills_defaults
        (json_loads : string -> outcome pyval) (text : string) (d : pydict) :
  json_loads (clean_text text) = Ok (VDict d) ->
  exists d',
    _parse_response json_loads text = Ok (VDict d')
    /\ (forall k v, dict_get d k = Some v -> dict_get d' k = Some v)
    /\ (dict_get d "confidence" = None ->
        dict_get d' "confidence" = Some (VStr "medium"))
    /\ (dict_get d "architecture_pattern" = None ->
        dict_get d' "architecture_pattern" = Some (VStr "Not identified"))
    /\ (dict_get d "summary" = None ->
        dict_get d' "summary" = Some (VStr "No summary available"))
    /\ (dict_get d "resources" = None ->
        dict_get d' "resources" = Some (VList []))
    /\ (forall k, dict_get d k = None -> dict_get d' k <> None ->
        In k ["resources"; "architecture_pattern"; "summary"; "confidence"]).
Proof.
  intros H. exists (with_defaults d).
  split; [exact (parse_response_dict json_loads text d H)|].
  split; [intros k v Hk; rewrite dict_get_with_defaults, Hk; reflexivity|].
  repeat split.
  - intros Hk. rewrite dict_get_with_defaults, Hk. reflexivity.
  - intros Hk. rewrite dict_get_with_defaults, Hk. reflexivity.
  - intros Hk. rewrite dict_get_with_defaults, Hk. reflexivity.
  - intros Hk. rewrite dict_get_with_defaults, Hk. reflexivity.
  - intros k Hk Hk'. rewrite dict_get_with_defaults, Hk in Hk'.
    destruct (String.eqb "resources" k) eqn:E1;
      [apply String.eqb_eq in E1; subst k; simpl; auto|].
    destruct (String.eqb "architecture_pattern" k) eqn:E2;
      [apply String.eqb_eq in E2; subst k; simpl; auto|].
    destruct (String.eqb "summary" k) eqn:E3;
      [apply String.eqb_eq in E3; subst k; simpl; auto|].
    destruct (String.eqb "confidence" k) eqn:E4;
      [apply String.eqb_eq in E4; subst k; simpl; auto 6|].
    congruence.
Qed.

Lemma parse_response_backfills_defaults_witness :
  exists d',
    _parse_response MiniJson.loads sample_fenced = Ok (VDict d')
    /\ dict_get d' "summary" = Some (VStr "two tiers")
    /\ dict_get d' "confidence" = Some (VStr "medium").
Proof.
  destruct (parse_response_backfills_defaults MiniJson.loads sample_fenced
              [("summary", VStr "two tiers")] eq_refl)
    as (d' & Hd' & Hkept & Hconf & _).
  exists d'. split; [exact Hd'|]. split.
  - apply Hkept. reflexivity.
  - apply Hconf. reflexivity.
Defined.

(** C2.  When the cleaned text is not valid JSON, so that the parser raises a
    [JSONDecodeError] with message [msg], [_parse_response] raises that same
    [JSONDecodeError] with that same message and returns no result. *)
Theorem parse_response_propagates_parse_error
        (json_loads : string -> outcome pyval) (text msg : string) :
  json_loads (clean_text text) = Raised (Exn JSONDecodeError msg) ->
  _parse_response json_loads text = Raised (Exn JSONDecodeError msg)
  /\ forall result, _parse_response json_loads text <> Ok result.
Proof.
  intros H.
  assert (E : _parse_response json_loads text = Raised (Exn JSONDecodeError msg)).
  { unfold _parse_response. fold (clean_text text). rewrite H. reflexivity. }
  split; [exact E|]. intros result. rewrite E. discriminate.
Qed.

Lemma parse_response_propagates_parse_error_witness :
  _parse_response MiniJson.loads "{" = Raised (Exn JSONDecodeError "Expecting value")
  /\ forall result, _parse_response MiniJson.loads "{" <> Ok result.
Proof.
  apply (parse_response_propagates_parse_error MiniJson.loads "{" "Expecting value").
  reflexivity.
Defined.

Lemma parse_response_unfold (json_loads : string -> outcome pyval)
      (text : string) :
  _parse_response json_loads text =
  (v <- json_loads (clean_text text) ;; backfill_all v).
Proof. reflexivity. Qed.

Lemma backfill_non_dict (v : pyval) (k : string) (x : pyval) :
  is_dict v = false ->
  (holds_name k v = true /\ backfill v k x = Ok v)
  \/ (holds_name k v = false
      /\ exists m, backfill v k x = Raised (Exn TypeError m)).
Proof.
  intros Hv. unfold backfill.
  destruct v; simpl in *; try discriminate;
    try (right; split; [reflexivity|eexists; reflexivity]).
  - destruct (contains_substr k s); simpl;
      [left; auto | right; split; [reflexivity|eexists; reflexivity]].
  - destruct (existsb (is_str k) l); simpl;
      [left; auto | right; split; [reflexivity|eexists; reflexivity]].
Qed.

Lemma backfill_all_non_dict (v : pyval) :
  is_dict v = false ->
  (holds_all_names v = true /\ backfill_all v = Ok v)
  \/ (holds_all_names v = false
      /\ exists m, backfill_all v = Raised (Exn TypeError m)).
Proof.
  intros Hv. unfold backfill_all, holds_all_names.
  destruct (backfill_non_dict v "resources" default_resources Hv)
    as [[-> ->]|[-> [m ->]]];
    [simpl bind|right; split; [reflexivity|exists m; reflexivity]].
  destruct (backfill_non_dict v "architecture_pattern"
              default_architecture_pattern Hv)
    as [[-> ->]|[-> [m ->]]];
    [simpl bind|right; split; [reflexivity|exists m; reflexivity]].
  destruct (backfill_non_dict v "summary" default_summary Hv)
    as [[-> ->]|[-> [m ->]]];
    [simpl bind|right; split; [reflexivity|exists m; reflexivity]].
  destruct (backfill_non_dict v "confidence" default_confidence Hv)
    as [[-> ->]|[-> [m ->]]];
    [simpl bind|right; split; [reflexivity|exists m; reflexivity]].
  left. split; reflexivity.
Qed.

Lemma backfill_all_dict (d : pydict) :
  backfill_all (VDict d) = Ok (VDict (with_defaults d)).
Proof.
  unfold backfill_all.
  repeat (rewrite backfill_dict; simpl bind).
  reflexivity.
Qed.

(** A dict returned by [_parse_response] is the parsed dict with its
    defaults. *)
Lemma parse_response_ok_dict (json_loads : string -> outcome pyval)
      (text : string) (d' : pydict) :
  _parse_response json_loads text = Ok (VDict d') ->
  exists d, json_loads (clean_text text) = Ok (VDict d)
            /\ d' = with_defaults d.
Proof.
  rewrite parse_response_unfold.
  destruct (json_loads (clean_text text)) as [v|e]; [|discriminate].
  simpl bind. intros H.
  destruct (is_dict v) eqn:Hv.
  - destruct v; try discriminate.
    rewrite backfill_all_dict in H. injection H as <-.
    exists d. split; reflexivity.
  - destruct (backfill_all_non_dict v Hv) as [[_ E]|[_ [m E]]];
      rewrite E in H; [|discriminate].
    injection H as ->. discriminate.
Qed.

(* ------------------------------------------------------------------ *)
(** ** The error boundary *)

Lemma analyze_diagram_raised (json_loads : string -> outcome pyval)
      (model_name : string) (clock : nat -> string)
      (response : outcome string) (e : exn) :
  analyze_try json_loads model_name clock response = Raised e ->
  analyze_diagram json_loads model_name clock response =
  _create_error_response
    (clock (readings_before_raise json_loads response)) (handler_message e).
Proof.
  intros H. unfold analyze_diagram, handler_message. rewrite H.
  destruct (is_json_decode_error e); reflexivity.
Qed.

Lemma dict_mem_with_defaults (d : pydict) (k : string) :
  In k ["resources"; "architecture_pattern"; "summary"; "confidence"] ->
  dict_get (with_defaults d) k <> None.
Proof.
  intros Hk. rewrite dict_get_with_defaults.
  destruct (dict_get d k); [discriminate|].
  simpl in Hk.
  destruct Hk as [<-|[<-|[<-|[<-|[]]]]]; simpl; discriminate.
Qed.

(** C3.  A failure of the AI call ([response] is an exception [e]) and a
    failure of [_parse_response] on the text received (it raises [e]) both
    make [analyze_diagram] return the error result
    [{metadata: {success: False, error: m, timestamp}, resources: [],
      architecture_pattern: "Error", summary: m, confidence: "N/A"}],
    where [m] is the handler's message for [e].  Whatever the response,
    [analyze_diagram] returns a value: either a result of that error shape,
    or a dict with the four normalised keys and [metadata.success = True]. *)
Theorem analyze_diagram_error_result
        (json_loads : string -> outcome pyval) (model_name : string)
        (clock : nat -> string) (response : outcome string) :
  (forall e,
      response = Raised e \/
      (exists text, response = Ok text
                    /\ _parse_response json_loads text = Raised e) ->
      analyze_diagram json_loads model_name clock response =
      VDict [ ("metadata", VDict [ ("success", VBool false);
                                   ("error", VStr (handler_message e));
                                   ("timestamp", VStr (clock 0)) ]);
              ("resources", VList []);
              ("architecture_pattern", VStr "Error");
              ("summary", VStr (handler_message e));
              ("confidence", VStr "N/A") ])
  /\ ((exists m ts,
          analyze_diagram json_loads model_name clock response =
          VDict [ ("metadata", VDict [ ("success", VBool false);
                                       ("error", VStr m);
                                       ("timestamp", VStr ts) ]);
                  ("resources", VList []);
                  ("architecture_pattern", VStr "Error");
                  ("summary", VStr m);
                  ("confidence", VStr "N/A") ])
      \/ (exists d,
             analyze_diagram json_loads model_name clock response = VDict d
             /\ dict_get d "metadata" =
                Some (VDict [ ("success", VBool true);
                              ("model", VStr model_name);
                              ("timestamp", VStr (clock 0)) ])
             /\ forall k,
                 In k ["resources"; "architecture_pattern"; "summary";
                       "confidence"] ->
                 dict_get d k <> None)).
Proof.
  split.
  - intros e [-> | (text & -> & Hp)].
    + rewrite (analyze_diagram_raised _ _ _ _ e) by reflexivity. reflexivity.
    + rewrite (analyze_diagram_raised _ _ _ _ e).
      * simpl. rewrite Hp. reflexivity.
      * simpl. rewrite Hp. reflexivity.
  - destruct (analyze_try json_loads model_name clock response) as [r|e] eqn:Ht.
    + right. destruct response as [text|e]; [|discriminate].
      simpl in Ht.
      destruct (_parse_response json_loads text) as [v|e] eqn:Hp;
        [|discriminate].
      simpl in Ht.
      destruct v; try discriminate.
      injection Ht as <-.
      destruct (parse_response_ok_dict _ _ _ Hp) as (d0 & _ & ->).
      eexists. split.
      * unfold analyze_diagram. simpl. rewrite Hp. reflexivity.
      * split.
        -- rewrite dict_get_set. reflexivity.
        -- intros k Hk. rewrite dict_get_set.
           destruct (String.eqb "metadata" k); [discriminate|].
           apply dict_mem_with_defaults, Hk.
    + left. exists (handler_message e),
        (clock (readings_before_raise json_loads response)).
      rewrite (analyze_diagram_raised _ _ _ _ e Ht). reflexivity.
Qed.

Lemma analyze_diagram_error_result_witness :
  analyze_diagram MiniJson.loads "gemini-1.5-flash-latest"
    (fun _ => "2026-01-01T00:00:00") (Ok "{") =
  VDict [ ("metadata",
           VDict [ ("success", VBool false);
                   ("error",
                    VStr "Failed to parse AI response as JSON: Expecting value");
                   ("timestamp", VStr "2026-01-01T00:00:00") ]);
          ("resources", VList []);
          ("architecture_pattern", VStr "Error");
          ("summary",
           VStr "Failed to parse AI response as JSON: Expecting value");
          ("confidence", VStr "N/A") ].
Proof.
  apply (proj1 (analyze_diagram_error_result MiniJson.loads
                  "gemini-1.5-flash-latest" (fun _ => "2026-01-01T00:00:00")
                  (Ok "{"))
               (Exn JSONDecodeError "Expecting value")).
  right. exists "{". split; reflexivity.
Defined.

(* ------------------------------------------------------------------ *)
(** ** A top-level value that is not an object *)

(** C8, as the code has it.  When the cleaned text parses to a value [v] that
    is not an object, [_parse_response] raises no [JSONDecodeError]: the
    back-fill of the first key that [v] does not hold raises a [TypeError],
    and when [v] is a list or a string holding all four key names, [v] is
    returned as it is. *)
Theorem parse_response_non_object
        (json_loads : string -> outcome pyval) (text : string) (v : pyval) :
  json_loads (clean_text text) = Ok v ->
  is_dict v = false ->
  (forall m, _parse_response json_loads text <> Raised (Exn JSONDecodeError m))
  /\ (holds_all_names v = false ->
      exists m, _parse_response json_loads text = Raised (Exn TypeError m))
  /\ (holds_all_names v = true ->
      _parse_response json_loads text = Ok v).
Proof.
  intros Hl Hv. rewrite parse_response_unfold, Hl. simpl bind.
  destruct (backfill_all_non_dict v Hv) as [[Hn E]|[Hn [m E]]]; rewrite E.
  - split; [discriminate|]. split; [congruence|reflexivity].
  - split; [discriminate|]. split; [exists m; reflexivity|congruence].
Qed.

Lemma parse_response_non_object_witness :
  exists m, _parse_response MiniJson.loads "[]" = Raised (Exn TypeError m).
Proof.
  apply (proj1 (proj2 (parse_response_non_object MiniJson.loads "[]" (VList [])
                         eq_refl eq_refl))).
  reflexivity.
Defined.

(** C8 as stated fails on the text [[]]: it parses to a top-level array, and
    [_parse_response] raises a [TypeError], not a [JSONDecodeError]. *)
Lemma top_level_array_raises_type_error :
  MiniJson.loads (clean_text "[]") = Ok (VList [])
  /\ _parse_response MiniJson.loads "[]" =
     Raised (Exn TypeError "list indices must be integers or slices, not str")
  /\ ~ (exists m,
           _parse_response MiniJson.loads "[]" = Raised (Exn JSONDecodeError m)).
Proof.
  split; [reflexivity|]. split; [reflexivity|].
  intros [m H]. discriminate H.
Qed.

(** An array holding the four key names is returned unchanged. *)
Example top_level_array_returned :
  _parse_response MiniJson.loads array_of_key_names =
  Ok (VList [VStr "resources"; VStr "architecture_pattern"; VStr "summary";
             VStr "confidence"]).
Proof. reflexivity. Qed.

(* ================================================================== *)
(** * Where the fence pattern does strip a fenced block *)

Lemma append_assoc (a b c : string) : (a ++ b) ++ c = a ++ (b ++ c).
Proof. induction a as [|x a IH]; simpl; [reflexivity|rewrite IH; reflexivity]. Qed.

Lemma append_nil_r (a : string) : a ++ EmptyString = a.
Proof. induction a as [|x a IH]; simpl; [reflexivity|rewrite IH; reflexivity]. Qed.

Lemma all_space_app (a b : string) :
  all_space (a ++ b) = all_space a && all_space b.
Proof.
  induction a as [|x a IH]; simpl; [reflexivity|].
  rewrite IH, andb_assoc. reflexivity.
Qed.

Lemma drop_app_length (w s : string) : drop (String.length w) (w ++ s) = s.
Proof. induction w as [|c w IH]; simpl; [destruct s; reflexivity|exact IH]. Qed.

Lemma sub_scan_skip (k : nat) (s : string) :
  sub_scan k s = sub_scan 0 (drop k s).
Proof.
  revert k. induction s as [|c s IH]; intros k.
  - destruct k; reflexivity.
  - destruct k as [|k]; [reflexivity|].
    simpl sub_scan at 1. rewrite IH. reflexivity.
Qed.

Lemma fence_match_pos (s : string) (n : nat) :
  fence_match s = Some n -> 3 <= n.
Proof.
  unfold fence_match.
  destruct (prefix fence_json s); [intros [= <-]; simpl; lia|].
  destruct (prefix fence (drop (space_run s) s)); [|discriminate].
  intros [= <-]. simpl. lia.
Qed.

(** One step of the scan: a match at the head is dropped, otherwise the head
    character is kept. *)
Lemma sub_scan_step (c : ascii) (s : string) :
  sub_scan 0 (String c s) =
  match fence_match (String c s) with
  | Some n => sub_scan 0 (drop n (String c s))
  | None => String c (sub_scan 0 s)
  end.
Proof.
  simpl sub_scan at 1.
  destruct (fence_match (String c s)) as [n|] eqn:E; [|reflexivity].
  apply fence_match_pos in E. destruct n as [|k]; [lia|].
  rewrite sub_scan_skip. reflexivity.
Qed.

Lemma sub_scan_match (s : string) (n : nat) :
  fence_match s = Some n -> sub_scan 0 s = sub_scan 0 (drop n s).
Proof.
  destruct s as [|c s].
  - intros _. destruct n; reflexivity.
  - intros E. rewrite sub_scan_step, E. reflexivity.
Qed.

(* ------------------------------------------------------------------ *)
(** ** White space *)

Lemma space_run_app (w s : string) :
  all_space w = true ->
  space_run (w ++ s) = String.length w + space_run s.
Proof.
  induction w as [|c w IH]; simpl; [reflexivity|].
  intros H. apply andb_true_iff in H. destruct H as [Hc Hw].
  rewrite Hc, (IH Hw). reflexivity.
Qed.

Lemma space_run_solid (s : string) :
  starts_solid s = true -> space_run s = 0.
Proof.
  destruct s as [|c s]; simpl; [reflexivity|].
  unfold solid. intros H. apply andb_true_iff in H. destruct H as [H _].
  destruct (isspace c); [discriminate|reflexivity].
Qed.

Lemma isspace_not_backtick (c : ascii) : isspace c = true -> Ascii.eqb c "`" = false.
Proof.
  destruct (Ascii.eqb c "`") eqn:E; [|reflexivity].
  apply Ascii.eqb_eq in E. subst c. discriminate.
Qed.

Lemma prefix_cons (a : ascii) (p : string) (c : ascii) (s : string) :
  prefix (String a p) (String c s) = Ascii.eqb a c && prefix p s.
Proof.
  simpl. destruct (ascii_dec a c) as [->|Hne].
  - rewrite Ascii.eqb_refl. reflexivity.
  - apply Ascii.eqb_neq in Hne. rewrite Hne. reflexivity.
Qed.

(** No match starts on white space that is followed by a loose-free text:
    a text that is empty or starts with a solid character. *)
Lemma fence_match_space (w s : string) :
  all_space w = true -> starts_solid s = true -> w ++ s <> EmptyString ->
  fence_match (w ++ s) = None.
Proof.
  intros Hw Hs Hne. unfold fence_match.
  assert (H1 : prefix fence_json (w ++ s) = false).
  { destruct w as [|c w]; simpl append.
    - destruct s as [|c s]; [exfalso; apply Hne; reflexivity|].
      unfold fence_json. rewrite prefix_cons.
      simpl in Hs. unfold solid in Hs.
      apply andb_true_iff in Hs. destruct Hs as [_ Hs].
      rewrite Ascii.eqb_sym. destruct (Ascii.eqb c "`"); [discriminate|reflexivity].
    - unfold fence_json. rewrite prefix_cons.
      simpl in Hw. apply andb_true_iff in Hw. destruct Hw as [Hc _].
      rewrite Ascii.eqb_sym, (isspace_not_backtick c Hc). reflexivity. }
  rewrite H1, (space_run_app _ _ Hw), (space_run_solid _ Hs), Nat.add_0_r.
  rewrite drop_app_length.
  destruct s as [|c s]; [reflexivity|].
  unfold fence. rewrite prefix_cons.
  simpl in Hs. unfold solid in Hs.
  apply andb_true_iff in Hs. destruct Hs as [_ Hs].
  rewrite Ascii.eqb_sym. destruct (Ascii.eqb c "`"); [discriminate|reflexivity].
Qed.

(** White space before a solid character is kept by the scan. *)
Lemma sub_scan_space (w s : string) :
  all_space w = true -> starts_solid s = true ->
  sub_scan 0 (w ++ s) = w ++ sub_scan 0 s.
Proof.
  intros Hw Hs. induction w as [|c w IH]; [reflexivity|].
  simpl append. rewrite sub_scan_step.
  change (String c (w ++ s)) with (String c w ++ s).
  rewrite (fence_match_space (String c w) s Hw Hs) by discriminate.
  simpl in Hw. apply andb_true_iff in Hw. destruct Hw as [_ Hw].
  rewrite (IH Hw). reflexivity.
Qed.

Lemma sub_scan_all_space (w : string) :
  all_space w = true -> sub_scan 0 w = w.
Proof.
  intros Hw. rewrite <- (append_nil_r w) at 1.
  rewrite (sub_scan_space w EmptyString Hw eq_refl). simpl.
  apply append_nil_r.
Qed.

(* ------------------------------------------------------------------ *)
(** ** A match cannot straddle the end of a text that ends solid *)

Lemma prefix_nil_r (p : string) :
  prefix p EmptyString = match p with EmptyString => true | _ => false end.
Proof. destruct p; reflexivity. Qed.

Lemma ends_solid_tail (c : ascii) (s : string) :
  ends_solid (String c s) = true -> ends_solid s = true.
Proof. destruct s; [reflexivity|]. simpl. auto. Qed.

Lemma prefix_app_solid (p x t : string) :
  no_straddle p t = true -> x <> EmptyString -> ends_solid x = true ->
  prefix p (x ++ t) = prefix p x.
Proof.
  revert p. induction x as [|c x IH]; intros p Hp Hne Hx; [congruence|].
  destruct p as [|a p]; [reflexivity|].
  simpl append. rewrite !prefix_cons.
  destruct (Ascii.eqb a c) eqn:E; [|reflexivity]. simpl.
  apply Ascii.eqb_eq in E. subst a.
  simpl in Hp. apply andb_true_iff in Hp. destruct Hp as [Hsplit Hp].
  destruct x as [|c' x].
  - simpl append. rewrite prefix_nil_r.
    destruct p as [|a p]; [destruct t; reflexivity|].
    simpl in Hx. rewrite Hx in Hsplit. simpl in Hsplit.
    destruct (prefix (String a p) t); [discriminate|reflexivity].
  - apply IH; [exact Hp|discriminate|exact (ends_solid_tail _ _ Hx)].
Qed.

Lemma no_straddle_fence (t : string) : no_straddle fence t = true.
Proof. reflexivity. Qed.

(** A pattern that starts with a solid character is not at the head of a
    text that starts loose. *)
Lemma prefix_solid_loose (a : ascii) (p t : string) :
  solid a = true -> starts_loose t -> prefix (String a p) t = false.
Proof.
  intros Ha Ht. destruct t as [|c t]; [reflexivity|].
  rewrite prefix_cons. simpl in Ht.
  destruct (Ascii.eqb a c) eqn:E; [|reflexivity].
  apply Ascii.eqb_eq in E. subst c. congruence.
Qed.

Lemma no_straddle_word (t : string) :
  starts_loose t -> no_straddle "json" t = true.
Proof.
  intros Ht. cbn [no_straddle].
  rewrite (prefix_solid_loose "s" "on" t eq_refl Ht).
  rewrite (prefix_solid_loose "o" "n" t eq_refl Ht).
  rewrite (prefix_solid_loose "n" EmptyString t eq_refl Ht).
  reflexivity.
Qed.

Lemma no_straddle_fence_json (t : string) :
  starts_loose t -> no_straddle fence_json t = true.
Proof.
  intros Ht. unfold fence_json. cbn [no_straddle].
  rewrite (prefix_solid_loose "s" "on" t eq_refl Ht).
  rewrite (prefix_solid_loose "o" "n" t eq_refl Ht).
  rewrite (prefix_solid_loose "n" EmptyString t eq_refl Ht).
  reflexivity.
Qed.

(* ------------------------------------------------------------------ *)
(** ** Dropping characters *)

Lemma drop_add (a b : nat) (s : string) : drop (a + b) s = drop b (drop a s).
Proof.
  revert s. induction a as [|a IH]; intros s; simpl.
  - reflexivity.
  - destruct s as [|c s]; [destruct b; reflexivity|apply IH].
Qed.

Lemma drop_app (n : nat) (x t : string) :
  n <= String.length x -> drop n (x ++ t) = drop n x ++ t.
Proof.
  revert x. induction n as [|n IH]; intros x H.
  - reflexivity.
  - destruct x as [|c x]; simpl in *; [lia|]. apply IH. lia.
Qed.

Lemma length_drop (n : nat) (s : string) :
  String.length (drop n s) = String.length s - n.
Proof.
  revert s. induction n as [|n IH]; intros s.
  - simpl. lia.
  - destruct s as [|c s]; simpl; [reflexivity|apply IH].
Qed.

Lemma ends_solid_drop (n : nat) (s : string) :
  ends_solid s = true -> ends_solid (drop n s) = true.
Proof.
  revert s. induction n as [|n IH]; intros s H.
  - exact H.
  - destruct s as [|c s]; [reflexivity|].
    simpl drop. apply IH. exact (ends_solid_tail _ _ H).
Qed.

Lemma prefix_length (p s : string) :
  prefix p s = true -> String.length p <= String.length s.
Proof.
  revert s. induction p as [|a p IH]; intros s H; simpl; [lia|].
  destruct s as [|c s]; [discriminate|].
  rewrite prefix_cons in H. apply andb_true_iff in H. destruct H as [_ H].
  simpl. apply IH in H. lia.
Qed.

(** In a text that ends solid, the leading white space stops before the
    end. *)
Lemma space_run_ends_solid (x t : string) :
  x <> EmptyString -> ends_solid x = true ->
  space_run (x ++ t) = space_run x /\ space_run x < String.length x.
Proof.
  induction x as [|c x IH]; intros Hne Hx; [congruence|].
  simpl. destruct (isspace c) eqn:Ec; [|split; [reflexivity|lia]].
  destruct x as [|c' x].
  - simpl in Hx. unfold solid in Hx. rewrite Ec in Hx. discriminate.
  - destruct IH as [IH1 IH2]; [discriminate|exact (ends_solid_tail _ _ Hx)|].
    rewrite IH1. split; [reflexivity|]. simpl in *. lia.
Qed.

(* ------------------------------------------------------------------ *)
(** ** The scan up to the closing fence *)

Lemma closing_space_run (w rest : string) :
  all_space w = true -> closing rest ->
  space_run (w ++ rest) = String.length w.
Proof.
  intros Hw Hrest. rewrite (space_run_app _ _ Hw).
  destruct Hrest as [->|(w4 & _ & ->)]; simpl; lia.
Qed.

Lemma closing_loose (w rest : string) :
  all_space w = true -> closing rest -> starts_loose (w ++ rest).
Proof.
  intros Hw Hrest. destruct w as [|c w]; simpl.
  - destruct Hrest as [->|(w4 & _ & ->)]; simpl; [exact I|reflexivity].
  - simpl in Hw. apply andb_true_iff in Hw. destruct Hw as [Hc _].
    unfold solid. rewrite Hc. reflexivity.
Qed.

Lemma fence_json_not_on_closing (w w4 : string) :
  all_space w = true -> all_space w4 = true ->
  prefix fence_json (w ++ fence ++ w4) = false.
Proof.
  intros Hw Hw4. destruct w as [|c w].
  - unfold fence_json, fence. simpl append. rewrite !prefix_cons. simpl.
    destruct w4 as [|c w4]; [reflexivity|]. rewrite prefix_cons.
    simpl in Hw4. apply andb_true_iff in Hw4. destruct Hw4 as [Hc _].
    destruct (Ascii.eqb "j" c) eqn:E; [|reflexivity].
    apply Ascii.eqb_eq in E. subst c. discriminate.
  - unfold fence_json. simpl append. rewrite prefix_cons.
    simpl in Hw. apply andb_true_iff in Hw. destruct Hw as [Hc _].
    rewrite Ascii.eqb_sym, (isspace_not_backtick c Hc). reflexivity.
Qed.

Lemma prefix_fence_app (w : string) : prefix fence (fence ++ w) = true.
Proof. unfold fence. simpl. destruct w; reflexivity. Qed.

(** White space, then nothing or the closing fence and white space: the scan
    leaves white space only. *)
Lemma closing_scan (w rest : string) :
  all_space w = true -> closing rest ->
  exists w', all_space w' = true /\ sub_scan 0 (w ++ rest) = w'.
Proof.
  intros Hw Hrest.
  pose proof (closing_space_run w rest Hw Hrest) as Hrun.
  destruct Hrest as [->|(w4 & Hw4 & ->)].
  - exists w. rewrite append_nil_r. split; [exact Hw|].
    apply sub_scan_all_space, Hw.
  - exists w4. split; [exact Hw4|].
    assert (Hm : fence_match (w ++ fence ++ w4)
                 = Some (String.length w + String.length fence)).
    { unfold fence_match.
      rewrite (fence_json_not_on_closing w w4 Hw Hw4), Hrun.
      rewrite drop_app_length, prefix_fence_app. reflexivity. }
    rewrite (sub_scan_match _ _ Hm), drop_add, drop_app_length.
    change (drop (String.length fence) (fence ++ w4)) with w4.
    apply sub_scan_all_space, Hw4.
Qed.

(** A text that ends solid, then white space and the closing: the scan of the
    whole is the scan of the text, followed by white space only. *)
Lemma scan_before_closing (n : nat) :
  forall core, String.length core <= n -> ends_solid core = true ->
  forall w rest, all_space w = true -> closing rest ->
  exists w', all_space w' = true
             /\ sub_scan 0 (core ++ w ++ rest) = sub_scan 0 core ++ w'.
Proof.
  induction n as [|n IH]; intros core Hlen Hsolid w rest Hw Hrest.
  - destruct core; [|simpl in Hlen; lia].
    exact (closing_scan w rest Hw Hrest).
  - destruct core as [|c core']; [exact (closing_scan w rest Hw Hrest)|].
    remember (String c core') as x eqn:Ex.
    remember (w ++ rest) as t eqn:Et.
    assert (Hx : x <> EmptyString) by (subst x; discriminate).
    assert (Ht : starts_loose t)
      by (subst t; exact (closing_loose w rest Hw Hrest)).
    pose proof (prefix_app_solid fence_json x t
                  (no_straddle_fence_json t Ht) Hx Hsolid) as Hjson.
    destruct (prefix fence_json x) eqn:Hj.
    + (* the opening fence with its word, at the head of the text *)
      pose proof (prefix_length _ _ Hj) as Hlen7.
      assert (Hmx : fence_match x
                    = Some (String.length fence_json
                            + space_run (drop (String.length fence_json) x))).
      { unfold fence_match. rewrite Hj. reflexivity. }
      assert (Hmt : fence_match (x ++ t)
                    = Some (String.length fence_json
                            + space_run (drop (String.length fence_json) x ++ t))).
      { unfold fence_match. rewrite Hjson, (drop_app _ x t Hlen7). reflexivity. }
      rewrite (sub_scan_match _ _ Hmt), (sub_scan_match _ _ Hmx).
      rewrite !drop_add, (drop_app _ x t Hlen7).
      remember (drop (String.length fence_json) x) as y eqn:Ey.
      assert (Hy : ends_solid y = true)
        by (subst y; exact (ends_solid_drop _ _ Hsolid)).
      assert (Hly : String.length y <= n).
      { subst y. rewrite length_drop.
        change (String.length fence_json) with 7 in *. lia. }
      destruct y as [|cy y'].
      * simpl append. subst t. rewrite (closing_space_run w rest Hw Hrest).
        rewrite drop_app_length. simpl.
        destruct (closing_scan EmptyString rest eq_refl Hrest) as (w' & Hw' & E).
        exists w'. split; [exact Hw'|exact E].
      * destruct (space_run_ends_solid (String cy y') t) as [Hrun Hlt];
          [discriminate|exact Hy|].
        rewrite Hrun, drop_app by lia.
        subst t.
        apply IH; [|apply ends_solid_drop; exact Hy|exact Hw|exact Hrest].
        rewrite length_drop. lia.
    + (* no opening fence at the head: the second alternative *)
      destruct (space_run_ends_solid x t Hx Hsolid) as [Hrun Hlt].
      remember (space_run x) as k eqn:Ek.
      assert (Hz : ends_solid (drop k x) = true)
        by exact (ends_solid_drop _ _ Hsolid).
      assert (Hzne : drop k x <> EmptyString).
      { intros E. pose proof (length_drop k x) as Hl. rewrite E in Hl.
        change (String.length EmptyString) with 0 in Hl. lia. }
      pose proof (prefix_app_solid fence (drop k x) t
                    (no_straddle_fence t) Hzne Hz) as Hfence.
      destruct (prefix fence (drop k x)) eqn:Hf.
      * pose proof (prefix_length _ _ Hf) as Hlen3.
        rewrite length_drop in Hlen3.
        assert (Hmx : fence_match x = Some (k + String.length fence)).
        { unfold fence_match. rewrite Hj, <- Ek, Hf. reflexivity. }
        assert (Hmt : fence_match (x ++ t) = Some (k + String.length fence)).
        { unfold fence_match. rewrite Hjson, Hrun.
          rewrite drop_app by lia. rewrite Hfence. reflexivity. }
        rewrite (sub_scan_match _ _ Hmt), (sub_scan_match _ _ Hmx).
        rewrite drop_app by lia.
        subst t.
        apply IH; [|apply ends_solid_drop; exact Hsolid|exact Hw|exact Hrest].
        rewrite length_drop.
        change (String.length fence) with 3 in *. lia.
      * assert (Hmx : fence_match x = None).
        { unfold fence_match. rewrite Hj, <- Ek, Hf. reflexivity. }
        assert (Hmt : fence_match (x ++ t) = None).
        { unfold fence_match. rewrite Hjson, Hrun.
          rewrite drop_app by lia. rewrite Hfence. reflexivity. }
        subst x. simpl append.
        rewrite !sub_scan_step.
        change (String c (core' ++ t)) with (String c core' ++ t).
        rewrite Hmt, Hmx.
        destruct (IH core') with (w := w) (rest := rest) as (w' & Hw' & E);
          [simpl in Hlen; lia|exact (ends_solid_tail _ _ Hsolid)
          |exact Hw|exact Hrest|].
        exists w'. split; [exact Hw'|].
        rewrite <- Et in E. rewrite E. reflexivity.
Qed.

(* ------------------------------------------------------------------ *)
(** ** [strip] and surrounding white space *)

Lemma rstrip_all_space (w : string) :
  all_space w = true -> rstrip w = EmptyString.
Proof.
  induction w as [|c w IH]; simpl; [reflexivity|].
  intros H. apply andb_true_iff in H. destruct H as [Hc Hw].
  rewrite (IH Hw), Hc. reflexivity.
Qed.

Lemma rstrip_app_space (s w : string) :
  all_space w = true -> rstrip (s ++ w) = rstrip s.
Proof.
  intros Hw. induction s as [|c s IH]; simpl.
  - apply rstrip_all_space, Hw.
  - rewrite IH. reflexivity.
Qed.

Lemma lstrip_app_space (w s : string) :
  all_space w = true -> lstrip (w ++ s) = lstrip s.
Proof.
  induction w as [|c w IH]; simpl; [reflexivity|].
  intros H. apply andb_true_iff in H. destruct H as [Hc Hw].
  rewrite Hc. exact (IH Hw).
Qed.

Lemma lstrip_all_space (w : string) :
  all_space w = true -> lstrip w = EmptyString.
Proof.
  intros H. rewrite <- (append_nil_r w). rewrite (lstrip_app_space _ _ H).
  reflexivity.
Qed.

Lemma strip_app_space (s w : string) :
  all_space w = true -> strip (s ++ w) = strip s.
Proof.
  intros Hw. unfold strip. induction s as [|c s IH]; simpl.
  - rewrite (lstrip_all_space w Hw). reflexivity.
  - destruct (isspace c); [exact IH|].
    change (String c (s ++ w)) with (String c s ++ w).
    apply rstrip_app_space, Hw.
Qed.

Lemma strip_between (w1 s w2 : string) :
  all_space w1 = true -> all_space w2 = true ->
  strip (w1 ++ s ++ w2) = strip s.
Proof.
  intros H1 H2. unfold strip at 1. rewrite (lstrip_app_space _ _ H1).
  exact (strip_app_space s w2 H2).
Qed.

(* ------------------------------------------------------------------ *)
(** ** Fenced blocks that are stripped *)

Lemma starts_solid_app (core t : string) :
  core <> EmptyString -> starts_solid core = true ->
  starts_solid (core ++ t) = true.
Proof. destruct core; [congruence|]. simpl. auto. Qed.

(** The cleaned text of [w1 ++ core ++ w2]: the scan of [core], stripped. *)
Lemma clean_text_padded (w1 core w2 : string) :
  all_space w1 = true -> all_space w2 = true ->
  core <> EmptyString -> starts_solid core = true -> ends_solid core = true ->
  clean_text (w1 ++ core ++ w2) = strip (sub_scan 0 core).
Proof.
  intros H1 H2 Hne Hs He. unfold clean_text, re_sub_fences.
  rewrite (sub_scan_space w1 (core ++ w2) H1 (starts_solid_app _ _ Hne Hs)).
  destruct (scan_before_closing (String.length core) core (le_n _) He
              w2 EmptyString H2 (or_introl eq_refl)) as (w' & Hw' & E).
  rewrite append_nil_r in E. rewrite E.
  apply strip_between; assumption.
Qed.

(** The scan of what follows the opening fence: [core], white space, the
    closing fence and white space. *)
Lemma clean_text_to_closing (core w2 b c : string) :
  all_space w2 = true -> all_space b = true -> all_space c = true ->
  ends_solid core = true ->
  exists w', all_space w' = true
             /\ sub_scan 0 (core ++ w2 ++ b ++ fence ++ c)
                = sub_scan 0 core ++ w'.
Proof.
  intros H2 Hb Hc He.
  rewrite <- (append_assoc w2 b).
  apply (scan_before_closing (String.length core) core (le_n _) He).
  - rewrite all_space_app, H2, Hb. reflexivity.
  - right. exists c. split; [exact Hc|reflexivity].
Qed.

(** A block opened by the fence with its word [json], with nothing before the
    fence: the cleaned text is that of the text inside the block. *)
Lemma fenced_json_block_cleaned (a w1 core w2 b c : string) :
  all_space a = true -> all_space w1 = true -> all_space w2 = true ->
  all_space b = true -> all_space c = true ->
  core <> EmptyString -> starts_solid core = true -> ends_solid core = true ->
  clean_text (fence_json ++ a ++ (w1 ++ core ++ w2) ++ b ++ fence ++ c)
  = clean_text (w1 ++ core ++ w2).
Proof.
  intros Ha H1 H2 Hb Hc Hne Hs He.
  rewrite (clean_text_padded w1 core w2 H1 H2 Hne Hs He).
  unfold clean_text, re_sub_fences.
  rewrite !append_assoc. rewrite <- (append_assoc a w1).
  set (tl := core ++ w2 ++ b ++ fence ++ c).
  assert (Haw : all_space (a ++ w1) = true)
    by (rewrite all_space_app, Ha, H1; reflexivity).
  assert (Htl : starts_solid tl = true)
    by (apply starts_solid_app; assumption).
  assert (Hm : fence_match (fence_json ++ (a ++ w1) ++ tl)
               = Some (String.length fence_json + String.length (a ++ w1))).
  { unfold fence_match.
    replace (prefix fence_json (fence_json ++ (a ++ w1) ++ tl)) with true
      by (unfold fence_json; simpl; destruct ((a ++ w1) ++ tl); reflexivity).
    rewrite drop_app_length, (space_run_app _ _ Haw), (space_run_solid _ Htl).
    rewrite Nat.add_0_r. reflexivity. }
  rewrite (sub_scan_match _ _ Hm), drop_add, !drop_app_length.
  destruct (clean_text_to_closing core w2 b c H2 Hb Hc He) as (w' & Hw' & E).
  unfold tl. rewrite E. apply strip_app_space, Hw'.
Qed.

(** A block opened by the bare fence, with white space before it or not, the
    word [json] not following the fence: the cleaned text is that of the text
    inside the block. *)
Lemma fenced_plain_block_cleaned (w0 a w1 core w2 b c : string) :
  all_space w0 = true ->
  all_space a = true -> all_space w1 = true -> all_space w2 = true ->
  all_space b = true -> all_space c = true ->
  core <> EmptyString -> starts_solid core = true -> ends_solid core = true ->
  prefix "json" (a ++ w1 ++ core) = false ->
  clean_text (w0 ++ fence ++ a ++ (w1 ++ core ++ w2) ++ b ++ fence ++ c)
  = clean_text (w1 ++ core ++ w2).
Proof.
  intros H0 Ha H1 H2 Hb Hc Hne Hs He Hword.
  rewrite (clean_text_padded w1 core w2 H1 H2 Hne Hs He).
  unfold clean_text, re_sub_fences.
  rewrite !append_assoc. rewrite <- (append_assoc a w1).
  set (tl := core ++ w2 ++ b ++ fence ++ c).
  assert (Haw : all_space (a ++ w1) = true)
    by (rewrite all_space_app, Ha, H1; reflexivity).
  assert (Htl : starts_solid tl = true)
    by (apply starts_solid_app; assumption).
  assert (Hj : prefix fence_json (w0 ++ fence ++ (a ++ w1) ++ tl) = false).
  { destruct w0 as [|c0 w0].
    - unfold fence_json, fence. simpl append. rewrite !prefix_cons. simpl.
      destruct (prefix "json" ((a ++ w1) ++ tl)) eqn:E; [|reflexivity].
      rewrite <- Hword. symmetry.
      (* the word lies within [a ++ w1 ++ core] *)
      unfold tl in E. rewrite <- append_assoc in E.
      rewrite <- (append_assoc a w1 core).
      assert (Hx : (a ++ w1) ++ core <> EmptyString).
      { destruct (a ++ w1); [exact Hne|discriminate]. }
      assert (Hend : ends_solid ((a ++ w1) ++ core) = true).
      { clear - He Hne. induction (a ++ w1) as [|x s IH]; [exact He|].
        simpl. destruct (s ++ core) eqn:Es; [|exact IH].
        destruct s; [simpl in Es; congruence|discriminate]. }
      assert (Hloose : starts_loose (w2 ++ b ++ fence ++ c)).
      { rewrite <- (append_assoc w2 b). apply closing_loose.
        - rewrite all_space_app, H2, Hb. reflexivity.
        - right. exists c. split; [exact Hc|reflexivity]. }
      rewrite <- (prefix_app_solid "json" _ (w2 ++ b ++ fence ++ c)
                    (no_straddle_word _ Hloose) Hx Hend).
      exact E.
    - unfold fence_json. simpl append. rewrite prefix_cons.
      simpl in H0. apply andb_true_iff in H0. destruct H0 as [Hc0 _].
      rewrite Ascii.eqb_sym, (isspace_not_backtick c0 Hc0). reflexivity. }
  assert (Hm : fence_match (w0 ++ fence ++ (a ++ w1) ++ tl)
               = Some (String.length w0 + String.length fence)).
  { unfold fence_match. rewrite Hj.
    rewrite (space_run_app _ _ H0). simpl space_run. rewrite Nat.add_0_r.
    rewrite drop_app_length, prefix_fence_app. reflexivity. }
  rewrite (sub_scan_match _ _ Hm), drop_add, drop_app_length.
  change (drop (String.length fence) (fence ++ (a ++ w1) ++ tl))
    with ((a ++ w1) ++ tl).
  rewrite (sub_scan_space _ _ Haw Htl).
  destruct (clean_text_to_closing core w2 b c H2 Hb Hc He) as (w' & Hw' & E).
  unfold tl. rewrite E. apply strip_between; assumption.
Qed.

(** White space before the fence with its word: the second alternative takes
    the white space and the three backticks, and the scan goes on at the word
    [json], which it keeps. *)
Lemma fence_json_after_space (w0 s : string) :
  all_space w0 = true -> w0 <> EmptyString ->
  re_sub_fences (w0 ++ fence_json ++ s) = re_sub_fences ("json" ++ s).
Proof.
  intros H0 Hne. unfold re_sub_fences.
  assert (Hj : prefix fence_json (w0 ++ fence_json ++ s) = false).
  { destruct w0 as [|c0 w0]; [congruence|].
    unfold fence_json at 1. simpl append. rewrite prefix_cons.
    simpl in H0. apply andb_true_iff in H0. destruct H0 as [Hc0 _].
    rewrite Ascii.eqb_sym, (isspace_not_backtick c0 Hc0). reflexivity. }
  assert (Hm : fence_match (w0 ++ fence_json ++ s)
               = Some (String.length w0 + String.length fence)).
  { unfold fence_match. rewrite Hj.
    rewrite (space_run_app _ _ H0). simpl space_run. rewrite Nat.add_0_r.
    rewrite drop_app_length.
    replace (prefix fence (fence_json ++ s)) with true; [reflexivity|].
    unfold fence, fence_json. simpl. reflexivity. }
  rewrite (sub_scan_match _ _ Hm), drop_add, drop_app_length.
  reflexivity.
Qed.

(** [_parse_response] reads its argument through [clean_text] only. *)
Lemma parse_response_clean_text (json_loads : string -> outcome pyval)
      (text text' : string) :
  clean_text text = clean_text text' ->
  _parse_response json_loads text = _parse_response json_loads text'.
Proof.
  intros H. rewrite !parse_response_unfold, H. reflexivity.
Qed.

(** The normaliser on a block opened by the fence with its word [json], with
    nothing before the fence, is the normaliser on the text inside. *)
Lemma fenced_json_block_normalized (json_loads : string -> outcome pyval)
      (a w1 core w2 b c : string) :
  all_space a = true -> all_space w1 = true -> all_space w2 = true ->
  all_space b = true -> all_space c = true ->
  core <> EmptyString -> starts_solid core = true -> ends_solid core = true ->
  _parse_response json_loads
    (fence_json ++ a ++ (w1 ++ core ++ w2) ++ b ++ fence ++ c)
  = _parse_response json_loads (w1 ++ core ++ w2).
Proof.
  intros. apply parse_response_clean_text.
  apply fenced_json_block_cleaned; assumption.
Qed.

(** The same for a block opened by the bare fence. *)
Lemma fenced_plain_block_normalized (json_loads : string -> outcome pyval)
      (w0 a w1 core w2 b c : string) :
  all_space w0 = true ->
  all_space a = true -> all_space w1 = true -> all_space w2 = true ->
  all_space b = true -> all_space c = true ->
  core <> EmptyString -> starts_solid core = true -> ends_solid core = true ->
  prefix "json" (a ++ w1 ++ core) = false ->
  _parse_response json_loads
    (w0 ++ fence ++ a ++ (w1 ++ core ++ w2) ++ b ++ fence ++ c)
  = _parse_response json_loads (w1 ++ core ++ w2).
Proof.
  intros. apply parse_response_clean_text.
  apply fenced_plain_block_cleaned; assumption.
Qed.

Example fenced_sample_normalized :
  _parse_response MiniJson.loads sample_fenced
  = _parse_response MiniJson.loads
      ("{" ++ quoted "summary" ++ ": " ++ quoted "two tiers" ++ "}").
Proof. reflexivity. Qed.

(* ------------------------------------------------------------------ *)
(** ** A fenced block after white space *)

(** C4 at a fenced block preceded by white space.  The second alternative of
    the pattern matches the line break together with the three backticks, so
    the word [json] stays in the cleaned text: whatever the parser, the
    normaliser sees the text [json], a line break and [{}], which is not
    JSON; the same object without its fence is normalised. *)
Theorem fence_after_whitespace_keeps_json_word :
  clean_text fenced_after_newline = "json" ++ newline ++ "{}"
  /\ clean_text "{}" = "{}"
  /\ (forall json_loads : string -> outcome pyval,
         _parse_response json_loads fenced_after_newline
         = _parse_response json_loads ("json" ++ newline ++ "{}"))
  /\ _parse_response MiniJson.loads fenced_after_newline =
     Raised (Exn JSONDecodeError "Expecting value")
  /\ _parse_response MiniJson.loads "{}" =
     Ok (VDict [ ("resources", VList []);
                 ("architecture_pattern", VStr "Not identified");
                 ("summary", VStr "No summary available");
                 ("confidence", VStr "medium") ]).
Proof.
  split; [reflexivity|]. split; [reflexivity|].
  split; [intros json_loads; apply parse_response_clean_text; reflexivity|].
  split; reflexivity.
Qed.

(* ================================================================== *)
(** * Loops that do not raise *)

(** A loop whose body, on the states [rep t], never raises and steps as the
    pure [f] does, is a left fold of [f]. *)
Lemma for_each_refine {A S T : Type} (rep : T -> S)
      (body : S -> A -> outcome S) (f : T -> A -> T) (P : A -> Prop)
      (l : list A) :
  (forall t x, P x -> body (rep t) x = Ok (rep (f t x))) ->
  Forall P l ->
  forall t, for_each body l (rep t) = Ok (rep (fold_left f l t)).
Proof.
  intros Hbody Hl. induction Hl as [|x l Hx _ IH]; intros t; simpl.
  - reflexivity.
  - rewrite (Hbody t x Hx). simpl. apply IH.
Qed.

(* ================================================================== *)
(** * Dicts whose keys are strings *)

Lemma kdict_get_skeys {V : Type} (g : list (string * V)) (k : string) :
  kdict_get (skeys g) (VStr k) = s_get g k.
Proof.
  induction g as [|[k' v] g IH]; simpl; [reflexivity|].
  destruct (String.eqb k' k); [reflexivity|apply IH].
Qed.

Lemma kdict_set_skeys {V : Type} (g : list (string * V)) (k : string) (v : V) :
  kdict_set (skeys g) (VStr k) v = skeys (s_set g k v).
Proof.
  induction g as [|[k' v'] g IH]; simpl; [reflexivity|].
  destruct (String.eqb k' k); simpl; [reflexivity|].
  f_equal. apply IH.
Qed.

Lemma s_get_set {V : Type} (g : list (string * V)) (k k' : string) (v : V) :
  s_get (s_set g k v) k' = if String.eqb k k' then Some v else s_get g k'.
Proof.
  induction g as [|[k0 v0] g IH]; simpl; [reflexivity|].
  destruct (String.eqb k0 k) eqn:E0; simpl.
  - apply String.eqb_eq in E0; subst k0.
    destruct (String.eqb k k'); reflexivity.
  - destruct (String.eqb k0 k') eqn:E1; [|apply IH].
    destruct (String.eqb k k') eqn:E2; [|reflexivity].
    apply String.eqb_eq in E1, E2; subst.
    rewrite String.eqb_refl in E0. discriminate.
Qed.

Lemma s_set_set {V : Type} (g : list (string * V)) (k : string) (v w : V) :
  s_set (s_set g k v) k w = s_set g k w.
Proof.
  induction g as [|[k0 v0] g IH]; simpl.
  - rewrite String.eqb_refl. reflexivity.
  - destruct (String.eqb k0 k) eqn:E0; simpl; rewrite E0;
      [reflexivity|f_equal; apply IH].
Qed.

Lemma s_get_None {V : Type} (g : list (string * V)) (k : string) :
  s_get g k = None <-> ~ In k (map fst g).
Proof.
  induction g as [|[k0 v0] g IH]; simpl.
  - tauto.
  - destruct (String.eqb k0 k) eqn:E.
    + apply String.eqb_eq in E. split; [discriminate|tauto].
    + apply String.eqb_neq in E. tauto.
Qed.

Lemma s_get_In {V : Type} (g : list (string * V)) (k : string) (v : V) :
  NoDup (map fst g) -> In (k, v) g -> s_get g k = Some v.
Proof.
  induction g as [|[k0 v0] g IH]; simpl; [tauto|].
  intros Hnd [Heq|Hin].
  - injection Heq as -> ->. rewrite String.eqb_refl. reflexivity.
  - inversion Hnd as [|? ? Hk0 Hnd']; subst.
    destruct (String.eqb k0 k) eqn:E; [|auto].
    apply String.eqb_eq in E; subst k0.
    exfalso. apply Hk0. apply (in_map fst) in Hin. exact Hin.
Qed.

Lemma s_get_Some_In {V : Type} (g : list (string * V)) (k : string) (v : V) :
  s_get g k = Some v -> In (k, v) g.
Proof.
  induction g as [|[k0 v0] g IH]; simpl; [discriminate|].
  destruct (String.eqb k0 k) eqn:E.
  - apply String.eqb_eq in E; subst k0. intros [= ->]. auto.
  - auto.
Qed.

(** The keys after [d[k] = v]: a new key goes last. *)
Lemma keys_s_set {V : Type} (g : list (string * V)) (k : string) (v : V) :
  map fst (s_set g k v) =
  match s_get g k with
  | Some _ => map fst g
  | None => (map fst g ++ [k])%list
  end.
Proof.
  induction g as [|[k0 v0] g IH]; simpl; [reflexivity|].
  destruct (String.eqb k0 k) eqn:E; simpl; [reflexivity|].
  rewrite IH. destruct (s_get g k); reflexivity.
Qed.

Lemma NoDup_keys_s_set {V : Type} (g : list (string * V)) (k : string) (v : V) :
  NoDup (map fst g) -> NoDup (map fst (s_set g k v)).
Proof.
  intros Hnd. rewrite keys_s_set.
  destruct (s_get g k) eqn:E; [exact Hnd|].
  apply s_get_None in E.
  apply NoDup_rev in Hnd. rewrite <- (rev_involutive (map fst g ++ [k])).
  apply NoDup_rev. rewrite rev_app_distr. simpl.
  constructor; [rewrite <- in_rev; exact E|exact Hnd].
Qed.

Lemma In_keys_s_set {V : Type} (g : list (string * V)) (k k' : string) (v : V) :
  In k' (map fst (s_set g k v)) <-> In k' (map fst g) \/ k = k'.
Proof.
  rewrite keys_s_set. destruct (s_get g k) eqn:E.
  - split; [auto|]. intros [H|<-]; [exact H|].
    apply s_get_Some_In in E. apply (in_map fst) in E. exact E.
  - rewrite in_app_iff. simpl. tauto.
Qed.

(* ================================================================== *)
(** * Readings on resources of the expected shape *)

Lemma category_of_str (r : pyval) :
  str_category r = true -> category_of r = Ok (VStr (category_str r)).
Proof.
  destruct r; simpl; try discriminate.
  unfold category_of; simpl.
  destruct (dict_get d "category") as [[]|]; simpl; try discriminate;
    reflexivity.
Qed.

Lemma connection_count_list (r : pyval) :
  list_connections r = true -> connection_count r = Ok (conn_count r).
Proof.
  destruct r; simpl; try discriminate.
  unfold connection_count; simpl.
  destruct (dict_get d "connections") as [[]|]; simpl; try discriminate;
    reflexivity.
Qed.

(* ================================================================== *)
(** * Grouping, on string keys *)

Lemma group_step_skeys (g : list (string * list pyval)) (r : pyval) :
  str_category r = true ->
  group_step (skeys g) r = Ok (skeys (bucket_add g r)).
Proof.
  intros Hr. unfold group_step. rewrite (category_of_str r Hr). simpl.
  unfold kdict_mem, kdict_get_default, bucket_add, bucket.
  rewrite kdict_get_skeys.
  destruct (s_get g (category_str r)) as [b|] eqn:E; simpl.
  - rewrite kdict_get_skeys, E, kdict_set_skeys. reflexivity.
  - rewrite kdict_set_skeys, kdict_get_skeys, s_get_set, String.eqb_refl.
    rewrite kdict_set_skeys, s_set_set. reflexivity.
Qed.

Lemma for_each_group_step (rs : list pyval) (g : list (string * list pyval)) :
  forallb str_category rs = true ->
  for_each group_step rs (skeys g) = Ok (skeys (fold_left bucket_add rs g)).
Proof.
  intros H.
  apply (for_each_refine skeys group_step bucket_add
           (fun r => str_category r = true)).
  - intros t x. apply group_step_skeys.
  - apply Forall_forall. apply forallb_forall. exact H.
Qed.

Lemma bucket_fold (rs : list pyval) (g : list (string * list pyval))
      (k : string) :
  bucket (fold_left bucket_add rs g) k
  = (bucket g k ++ filter (has_category k) rs)%list.
Proof.
  revert g. induction rs as [|r rs IH]; intros g; simpl.
  - rewrite app_nil_r. reflexivity.
  - rewrite IH. unfold bucket at 1, bucket_add, has_category.
    rewrite s_get_set.
    destruct (String.eqb (category_str r) k) eqn:E.
    + apply String.eqb_eq in E. subst k. rewrite <- app_assoc. reflexivity.
    + reflexivity.
Qed.

Lemma keys_fold (rs : list pyval) (g : list (string * list pyval))
      (k : string) :
  In k (map fst (fold_left bucket_add rs g))
  <-> In k (map fst g) \/ In k (map category_str rs).
Proof.
  revert g. induction rs as [|r rs IH]; intros g; simpl.
  - tauto.
  - rewrite IH. unfold bucket_add. rewrite In_keys_s_set. tauto.
Qed.

Lemma NoDup_keys_fold (rs : list pyval) (g : list (string * list pyval)) :
  NoDup (map fst g) -> NoDup (map fst (fold_left bucket_add rs g)).
Proof.
  revert g. induction rs as [|r rs IH]; intros g Hg; simpl; [exact Hg|].
  apply IH. apply NoDup_keys_s_set. exact Hg.
Qed.

(* ================================================================== *)
(** * Sorting items by string keys *)

Lemma key_lt_trans (a b c : string) : key_lt a b -> key_lt b c -> key_lt a c.
Proof.
  unfold key_lt, String.ltb. intros Hab Hbc.
  destruct (String.compare a b) eqn:Eab; try discriminate.
  destruct (String.compare b c) eqn:Ebc; try discriminate.
  apply String_as_OT.cmp_lt in Eab, Ebc.
  pose proof (String_as_OT.lt_trans _ _ _ Eab Ebc) as Hac.
  apply String_as_OT.cmp_lt in Hac.
  unfold String_as_OT.cmp in Hac. rewrite Hac. reflexivity.
Qed.

Lemma key_lt_irrefl (a : string) : ~ key_lt a a.
Proof.
  unfold key_lt, String.ltb. intros H.
  pose proof (String.compare_antisym a a) as Ha.
  destruct (String.compare a a); simpl in Ha; discriminate.
Qed.

Lemma key_lt_total (a b : string) :
  String.ltb a b = false -> a <> b -> key_lt b a.
Proof.
  unfold key_lt, String.ltb. intros Hab Hne.
  rewrite String.compare_antisym.
  destruct (String.compare a b) eqn:E; simpl.
  - apply String.compare_eq_iff in E. contradiction.
  - discriminate.
  - reflexivity.
Qed.

Lemma insert_item_skeys {V : Type} (x : string * V) (l : list (string * V)) :
  insert_item (VStr (fst x), snd x) (skeys l) = Ok (skeys (s_insert x l)).
Proof.
  induction l as [|y l IH]; simpl; [reflexivity|].
  destruct (String.ltb (fst x) (fst y)); simpl; [reflexivity|].
  rewrite IH. reflexivity.
Qed.

Lemma py_sorted_items_skeys {V : Type} (l : list (string * V)) :
  py_sorted_items (skeys l) = Ok (skeys (s_sort l)).
Proof.
  unfold py_sorted_items, s_sort, s_sort_from.
  change (@nil (pyval * V)) with (skeys (@nil (string * V))).
  generalize (@nil (string * V)) as acc.
  induction l as [|x l IH]; intros acc; simpl; [reflexivity|].
  rewrite insert_item_skeys. simpl. apply IH.
Qed.

Lemma s_insert_perm {V : Type} (x : string * V) (l : list (string * V)) :
  Permutation (s_insert x l) (x :: l).
Proof.
  induction l as [|y l IH]; simpl; [reflexivity|].
  destruct (String.ltb (fst x) (fst y)); [reflexivity|].
  rewrite IH. apply perm_swap.
Qed.

Lemma s_sort_from_perm {V : Type} (acc l : list (string * V)) :
  Permutation (s_sort_from acc l) (acc ++ l).
Proof.
  revert acc. induction l as [|x l IH]; intros acc; simpl.
  - rewrite app_nil_r. reflexivity.
  - unfold s_sort_from in *. simpl. rewrite IH, s_insert_perm.
    change (x :: acc)%list with ([x] ++ acc)%list.
    rewrite (Permutation_app_comm [x] acc), <- app_assoc. reflexivity.
Qed.

Lemma s_sort_perm {V : Type} (l : list (string * V)) : Permutation (s_sort l) l.
Proof. apply (s_sort_from_perm [] l). Qed.

Lemma s_insert_sorted {V : Type} (x : string * V) (l : list (string * V)) :
  StronglySorted key_lt (map fst l) ->
  ~ In (fst x) (map fst l) ->
  StronglySorted key_lt (map fst (s_insert x l)).
Proof.
  induction l as [|y l IH]; simpl; intros Hs Hx.
  - constructor; constructor.
  - apply StronglySorted_inv in Hs. destruct Hs as [Hs Hy].
    destruct (String.ltb (fst x) (fst y)) eqn:E; simpl.
    + constructor.
      * constructor; assumption.
      * constructor; [exact E|].
        eapply Forall_impl; [|exact Hy].
        intros a Ha. exact (key_lt_trans _ _ _ E Ha).
    + constructor.
      * apply IH; tauto.
      * assert (Hp : Permutation (map fst (s_insert x l)) (fst x :: map fst l)).
        { change (fst x :: map fst l) with (map fst (x :: l)).
          apply Permutation_map, s_insert_perm. }
        eapply Permutation_Forall; [symmetry; exact Hp|].
        constructor; [|exact Hy].
        apply key_lt_total; [exact E|].
        intros Heq. apply Hx. left. symmetry. exact Heq.
Qed.

Lemma s_sort_from_sorted {V : Type} (acc l : list (string * V)) :
  StronglySorted key_lt (map fst acc) ->
  NoDup (map fst (acc ++ l)) ->
  StronglySorted key_lt (map fst (s_sort_from acc l)).
Proof.
  revert acc. induction l as [|x l IH]; intros acc Hs Hnd; simpl.
  - exact Hs.
  - unfold s_sort_from in *. simpl. apply IH.
    + apply s_insert_sorted; [exact Hs|].
      rewrite map_app in Hnd. simpl in Hnd.
      apply NoDup_remove_2 in Hnd. rewrite in_app_iff in Hnd. tauto.
    + eapply Permutation_NoDup; [|exact Hnd].
      apply Permutation_map.
      rewrite s_insert_perm.
      change (x :: acc)%list with ([x] ++ acc)%list.
      rewrite (Permutation_app_comm [x] acc), <- app_assoc. reflexivity.
Qed.

Lemma s_sort_sorted {V : Type} (l : list (string * V)) :
  NoDup (map fst l) -> StronglySorted key_lt (map fst (s_sort l)).
Proof.
  intros H. apply s_sort_from_sorted; [constructor|exact H].
Qed.

(** Two strictly ascending lists with the same elements are equal. *)
Lemma ascending_unique (l1 l2 : list string) :
  StronglySorted key_lt l1 -> StronglySorted key_lt l2 ->
  (forall k, In k l1 <-> In k l2) -> l1 = l2.
Proof.
  revert l2. induction l1 as [|a l1 IH]; intros l2 H1 H2 Hin.
  - destruct l2 as [|b l2]; [reflexivity|].
    exfalso. apply (Hin b). left. reflexivity.
  - destruct l2 as [|b l2]; [exfalso; apply (Hin a); left; reflexivity|].
    apply StronglySorted_inv in H1. destruct H1 as [H1 Ha].
    apply StronglySorted_inv in H2. destruct H2 as [H2 Hb].
    rewrite Forall_forall in Ha, Hb.
    assert (Hab : a = b).
    { destruct (proj1 (Hin a) (or_introl eq_refl)) as [E|Hab]; [auto|].
      destruct (proj2 (Hin b) (or_introl eq_refl)) as [E|Hba]; [auto|].
      exfalso. apply (key_lt_irrefl a).
      exact (key_lt_trans _ _ _ (Ha b Hba) (Hb a Hab)). }
    subst b. f_equal. apply IH; [exact H1|exact H2|].
    intros k. split; intros Hk.
    + destruct (proj1 (Hin k) (or_intror Hk)) as [E|Hk']; [|exact Hk'].
      subst k. exfalso. exact (key_lt_irrefl a (Ha a Hk)).
    + destruct (proj2 (Hin k) (or_intror Hk)) as [E|Hk']; [|exact Hk'].
      subst k. exfalso. exact (key_lt_irrefl a (Hb a Hk)).
Qed.

(* ================================================================== *)
(** * Properties of [get_resources_by_category] *)

Lemma get_resources_by_category_grouped (result : pyval) (rs : list pyval) :
  resources_are result rs ->
  forallb str_category rs = true ->
  get_resources_by_category result = Ok (skeys (grouped rs)).
Proof.
  intros Hres Hrs. unfold get_resources_by_category.
  rewrite Hres. simpl bind.
  change (@nil (pyval * list pyval)) with (skeys (@nil (string * list pyval))).
  rewrite (for_each_group_step rs [] Hrs). simpl bind.
  apply py_sorted_items_skeys.
Qed.

Lemma grouped_keys (rs : list pyval) (k : string) :
  In k (map fst (grouped rs)) <-> In k (map category_str rs).
Proof.
  unfold grouped. split.
  - intros H.
    apply (Permutation_in k (Permutation_map fst (s_sort_perm _))) in H.
    apply keys_fold in H. simpl in H. tauto.
  - intros H.
    apply (Permutation_in k
             (Permutation_sym (Permutation_map fst (s_sort_perm _)))).
    apply keys_fold. auto.
Qed.

Lemma grouped_sorted (rs : list pyval) :
  StronglySorted key_lt (map fst (grouped rs)).
Proof.
  apply s_sort_sorted, NoDup_keys_fold. constructor.
Qed.

Lemma grouped_bucket (rs : list pyval) (k : string) (b : list pyval) :
  In (k, b) (grouped rs) -> b = filter (has_category k) rs.
Proof.
  intros H. unfold grouped in H.
  apply (Permutation_in _ (s_sort_perm _)) in H.
  apply s_get_In in H; [|apply NoDup_keys_fold; constructor].
  pose proof (bucket_fold rs [] k) as Hb.
  unfold bucket at 1 in Hb. rewrite H in Hb. exact Hb.
Qed.

Lemma In_map_category (rs : list pyval) (k : string) :
  In k (map category_str rs) -> filter (has_category k) rs <> [].
Proof.
  intros H. apply in_map_iff in H. destruct H as (r & <- & Hr).
  intros E.
  assert (Hin : In r (filter (has_category (category_str r)) rs)).
  { apply filter_In. split; [exact Hr|]. apply String.eqb_refl. }
  rewrite E in Hin. exact Hin.
Qed.

(** C5.  On a result whose resources [rs] are dicts with string categories,
    [get_resources_by_category] returns a mapping [g] whose keys are in
    strictly ascending lexicographic order; the bucket of a key holds the
    resources of that category in their input order and is not empty; every
    resource is in the bucket of its category; an empty [rs] gives the empty
    mapping; and any reordering of [rs] gives the same keys in the same
    order. *)
Theorem get_resources_by_category_sorted_stable
        (result : pyval) (rs : list pyval) :
  resources_are result rs ->
  forallb str_category rs = true ->
  exists g : list (string * list pyval),
    get_resources_by_category result = Ok (skeys g)
    /\ StronglySorted key_lt (map fst g)
    /\ (forall k b, In (k, b) g ->
                    b = filter (has_category k) rs /\ b <> [])
    /\ (forall r, In r rs ->
                  exists b, In (category_str r, b) g /\ In r b)
    /\ (rs = [] -> g = [])
    /\ (forall result' rs',
           resources_are result' rs' -> Permutation rs rs' ->
           exists g', get_resources_by_category result' = Ok (skeys g')
                      /\ map fst g' = map fst g).
Proof.
  intros Hres Hrs. exists (grouped rs).
  split; [exact (get_resources_by_category_grouped result rs Hres Hrs)|].
  split; [apply grouped_sorted|].
  split; [|split; [|split]].
  - intros k b Hin. pose proof (grouped_bucket rs k b Hin) as Hb.
    split; [exact Hb|]. rewrite Hb. apply In_map_category.
    apply grouped_keys. apply (in_map fst) in Hin. exact Hin.
  - intros r Hr.
    assert (Hk : In (category_str r) (map fst (grouped rs))).
    { apply grouped_keys. apply in_map. exact Hr. }
    apply in_map_iff in Hk. destruct Hk as ([k b] & Hk & Hin).
    simpl in Hk. subst k. exists b. split; [exact Hin|].
    rewrite (grouped_bucket rs _ b Hin).
    apply filter_In. split; [exact Hr|]. apply String.eqb_refl.
  - intros ->. reflexivity.
  - intros result' rs' Hres' Hperm. exists (grouped rs'). split.
    + apply get_resources_by_category_grouped; [exact Hres'|].
      apply forallb_forall. intros r Hr.
      apply (proj1 (forallb_forall _ _) Hrs).
      apply (Permutation_in r (Permutation_sym Hperm)). exact Hr.
    + apply ascending_unique; try apply grouped_sorted.
      intros k. rewrite !grouped_keys. split; intros Hk.
      * apply (Permutation_in k (Permutation_map category_str
                                   (Permutation_sym Hperm))). exact Hk.
      * apply (Permutation_in k (Permutation_map category_str Hperm)).
        exact Hk.
Qed.

Lemma get_resources_by_category_sorted_stable_witness :
  exists g : list (string * list pyval),
    get_resources_by_category storage_then_compute = Ok (skeys g)
    /\ StronglySorted key_lt (map fst g).
Proof.
  destruct (get_resources_by_category_sorted_stable storage_then_compute
              [ VDict [("resource_name", VStr "blob");
                       ("category", VStr "Storage")];
                VDict [("resource_name", VStr "vm");
                       ("category", VStr "Compute")] ]
              eq_refl eq_refl) as (g & Hg & Hs & _).
  exists g. split; [exact Hg|exact Hs].
Defined.

Example storage_then_compute_keys :
  get_resources_by_category storage_then_compute =
  Ok [ (VStr "Compute", [ VDict [("resource_name", VStr "vm");
                                 ("category", VStr "Compute")] ]);
       (VStr "Storage", [ VDict [("resource_name", VStr "blob");
                                 ("category", VStr "Storage")] ]) ].
Proof. reflexivity. Qed.

Example no_resources_empty_mapping :
  get_resources_by_category (VDict [("resources", VList [])]) = Ok [].
Proof. reflexivity. Qed.

(* ================================================================== *)
(** * Statistics, on string keys *)

Lemma all_true_Forall {A : Type} (f : A -> bool) (l : list A) :
  forallb f l = true -> Forall (fun x => f x = true) l.
Proof.
  intros H. apply Forall_forall. apply forallb_forall. exact H.
Qed.

Lemma count_step_skeys (g : list (string * nat)) (r : pyval) :
  str_category r = true ->
  count_step (skeys g) r = Ok (skeys (count_add g r)).
Proof.
  intros Hr. unfold count_step. rewrite (category_of_str r Hr). simpl.
  unfold kdict_get_default, count_add, count.
  rewrite kdict_get_skeys, kdict_set_skeys. reflexivity.
Qed.

Lemma category_seen_strs (seen : list string) (r : pyval) :
  str_category r = true ->
  category_seen (map VStr seen) r = Ok (map VStr (seen_add seen r)).
Proof.
  intros Hr. unfold category_seen. rewrite (category_of_str r Hr). simpl.
  unfold set_add, seen_add.
  assert (E : existsb (fun k' => key_eqb k' (VStr (category_str r)))
                      (map VStr seen)
              = existsb (fun k' => String.eqb k' (category_str r)) seen).
  { induction seen as [|k seen IH]; simpl; [reflexivity|].
    rewrite IH. reflexivity. }
  rewrite E.
  destruct (existsb _ seen); [reflexivity|].
  rewrite map_app. reflexivity.
Qed.

Lemma add_connections_list (acc : nat) (r : pyval) :
  list_connections r = true ->
  add_connections acc r = Ok (acc + conn_count r).
Proof.
  intros Hr. unfold add_connections.
  rewrite (connection_count_list r Hr). reflexivity.
Qed.

Lemma max_scan_first_max (best : pyval) (rest : list pyval) :
  forallb list_connections rest = true ->
  max_scan connection_count best (conn_count best) rest
  = Ok (first_max best rest).
Proof.
  revert best. induction rest as [|r rest IH]; intros best H; simpl.
  - reflexivity.
  - simpl in H. apply andb_true_iff in H. destruct H as [Hr Hrest].
    rewrite (connection_count_list r Hr). simpl.
    destruct (conn_count best <? conn_count r)%nat; apply IH, Hrest.
Qed.

Lemma well_shaped_split (rs : list pyval) :
  forallb well_shaped rs = true ->
  forallb str_category rs = true /\ forallb list_connections rs = true.
Proof.
  intros H. rewrite !forallb_forall in *.
  split; intros r Hr; specialize (H r Hr);
    unfold well_shaped in H; apply andb_true_iff in H; tauto.
Qed.

Lemma first_max_In (best : pyval) (rest : list pyval) :
  In (first_max best rest) (best :: rest).
Proof.
  revert best. induction rest as [|r rest IH]; intros best; simpl.
  - auto.
  - destruct (conn_count best <? conn_count r)%nat.
    + destruct (IH r) as [H|H]; auto.
    + destruct (IH best) as [H|H]; auto.
Qed.

Lemma get_resource_statistics_of (result : pyval) (rs : list pyval) :
  resources_are result rs ->
  forallb well_shaped rs = true ->
  get_resource_statistics result = Ok (statistics_of result rs).
Proof.
  intros Hres Hrs.
  destruct (well_shaped_split rs Hrs) as [Hcat Hconn].
  unfold get_resource_statistics. rewrite Hres. simpl bind.
  change (@nil pyval) with (map VStr []) at 1.
  rewrite (for_each_refine (map VStr) category_seen seen_add
             (fun r => str_category r = true) rs
             (fun t x Hx => category_seen_strs t x Hx)
             (all_true_Forall _ _ Hcat)).
  simpl bind.
  rewrite (for_each_refine (fun n : nat => n) add_connections
             (fun acc r => acc + conn_count r)
             (fun r => list_connections r = true) rs
             (fun t x Hx => add_connections_list t x Hx)
             (all_true_Forall _ _ Hconn)).
  simpl bind.
  assert (Hconf : py_get result "confidence" (VStr "N/A")
                  = Ok (confidence_or_na result)).
  { unfold resources_are in Hres. destruct result; simpl in *;
      try discriminate.
    destruct (dict_get d "confidence"); reflexivity. }
  rewrite Hconf. simpl bind.
  change (@nil (pyval * nat)) with (skeys (@nil (string * nat))).
  rewrite (for_each_refine skeys count_step count_add
             (fun r => str_category r = true) rs
             (fun t x Hx => count_step_skeys t x Hx)
             (all_true_Forall _ _ Hcat)).
  simpl bind.
  unfold statistics_of. rewrite length_map.
  destruct rs as [|x rest].
  - reflexivity.
  - simpl py_truthy. cbv iota. unfold py_max.
    simpl in Hconn. apply andb_true_iff in Hconn. destruct Hconn as [Hx Hrest].
    rewrite (connection_count_list x Hx). simpl bind.
    rewrite (max_scan_first_max x rest Hrest). simpl bind.
    assert (Hm : In (first_max x rest) (x :: rest)) by apply first_max_In.
    assert (Hw : well_shaped (first_max x rest) = true).
    { apply (proj1 (forallb_forall _ _) Hrs). exact Hm. }
    unfold well_shaped in Hw. apply andb_true_iff in Hw.
    destruct Hw as [_ Hl].
    assert (Hn : py_get (first_max x rest) "resource_name" (VStr "Unknown")
                 = Ok (name_or_unknown (first_max x rest))).
    { destruct (first_max x rest); simpl in *; try discriminate.
      destruct (dict_get d "resource_name"); reflexivity. }
    rewrite Hn. simpl bind.
    rewrite (connection_count_list _ Hl). reflexivity.
Qed.

(* ------------------------------------------------------------------ *)
(** ** The counting loop and the set of categories *)

Lemma existsb_keys {V : Type} (g : list (string * V)) (k : string) :
  existsb (fun k' => String.eqb k' k) (map fst g)
  = match s_get g k with Some _ => true | None => false end.
Proof.
  induction g as [|[k0 v0] g IH]; simpl; [reflexivity|].
  destruct (String.eqb k0 k); simpl; [reflexivity|apply IH].
Qed.

Lemma keys_count_add (g : list (string * nat)) (r : pyval) :
  map fst (count_add g r) = seen_add (map fst g) r.
Proof.
  unfold count_add, seen_add. rewrite keys_s_set, existsb_keys.
  destruct (s_get g (category_str r)); reflexivity.
Qed.

Lemma keys_count_fold (rs : list pyval) (g : list (string * nat)) :
  map fst (fold_left count_add rs g) = fold_left seen_add rs (map fst g).
Proof.
  revert g. induction rs as [|r rs IH]; intros g; simpl; [reflexivity|].
  rewrite IH, keys_count_add. reflexivity.
Qed.

Lemma In_keys_count_fold (rs : list pyval) (g : list (string * nat))
      (k : string) :
  In k (map fst (fold_left count_add rs g))
  <-> In k (map fst g) \/ In k (map category_str rs).
Proof.
  revert g. induction rs as [|r rs IH]; intros g; simpl.
  - tauto.
  - rewrite IH. unfold count_add. rewrite In_keys_s_set. tauto.
Qed.

Lemma NoDup_keys_count_fold (rs : list pyval) (g : list (string * nat)) :
  NoDup (map fst g) -> NoDup (map fst (fold_left count_add rs g)).
Proof.
  revert g. induction rs as [|r rs IH]; intros g Hg; simpl; [exact Hg|].
  apply IH. apply NoDup_keys_s_set. exact Hg.
Qed.

Lemma count_fold (rs : list pyval) (g : list (string * nat)) (k : string) :
  count (fold_left count_add rs g) k
  = count g k + List.length (filter (has_category k) rs).
Proof.
  revert g. induction rs as [|r rs IH]; intros g; simpl.
  - lia.
  - rewrite IH. unfold count at 1, count_add, has_category.
    rewrite s_get_set.
    destruct (String.eqb (category_str r) k) eqn:E; simpl.
    + apply String.eqb_eq in E. subst k. lia.
    + reflexivity.
Qed.

Lemma sum_count_add (g : list (string * nat)) (k : string) :
  list_sum (map snd (s_set g k (count g k + 1))) = list_sum (map snd g) + 1.
Proof.
  induction g as [|[k0 v0] g IH]; simpl.
  - reflexivity.
  - unfold count in *. simpl.
    destruct (String.eqb k0 k); simpl; [lia|].
    rewrite IH. lia.
Qed.

Lemma sum_count_fold (rs : list pyval) (g : list (string * nat)) :
  list_sum (map snd (fold_left count_add rs g))
  = list_sum (map snd g) + List.length rs.
Proof.
  revert g. induction rs as [|r rs IH]; intros g; simpl.
  - lia.
  - rewrite IH. unfold count_add. rewrite sum_count_add. lia.
Qed.

Lemma connections_fold (rs : list pyval) (acc : nat) :
  fold_left (fun a r => a + conn_count r) rs acc
  = acc + list_sum (map conn_count rs).
Proof.
  revert acc. induction rs as [|r rs IH]; intros acc; simpl.
  - lia.
  - rewrite IH. lia.
Qed.

(** The set of categories has one element for each distinct category. *)
Lemma seen_fold_length (rs : list pyval) :
  List.length (fold_left seen_add rs [])
  = List.length (nodup string_dec (map category_str rs)).
Proof.
  pose proof (keys_count_fold rs []) as Hk. simpl in Hk. rewrite <- Hk.
  apply Permutation_length. apply NoDup_Permutation.
  - apply NoDup_keys_count_fold. constructor.
  - apply NoDup_nodup.
  - intros k. rewrite In_keys_count_fold, nodup_In. simpl. tauto.
Qed.

(* ------------------------------------------------------------------ *)
(** ** The first maximum *)

Lemma first_max_spec (rest pre : list pyval) (best : pyval) (mid : list pyval) :
  Forall (fun y => conn_count y < conn_count best) pre ->
  Forall (fun y => conn_count y <= conn_count best) mid ->
  exists pre' post,
    (pre ++ best :: mid ++ rest)%list
    = (pre' ++ first_max best rest :: post)%list
    /\ Forall (fun y => conn_count y < conn_count (first_max best rest)) pre'
    /\ Forall (fun y => conn_count y <= conn_count (first_max best rest)) post.
Proof.
  revert pre best mid.
  induction rest as [|r rest IH]; intros pre best mid Hpre Hmid; simpl.
  - exists pre, mid. rewrite app_nil_r. auto.
  - destruct (conn_count best <? conn_count r)%nat eqn:E.
    + apply Nat.ltb_lt in E.
      destruct (IH (pre ++ best :: mid)%list r []) as (pre' & post & Heq & H1 & H2).
      * apply Forall_app. split.
        -- eapply Forall_impl; [|exact Hpre]. simpl. intros; lia.
        -- constructor; [exact E|].
           eapply Forall_impl; [|exact Hmid]. simpl. intros; lia.
      * constructor.
      * exists pre', post. split; [|auto].
        rewrite <- Heq. simpl. rewrite <- app_assoc. reflexivity.
    + apply Nat.ltb_ge in E.
      destruct (IH pre best (mid ++ [r])%list) as (pre' & post & Heq & H1 & H2).
      * exact Hpre.
      * apply Forall_app. split; [exact Hmid|]. constructor; [exact E|constructor].
      * exists pre', post. split; [|auto].
        rewrite <- Heq. rewrite <- app_assoc. reflexivity.
Qed.

(* ================================================================== *)
(** * Properties of [get_resource_statistics] *)

(** C7.  On well-shaped resources [rs], the most connected resource reported
    is [None] when [rs] is empty; otherwise it is built from the first
    resource [m] of [rs] whose connection count is the maximum (every
    resource before [m] has fewer connections, none after has more), with
    [name] the resource name of [m] and [connections] its connection count.
    On the resources A -> [B] and B -> [A, C] the total of connections is 3
    and the most connected resource is B with 2 connections. *)
Theorem most_connected_is_first_maximum :
  (forall (result : pyval) (rs : list pyval),
      resources_are result rs ->
      forallb well_shaped rs = true ->
      exists st,
        get_resource_statistics result = Ok st
        /\ (rs = [] -> most_connected_resource st = None)
        /\ (rs <> [] ->
            exists pre m post,
              rs = (pre ++ m :: post)%list
              /\ Forall (fun r => conn_count r < conn_count m) pre
              /\ Forall (fun r => conn_count r <= conn_count m) post
              /\ most_connected_resource st
                 = Some {| name := name_or_unknown m;
                           connections := conn_count m |}))
  /\ (exists st,
         get_resource_statistics two_resources = Ok st
         /\ total_connections st = 3
         /\ most_connected_resource st
            = Some {| name := VStr "B"; connections := 2 |}).
Proof.
  split.
  - intros result rs Hres Hrs. exists (statistics_of result rs).
    split; [exact (get_resource_statistics_of result rs Hres Hrs)|].
    split.
    + intros ->. reflexivity.
    + intros Hne. destruct rs as [|x rest]; [congruence|].
      destruct (first_max_spec rest [] x []) as (pre & post & Heq & H1 & H2);
        [constructor|constructor|].
      exists pre, (first_max x rest), post.
      split; [exact Heq|]. split; [exact H1|]. split; [exact H2|reflexivity].
  - eexists. split; [reflexivity|]. split; reflexivity.
Qed.

Lemma most_connected_is_first_maximum_witness :
  exists st,
    get_resource_statistics two_resources = Ok st
    /\ exists pre m post,
        [ VDict [ ("resource_name", VStr "A");
                  ("connections", VList [VStr "B"]) ];
          VDict [ ("resource_name", VStr "B");
                  ("connections", VList [VStr "A"; VStr "C"]) ] ]
        = (pre ++ m :: post)%list
        /\ most_connected_resource st
           = Some {| name := name_or_unknown m; connections := conn_count m |}.
Proof.
  destruct (proj1 most_connected_is_first_maximum two_resources
              [ VDict [ ("resource_name", VStr "A");
                        ("connections", VList [VStr "B"]) ];
                VDict [ ("resource_name", VStr "B");
                        ("connections", VList [VStr "A"; VStr "C"]) ] ]
              eq_refl eq_refl) as (st & Hst & _ & Hmax).
  exists st. split; [exact Hst|].
  destruct (Hmax ltac:(discriminate)) as (pre & m & post & Heq & _ & _ & Hm).
  exists pre, m, post. split; [exact Heq|exact Hm].
Defined.

(** A tie: the first of two resources with one connection each is kept. *)
Example most_connected_tie :
  exists st,
    get_resource_statistics
      (VDict [ ("resources",
                VList [ VDict [ ("resource_name", VStr "first");
                                ("connections", VList [VStr "x"]) ];
                        VDict [ ("resource_name", VStr "second");
                                ("connections", VList [VStr "y"]) ] ]) ])
    = Ok st
    /\ most_connected_resource st
       = Some {| name := VStr "first"; connections := 1 |}.
Proof. eexists. split; reflexivity. Qed.

(** C10.  On well-shaped resources [rs], the statistics are consistent: the
    counts of [resources_by_category] sum to [total_resources], which is the
    number of resources; its keys are pairwise different and are exactly the
    categories (read with the default "Other") that occur in [rs]; the count
    of a key is the number of resources of that category; and the number of
    keys is [total_categories]. *)
Theorem statistics_consistent (result : pyval) (rs : list pyval) :
  resources_are result rs ->
  forallb well_shaped rs = true ->
  exists st (g : list (string * nat)),
    get_resource_statistics result = Ok st
    /\ resources_by_category st = skeys g
    /\ total_resources st = List.length rs
    /\ list_sum (map snd g) = total_resources st
    /\ NoDup (map fst g)
    /\ (forall k, In k (map fst g) <-> In k (map category_str rs))
    /\ (forall k n, In (k, n) g ->
                    n = List.length (filter (has_category k) rs))
    /\ List.length g = total_categories st.
Proof.
  intros Hres Hrs.
  exists (statistics_of result rs), (fold_left count_add rs []).
  split; [exact (get_resource_statistics_of result rs Hres Hrs)|].
  split; [reflexivity|]. split; [reflexivity|].
  split; [rewrite sum_count_fold; reflexivity|].
  split; [apply NoDup_keys_count_fold; constructor|].
  split; [intros k; rewrite In_keys_count_fold; simpl; tauto|].
  split.
  - intros k n Hin.
    apply s_get_In in Hin; [|apply NoDup_keys_count_fold; constructor].
    pose proof (count_fold rs [] k) as Hc.
    unfold count at 1 in Hc. rewrite Hin in Hc. exact Hc.
  - simpl. rewrite <- (length_map fst), keys_count_fold. reflexivity.
Qed.

Lemma statistics_consistent_witness :
  exists st (g : list (string * nat)),
    get_resource_statistics (VDict [("resources", VList three_resources)])
    = Ok st
    /\ resources_by_category st = skeys g
    /\ list_sum (map snd g) = total_resources st
    /\ List.length g = total_categories st.
Proof.
  destruct (statistics_consistent
              (VDict [("resources", VList three_resources)]) three_resources
              eq_refl eq_refl)
    as (st & g & Hst & Hg & _ & Hsum & _ & _ & _ & Hlen).
  exists st, g. auto.
Defined.

(** The total of connections is the sum of the connection counts. *)
Lemma statistics_total_connections (result : pyval) (rs : list pyval) :
  resources_are result rs ->
  forallb well_shaped rs = true ->
  exists st,
    get_resource_statistics result = Ok st
    /\ total_connections st = list_sum (map conn_count rs).
Proof.
  intros Hres Hrs. exists (statistics_of result rs).
  split; [exact (get_resource_statistics_of result rs Hres Hrs)|].
  simpl. apply connections_fold.
Qed.

(* ------------------------------------------------------------------ *)
(** ** The default category *)

Lemma has_category_other (r : pyval) :
  str_category r = true ->
  has_category "Other" r = missing_or_other r.
Proof.
  destruct r; simpl; try discriminate.
  unfold has_category; simpl.
  destruct (dict_get d "category") as [[]|]; simpl; try discriminate;
    reflexivity.
Qed.

Lemma filter_ext_in_true {A : Type} (f g : A -> bool) (l : list A) :
  (forall x, In x l -> f x = g x) -> filter f l = filter g l.
Proof.
  induction l as [|x l IH]; simpl; intros H; [reflexivity|].
  rewrite (H x (or_introl eq_refl)), IH; [reflexivity|].
  intros y Hy. apply H. right. exact Hy.
Qed.

(** C6, as the code has it.  A resource [r] of [rs] that has no [category]
    key is read with the category "Other": it is in the bucket "Other" of
    [get_resources_by_category]; in the statistics, the count of "Other" is
    the number of resources whose category is missing or is "Other", and the
    number of categories counts the distinct categories after missing ones
    were read as "Other". *)
Theorem missing_category_read_as_other
        (result : pyval) (rs : list pyval) (r : pyval) :
  resources_are result rs ->
  forallb well_shaped rs = true ->
  In r rs ->
  category_missing r = true ->
  category_of r = Ok (VStr "Other")
  /\ (exists g b,
         get_resources_by_category result = Ok (skeys g)
         /\ In ("Other", b) g /\ In r b)
  /\ (exists st g,
         get_resource_statistics result = Ok st
         /\ resources_by_category st = skeys g
         /\ In ("Other", List.length (filter missing_or_other rs)) g
         /\ total_categories st
            = List.length (nodup string_dec (map category_str rs))
         /\ In "Other" (map category_str rs)).
Proof.
  intros Hres Hrs Hr Hmiss.
  destruct (well_shaped_split rs Hrs) as [Hcat _].
  assert (Hc : category_str r = "Other").
  { destruct r; simpl in *; try discriminate.
    destruct (dict_get d "category"); [discriminate|reflexivity]. }
  assert (Hin : In "Other" (map category_str rs)).
  { rewrite <- Hc. apply in_map. exact Hr. }
  split; [|split].
  - destruct r; simpl in *; try discriminate.
    unfold category_of; simpl.
    destruct (dict_get d "category"); [discriminate|reflexivity].
  - assert (Hk : In "Other" (map fst (grouped rs)))
      by (apply grouped_keys; exact Hin).
    apply in_map_iff in Hk. destruct Hk as ([k b] & Hk & Hb).
    simpl in Hk. subst k.
    exists (grouped rs), b.
    split; [exact (get_resources_by_category_grouped result rs Hres Hcat)|].
    split; [exact Hb|].
    rewrite (grouped_bucket rs _ b Hb).
    apply filter_In. split; [exact Hr|].
    unfold has_category. rewrite Hc. reflexivity.
  - exists (statistics_of result rs), (fold_left count_add rs []).
    split; [exact (get_resource_statistics_of result rs Hres Hrs)|].
    split; [reflexivity|]. split; [|split].
    + apply s_get_Some_In.
      pose proof (count_fold rs [] "Other") as Hcount.
      unfold count in Hcount. simpl in Hcount.
      destruct (s_get (fold_left count_add rs []) "Other") as [n|] eqn:E.
      * rewrite Hcount. f_equal. f_equal. apply filter_ext_in_true.
        intros x Hx. apply has_category_other.
        apply (proj1 (forallb_forall _ _) Hcat). exact Hx.
      * exfalso. apply s_get_None in E. apply E.
        apply In_keys_count_fold. right. exact Hin.
    + simpl. apply seen_fold_length.
    + exact Hin.
Qed.

Lemma missing_category_read_as_other_witness :
  category_of (VDict [ ("resource_name", VStr "bare") ]) = Ok (VStr "Other")
  /\ exists st g,
      get_resource_statistics (VDict [("resources", VList other_and_missing)])
      = Ok st
      /\ resources_by_category st = skeys g
      /\ In ("Other", 2) g.
Proof.
  destruct (missing_category_read_as_other
              (VDict [("resources", VList other_and_missing)])
              other_and_missing (VDict [ ("resource_name", VStr "bare") ])
              eq_refl eq_refl (or_intror (or_introl eq_refl)) eq_refl)
    as (Hread & _ & st & g & Hst & Hg & Hother & _).
  split; [exact Hread|]. exists st, g. auto.
Defined.

(** C6 as stated fails on a resource whose category is the empty string: it
    is read as the empty string, is grouped under the empty key, and is
    counted under that key; "Other" does not appear. *)
Lemma empty_category_not_read_as_other :
  category_of unnamed_category = Ok (VStr EmptyString)
  /\ category_of unnamed_category <> Ok (VStr "Other")
  /\ get_resources_by_category (VDict [ ("resources", VList [unnamed_category]) ])
     = Ok [ (VStr EmptyString, [unnamed_category]) ]
  /\ (exists st,
         get_resource_statistics
           (VDict [ ("resources", VList [unnamed_category]) ]) = Ok st
         /\ resources_by_category st = [ (VStr EmptyString, 1) ]
         /\ total_categories st = 1).
Proof.
  split; [reflexivity|]. split; [discriminate|].
  split; [reflexivity|]. eexists. split; [reflexivity|]. split; reflexivity.
Qed.

(* ================================================================== *)
(** * Properties of [display_resources_table] *)

Lemma py_get_field (r : pyval) (k : string) :
  is_dict r = true -> py_get r k (VStr EmptyString) = Ok (field_or_empty r k).
Proof.
  destruct r; simpl; try discriminate. intros _.
  destruct (dict_get d k); reflexivity.
Qed.

Lemma description_cell_str (r : pyval) :
  str_description r = true ->
  description_cell r = Ok (VStr (truncated (description_str r))).
Proof.
  destruct r; simpl; try discriminate.
  unfold description_cell, truncated; simpl.
  destruct (dict_get d "description") as [[]|]; simpl; try discriminate;
    intros _.
  - destruct (max_description <? String.length s)%nat; reflexivity.
  - reflexivity.
Qed.

Lemma table_row_of_shaped (r : pyval) :
  table_shaped r = true -> table_row_of r = Ok (row_of r).
Proof.
  intros H. unfold table_shaped in H. apply andb_true_iff in H.
  destruct H as [Hl Hd].
  assert (Hdict : is_dict r = true) by (destruct r; try discriminate; reflexivity).
  unfold table_row_of.
  rewrite !(py_get_field r _ Hdict). simpl bind.
  rewrite (connection_count_list r Hl). simpl bind.
  rewrite (description_cell_str r Hd). reflexivity.
Qed.

Lemma for_each_rows (rs : list pyval) (acc : list table_row) :
  forallb table_shaped rs = true ->
  for_each (fun rows resource =>
              row <- table_row_of resource ;; Ok (rows ++ [row])%list) rs acc
  = Ok (acc ++ map row_of rs)%list.
Proof.
  revert acc. induction rs as [|r rs IH]; intros acc H; simpl.
  - rewrite app_nil_r. reflexivity.
  - simpl in H. apply andb_true_iff in H. destruct H as [Hr Hrs].
    rewrite (table_row_of_shaped r Hr). simpl.
    rewrite (IH _ Hrs), <- app_assoc. reflexivity.
Qed.

Lemma display_resources_table_rows (result : pyval) (rs : list pyval) :
  resources_are result rs ->
  rs <> [] ->
  forallb table_shaped rs = true ->
  display_resources_table result = Ok (st_dataframe (map row_of rs)).
Proof.
  intros Hres Hne Hrs. unfold display_resources_table.
  rewrite Hres. unfold bind at 1.
  assert (Ht : py_truthy (VList rs) = true).
  { destruct rs; [congruence|reflexivity]. }
  rewrite Ht. unfold negb, py_iter, bind at 1.
  rewrite (for_each_rows rs [] Hrs). reflexivity.
Qed.

Lemma length_substring_0 (n : nat) (s : string) :
  n <= String.length s -> String.length (substring 0 n s) = n.
Proof.
  revert s. induction n as [|n IH]; intros s H.
  - destruct s; reflexivity.
  - destruct s as [|c s]; simpl in *; [lia|].
    rewrite IH; [reflexivity|lia].
Qed.

Lemma prefix_substring_0 (n : nat) (s : string) :
  prefix (substring 0 n s) s = true.
Proof.
  revert s. induction n as [|n IH]; intros s.
  - destruct s; reflexivity.
  - destruct s as [|c s]; simpl; [reflexivity|].
    destruct (ascii_dec c c); [apply IH|congruence].
Qed.

Lemma row_of_matches (r : pyval) : row_matches r (row_of r).
Proof.
  unfold row_matches, row_of; simpl.
  repeat (split; [reflexivity|]).
  unfold truncated, max_description. split.
  - intros H. apply Nat.ltb_ge in H. rewrite H. reflexivity.
  - intros H. exists (substring 0 100 (description_str r)).
    split; [|split].
    + apply Nat.ltb_lt in H. rewrite H. reflexivity.
    + apply length_substring_0. lia.
    + apply prefix_substring_0.
Qed.

(** C9.  On a result whose resources [rs] are dicts with a list of
    connections and a string description, the table has one row for each
    resource, in order, and each row matches its resource ([row_matches]);
    with no resources there is no table but the warning. *)
Theorem table_rows_truncate_descriptions :
  (forall (result : pyval) (rs : list pyval),
      resources_are result rs ->
      rs <> [] ->
      forallb table_shaped rs = true ->
      exists rows,
        display_resources_table result = Ok (st_dataframe rows)
        /\ Forall2 row_matches rs rows)
  /\ (forall result,
         resources_are result [] ->
         display_resources_table result
         = Ok (st_warning "No resources to display.")).
Proof.
  split.
  - intros result rs Hres Hne Hrs. exists (map row_of rs).
    split; [exact (display_resources_table_rows result rs Hres Hne Hrs)|].
    clear. induction rs as [|r rs IH]; simpl; constructor;
      [apply row_of_matches|exact IH].
  - intros result Hres. unfold display_resources_table.
    rewrite Hres. reflexivity.
Qed.

Lemma table_rows_truncate_descriptions_witness :
  exists rows,
    display_resources_table (VDict [("resources", VList long_and_short)])
    = Ok (st_dataframe rows)
    /\ Forall2 row_matches long_and_short rows.
Proof.
  apply (proj1 table_rows_truncate_descriptions
               (VDict [("resources", VList long_and_short)]) long_and_short).
  - reflexivity.
  - discriminate.
  - reflexivity.
Defined.

Example table_of_long_and_short :
  display_resources_table (VDict [("resources", VList long_and_short)])
  = Ok (st_dataframe
          [ {| Resource_Name := VStr "long"; Type_ := VStr EmptyString;
               Category := VStr EmptyString; Connections := 0;
               Description := VStr (chars_100 ++ "...") |};
            {| Resource_Name := VStr "short"; Type_ := VStr EmptyString;
               Category := VStr EmptyString; Connections := 1;
               Description := VStr chars_90 |} ]).
Proof. reflexivity. Qed.

(* ================================================================== *)
(** * The model name *)

(** The identifier stored is one of the two identifiers of the table. *)
Lemma init_model_name_known (key name : string) :
  model_name (__init__ key name) = "gemini-1.5-flash-latest"
  \/ model_name (__init__ key name) = "gemini-1.5-pro-latest".
Proof.
  unfold __init__, model_mapping. cbn [model_name mapping_get].
  repeat match goal with
         | |- context [String.eqb ?a ?b] => destruct (String.eqb a b)
         end; auto.
Qed.

(** The pro identifier is stored for the two pro names only. *)
Lemma init_model_name_pro (key name : string) :
  model_name (__init__ key name) = "gemini-1.5-pro-latest"
  <-> name = "gemini-1.5-pro" \/ name = "gemini-1.5-pro-latest".
Proof.
  unfold __init__, model_mapping. cbn [model_name mapping_get]. split.
  - destruct (String.eqb "gemini-1.5-flash" name); [discriminate|].
    destruct (String.eqb "gemini-1.5-pro" name) eqn:E1;
      [apply String.eqb_eq in E1; auto|].
    destruct (String.eqb "gemini-1.5-flash-latest" name); [discriminate|].
    destruct (String.eqb "gemini-1.5-pro-latest" name) eqn:E2;
      [apply String.eqb_eq in E2; auto|discriminate].
  - intros [->| ->]; reflexivity.
Qed.

(** X1.  Whatever name it is given, [__init__] stores one of the two model
    identifiers "gemini-1.5-flash-latest" and "gemini-1.5-pro-latest"; it
    stores the pro identifier exactly for the names "gemini-1.5-pro" and
    "gemini-1.5-pro-latest", so every unknown name falls back to the flash
    model; and an identifier it stored is stored unchanged when given back. *)
Theorem init_model_name_resolved (key key' name : string) :
  (model_name (__init__ key name) = "gemini-1.5-flash-latest"
   \/ model_name (__init__ key name) = "gemini-1.5-pro-latest")
  /\ (model_name (__init__ key name) = "gemini-1.5-pro-latest"
      <-> name = "gemini-1.5-pro" \/ name = "gemini-1.5-pro-latest")
  /\ model_name (__init__ key' (model_name (__init__ key name)))
     = model_name (__init__ key name)
  /\ api_key (__init__ key name) = key.
Proof.
  split; [apply init_model_name_known|].
  split; [apply init_model_name_pro|].
  split; [|reflexivity].
  destruct (init_model_name_known key name) as [E|E]; rewrite E; reflexivity.
Qed.

(* ================================================================== *)
(** * The analysis result and what reads it *)

Lemma analyze_try_object (json_loads : string -> outcome pyval)
      (model : string) (clock : nat -> string) (text : string) (d : pydict) :
  json_loads (clean_text text) = Ok (VDict d) ->
  analyze_try json_loads model clock (Ok text)
  = Ok (VDict (dict_set (with_defaults d) "metadata"
                 (success_metadata model (clock 0)))).
Proof.
  intros H. unfold analyze_try. simpl bind.
  rewrite (parse_response_dict json_loads text d H). reflexivity.
Qed.

(** A result of the [try] is a dict whose metadata is the success
    metadata. *)
Lemma analyze_try_ok (json_loads : string -> outcome pyval)
      (model : string) (clock : nat -> string) (response : outcome string)
      (r : pyval) :
  analyze_try json_loads model clock response = Ok r ->
  exists d, r = VDict d
            /\ dict_get d "metadata" = Some (success_metadata model (clock 0)).
Proof.
  unfold analyze_try. destruct response as [text|e]; [|discriminate].
  simpl bind. destruct (_parse_response json_loads text) as [v|e];
    [|discriminate].
  simpl bind. destruct v; simpl; try discriminate.
  intros [= <-]. eexists. split; [reflexivity|].
  rewrite dict_get_set. reflexivity.
Qed.

(** X2.  When the cleaned response parses to a JSON object [d], the analysis
    returns a dict in which [metadata] is the success metadata with the
    analyzer's model name, even when [d] has a [metadata] key of its own;
    every other key of [d] keeps its value; and the four normalised keys are
    present. *)
Theorem analyze_diagram_keeps_object
        (json_loads : string -> outcome pyval) (model : string)
        (clock : nat -> string) (text : string) (d : pydict) :
  json_loads (clean_text text) = Ok (VDict d) ->
  exists r,
    analyze_diagram json_loads model clock (Ok text) = VDict r
    /\ dict_get r "metadata"
       = Some (VDict [ ("success", VBool true);
                       ("model", VStr model);
                       ("timestamp", VStr (clock 0)) ])
    /\ (forall k v, k <> "metadata" -> dict_get d k = Some v ->
                    dict_get r k = Some v)
    /\ (forall k, k <> "metadata" -> dict_get d k = None ->
                  dict_get r k = dict_get (with_defaults []) k).
Proof.
  intros H.
  exists (dict_set (with_defaults d) "metadata"
            (success_metadata model (clock 0))).
  split.
  - unfold analyze_diagram.
    rewrite (analyze_try_object json_loads model clock text d H). reflexivity.
  - split; [rewrite dict_get_set; reflexivity|]. split.
    + intros k v Hk Hd. rewrite dict_get_set.
      destruct (String.eqb "metadata" k) eqn:E;
        [apply String.eqb_eq in E; congruence|].
      rewrite dict_get_with_defaults, Hd. reflexivity.
    + intros k Hk Hd. rewrite dict_get_set.
      destruct (String.eqb "metadata" k) eqn:E;
        [apply String.eqb_eq in E; congruence|].
      rewrite !dict_get_with_defaults, Hd. reflexivity.
Qed.

Lemma analyze_diagram_keeps_object_witness :
  exists r,
    analyze_diagram MiniJson.loads "gemini-1.5-pro-latest" (fun _ => "t")
      (Ok text_with_metadata) = VDict r
    /\ dict_get r "metadata"
       = Some (VDict [ ("success", VBool true);
                       ("model", VStr "gemini-1.5-pro-latest");
                       ("timestamp", VStr "t") ])
    /\ dict_get r "summary" = Some (VStr "s").
Proof.
  destruct (analyze_diagram_keeps_object MiniJson.loads
              "gemini-1.5-pro-latest" (fun _ => "t") text_with_metadata
              [("metadata", VInt 1); ("summary", VStr "s")] eq_refl)
    as (r & Hr & Hm & Hkept & _).
  exists r. split; [exact Hr|]. split; [exact Hm|].
  apply Hkept; [discriminate|reflexivity].
Defined.

(** X3.  The test of [main] on the result of an analysis never raises, and
    it holds exactly when the [try] of [analyze_diagram] ended without an
    exception. *)
Theorem metadata_success_iff_no_exception
        (json_loads : string -> outcome pyval) (model : string)
        (clock : nat -> string) (response : outcome string) :
  metadata_success (analyze_diagram json_loads model clock response)
  = Ok (match analyze_try json_loads model clock response with
        | Ok _ => true
        | Raised _ => false
        end).
Proof.
  destruct (analyze_try json_loads model clock response) as [r|e] eqn:Ht.
  - destruct (analyze_try_ok _ _ _ _ _ Ht) as (d & -> & Hm).
    unfold analyze_diagram. rewrite Ht.
    unfold metadata_success. simpl. rewrite Hm. reflexivity.
  - rewrite (analyze_diagram_raised _ _ _ _ e Ht). reflexivity.
Qed.

(** X4.  After an analysis that raised, every reader of the result accepts
    it: the grouping is empty, the statistics count nothing and carry the
    confidence "N/A", the table shows its warning, the export returns, and
    the test of [main] fails. *)
Theorem failed_analysis_reads_as_empty
        (json_loads : string -> outcome pyval) (model : string)
        (clock : nat -> string) (response : outcome string) (e : exn) :
  analyze_try json_loads model clock response = Raised e ->
  let result := analyze_diagram json_loads model clock response in
  get_resources_by_category result = Ok []
  /\ get_resource_statistics result = Ok (empty_statistics (VStr "N/A"))
  /\ display_resources_table result = Ok (st_warning "No resources to display.")
  /\ (exists x,
         export_to_dict result = Ok x
         /\ export_statistics x = empty_statistics (VStr "N/A")
         /\ export_architecture_pattern x = VStr "Error"
         /\ export_summary x = VStr (handler_message e)
         /\ export_resources x = VList [])
  /\ metadata_success result = Ok false.
Proof.
  intros Ht. cbv zeta. rewrite (analyze_diagram_raised _ _ _ _ e Ht).
  split; [reflexivity|]. split; [reflexivity|]. split; [reflexivity|].
  split; [|reflexivity].
  eexists. split; [reflexivity|]. repeat split.
Qed.

Lemma failed_analysis_reads_as_empty_witness :
  get_resource_statistics
    (analyze_diagram MiniJson.loads "m" (fun _ => "t")
       (Raised (Exn (OtherException "DeadlineExceeded") "504 timed out")))
  = Ok (empty_statistics (VStr "N/A")).
Proof.
  apply (failed_analysis_reads_as_empty MiniJson.loads "m" (fun _ => "t")
           (Raised (Exn (OtherException "DeadlineExceeded") "504 timed out"))
           (Exn (OtherException "DeadlineExceeded") "504 timed out")).
  reflexivity.
Defined.

(* ================================================================== *)
(** * [export_to_dict] *)

Lemma py_get_dict (d : pydict) (k : string) (default : pyval) :
  py_get (VDict d) k default
  = Ok (match dict_get d k with Some v => v | None => default end).
Proof. simpl. destruct (dict_get d k); reflexivity. Qed.

Lemma py_get_ok_dict (o : pyval) (k : string) (default v : pyval) :
  py_get o k default = Ok v -> exists d, o = VDict d.
Proof. destruct o; simpl; try discriminate. eauto. Qed.

(** Statistics that are returned are those of a dict, and carry the
    confidence read with the default "N/A". *)
Lemma get_resource_statistics_ok (result : pyval) (st : statistics) :
  get_resource_statistics result = Ok st ->
  exists d, result = VDict d
            /\ confidence st
               = match dict_get d "confidence" with
                 | Some v => v
                 | None => VStr "N/A"
                 end.
Proof.
  unfold get_resource_statistics.
  destruct (py_get result "resources" (VList [])) as [resources|e] eqn:Hr;
    [|discriminate].
  destruct (py_get_ok_dict _ _ _ _ Hr) as [d ->].
  simpl bind.
  destruct (py_len resources) as [n|e]; [|discriminate]. simpl bind.
  destruct (py_iter resources) as [items|e]; [|discriminate]. simpl bind.
  destruct (for_each category_seen items []) as [cats|e]; [|discriminate].
  simpl bind.
  destruct (for_each add_connections items 0) as [conns|e]; [|discriminate].
  simpl bind. unfold py_get at 1.
  destruct (dict_get d "confidence") as [c|] eqn:Hc; simpl bind;
    (destruct (for_each count_step items []) as [by_cat|e]; [|discriminate]);
    simpl bind;
    match goal with
    | |- bind ?m _ = _ -> _ => destruct m as [most|e]; [|discriminate]
    end;
    simpl bind; intros [= <-]; exists d; rewrite ?Hc; split; reflexivity.
Qed.

Lemma export_to_dict_dict (d : pydict) :
  export_to_dict (VDict d)
  = (stats <- get_resource_statistics (VDict d) ;;
     Ok {| export_architecture_pattern :=
             match dict_get d "architecture_pattern" with
             | Some v => v
             | None => VStr "Not identified"
             end;
           export_summary :=
             match dict_get d "summary" with
             | Some v => v
             | None => VStr "No summary available"
             end;
           export_confidence :=
             match dict_get d "confidence" with
             | Some v => v
             | None => VStr "N/A"
             end;
           export_resources :=
             match dict_get d "resources" with
             | Some v => v
             | None => VList []
             end;
           export_statistics := stats;
           export_metadata :=
             match dict_get d "metadata" with
             | Some v => v
             | None => VDict []
             end |}).
Proof.
  unfold export_to_dict. rewrite !py_get_dict. reflexivity.
Qed.

(** X5.  [export_to_dict] returns exactly when [get_resource_statistics]
    does, and raises the same exception when it does not; what it returns
    holds those statistics, and its confidence is the confidence of its
    statistics. *)
Theorem export_to_dict_follows_statistics (result : pyval) :
  (forall st,
      get_resource_statistics result = Ok st ->
      exists x, export_to_dict result = Ok x
                /\ export_statistics x = st
                /\ export_confidence x = confidence st)
  /\ (forall x,
         export_to_dict result = Ok x ->
         get_resource_statistics result = Ok (export_statistics x))
  /\ (forall e,
         get_resource_statistics result = Raised e ->
         export_to_dict result = Raised e).
Proof.
  split; [|split].
  - intros st Hst.
    destruct (get_resource_statistics_ok result st Hst) as (d & -> & Hc).
    rewrite export_to_dict_dict, Hst. simpl bind.
    eexists. split; [reflexivity|]. split; [reflexivity|].
    simpl. symmetry. exact Hc.
  - intros x Hx. destruct result;
      try (unfold export_to_dict in Hx; simpl in Hx; discriminate).
    rewrite export_to_dict_dict in Hx.
    destruct (get_resource_statistics (VDict d)) as [st|e]; [|discriminate].
    simpl in Hx. injection Hx as <-. reflexivity.
  - intros e He. destruct result;
      try (cbv in He; injection He as <-; reflexivity).
    rewrite export_to_dict_dict, He. reflexivity.
Qed.

Lemma export_to_dict_follows_statistics_witness :
  exists x,
    export_to_dict two_resources = Ok x
    /\ total_connections (export_statistics x) = 3
    /\ export_confidence x = VStr "N/A".
Proof.
  destruct (proj1 (export_to_dict_follows_statistics two_resources)
              (statistics_of two_resources
                 [ VDict [ ("resource_name", VStr "A");
                           ("connections", VList [VStr "B"]) ];
                   VDict [ ("resource_name", VStr "B");
                           ("connections", VList [VStr "A"; VStr "C"]) ] ])
              eq_refl) as (x & Hx & Hst & Hc).
  exists x. split; [exact Hx|]. split.
  - rewrite Hst. reflexivity.
  - rewrite Hc. reflexivity.
Defined.

(** X6.  On a result that [_parse_response] returned for a JSON object [d],
    the defaults of [export_to_dict] for the pattern, the summary, the
    confidence and the resources are never used: the export holds the values
    of [d], or the defaults of the normaliser; a confidence that [d] lacks
    is exported as "medium", not as "N/A". *)
Theorem export_of_normalised_result
        (json_loads : string -> outcome pyval) (text : string) (d : pydict)
        (x : exported) :
  json_loads (clean_text text) = Ok (VDict d) ->
  (r <- _parse_response json_loads text ;; export_to_dict r) = Ok x ->
  export_confidence x
  = match dict_get d "confidence" with
    | Some v => v
    | None => VStr "medium"
    end
  /\ export_architecture_pattern x
     = match dict_get d "architecture_pattern" with
       | Some v => v
       | None => VStr "Not identified"
       end
  /\ export_summary x
     = match dict_get d "summary" with
       | Some v => v
       | None => VStr "No summary available"
       end
  /\ export_resources x
     = match dict_get d "resources" with
       | Some v => v
       | None => VList []
       end
  /\ confidence (export_statistics x) = export_confidence x.
Proof.
  intros Hd Hx. rewrite (parse_response_dict json_loads text d Hd) in Hx.
  simpl bind in Hx. rewrite export_to_dict_dict in Hx.
  destruct (get_resource_statistics (VDict (with_defaults d))) as [st|e] eqn:Hst;
    [|discriminate].
  simpl in Hx. injection Hx as <-. simpl.
  rewrite !dict_get_with_defaults.
  destruct (get_resource_statistics_ok _ _ Hst) as (d' & [= <-] & Hc).
  rewrite Hc, dict_get_with_defaults.
  repeat split;
    match goal with
    | |- context [dict_get d ?k] => destruct (dict_get d k); reflexivity
    end.
Qed.

Lemma export_of_normalised_result_witness :
  exists x,
    (r <- _parse_response MiniJson.loads "{}" ;; export_to_dict r) = Ok x
    /\ export_confidence x = VStr "medium".
Proof.
  eexists. split; [reflexivity|].
  apply (export_of_normalised_result MiniJson.loads "{}" [] _ eq_refl eq_refl).
Defined.

(* ================================================================== *)
(** * The grouping as a partition *)

Lemma concat_buckets_perm {V : Type} (l l' : list (string * list V)) :
  Permutation l l' ->
  Permutation (concat (map snd l)) (concat (map snd l')).
Proof.
  induction 1 as [|x l l' _ IH|x y l|l l' l'' _ IH1 _ IH2]; simpl.
  - constructor.
  - apply Permutation_app_head, IH.
  - rewrite !app_assoc. apply Permutation_app_tail, Permutation_app_comm.
  - exact (Permutation_trans IH1 IH2).
Qed.

Lemma concat_bucket_add (g : list (string * list pyval)) (r : pyval) :
  Permutation (concat (map snd (bucket_add g r)))
              (r :: concat (map snd g)).
Proof.
  unfold bucket_add, bucket. generalize (category_str r) as k. intros k.
  induction g as [|[k0 b0] g IH]; simpl.
  - reflexivity.
  - destruct (String.eqb k0 k); simpl.
    + rewrite <- app_assoc. simpl.
      symmetry. apply Permutation_middle.
    + rewrite IH. symmetry. apply Permutation_middle.
Qed.

Lemma concat_fold_bucket_add (rs : list pyval)
      (g : list (string * list pyval)) :
  Permutation (concat (map snd (fold_left bucket_add rs g)))
              (concat (map snd g) ++ rs).
Proof.
  revert g. induction rs as [|r rs IH]; intros g; simpl.
  - rewrite app_nil_r. reflexivity.
  - rewrite IH, concat_bucket_add. apply Permutation_middle.
Qed.

Lemma grouped_partition (rs : list pyval) :
  Permutation (concat (map snd (grouped rs))) rs.
Proof.
  unfold grouped.
  rewrite (concat_buckets_perm _ _ (s_sort_perm _)).
  exact (concat_fold_bucket_add rs []).
Qed.

Lemma grouped_NoDup (rs : list pyval) : NoDup (map fst (grouped rs)).
Proof.
  unfold grouped.
  eapply Permutation_NoDup;
    [apply Permutation_map; symmetry; apply s_sort_perm|].
  apply NoDup_keys_fold. constructor.
Qed.

(** X7.  On resources [rs] that are dicts with string categories, the
    buckets of [get_resources_by_category] partition the resources: put
    together they are a rearrangement of [rs], so that no resource is lost
    and none is shown twice, and their sizes add up to the number of
    resources; no two buckets have the same key. *)
Theorem grouping_is_partition (result : pyval) (rs : list pyval) :
  resources_are result rs ->
  forallb str_category rs = true ->
  exists g : list (string * list pyval),
    get_resources_by_category result = Ok (skeys g)
    /\ Permutation (concat (map snd g)) rs
    /\ list_sum (map (fun kb => List.length (snd kb)) g) = List.length rs
    /\ NoDup (map fst g).
Proof.
  intros Hres Hrs. exists (grouped rs).
  split; [exact (get_resources_by_category_grouped result rs Hres Hrs)|].
  split; [apply grouped_partition|]. split; [|apply grouped_NoDup].
  rewrite <- (Permutation_length (grouped_partition rs)).
  generalize (grouped rs) as g. intros g.
  induction g as [|[k b] g IH]; simpl; [reflexivity|].
  rewrite length_app, IH. reflexivity.
Qed.

Lemma grouping_is_partition_witness :
  exists g : list (string * list pyval),
    get_resources_by_category (VDict [("resources", VList three_resources)])
    = Ok (skeys g)
    /\ Permutation (concat (map snd g)) three_resources.
Proof.
  destruct (grouping_is_partition
              (VDict [("resources", VList three_resources)]) three_resources
              eq_refl eq_refl) as (g & Hg & Hp & _).
  exists g. split; [exact Hg|exact Hp].
Defined.

(** X8.  On well-shaped resources the grouping and the statistics agree:
    they have the same categories, the count of a category in
    [resources_by_category] is the size of its bucket, and the number of
    buckets is [total_categories]. *)
Theorem grouping_agrees_with_statistics (result : pyval) (rs : list pyval) :
  resources_are result rs ->
  forallb well_shaped rs = true ->
  exists (g : list (string * list pyval)) (st : statistics)
         (c : list (string * nat)),
    get_resources_by_category result = Ok (skeys g)
    /\ get_resource_statistics result = Ok st
    /\ resources_by_category st = skeys c
    /\ (forall k, In k (map fst g) <-> In k (map fst c))
    /\ (forall k b, In (k, b) g -> In (k, List.length b) c)
    /\ List.length g = total_categories st.
Proof.
  intros Hres Hrs.
  destruct (well_shaped_split rs Hrs) as [Hcat _].
  exists (grouped rs), (statistics_of result rs), (fold_left count_add rs []).
  split; [exact (get_resources_by_category_grouped result rs Hres Hcat)|].
  split; [exact (get_resource_statistics_of result rs Hres Hrs)|].
  split; [reflexivity|].
  assert (Hkeys : forall k, In k (map fst (grouped rs))
                            <-> In k (map fst (fold_left count_add rs []))).
  { intros k. rewrite grouped_keys, In_keys_count_fold. simpl. tauto. }
  split; [exact Hkeys|]. split.
  - intros k b Hin. apply s_get_Some_In.
    pose proof (count_fold rs [] k) as Hc. unfold count in Hc. simpl in Hc.
    rewrite (grouped_bucket rs k b Hin).
    destruct (s_get (fold_left count_add rs []) k) as [n|] eqn:E.
    + rewrite Hc. reflexivity.
    + exfalso. apply s_get_None in E. apply E. apply Hkeys.
      apply (in_map fst) in Hin. exact Hin.
  - simpl. pose proof (keys_count_fold rs []) as Hk. simpl in Hk.
    rewrite <- Hk, <- (length_map fst (grouped rs)).
    apply Permutation_length. apply NoDup_Permutation.
    + apply grouped_NoDup.
    + apply NoDup_keys_count_fold. constructor.
    + exact Hkeys.
Qed.

Lemma grouping_agrees_with_statistics_witness :
  exists (g : list (string * list pyval)) (st : statistics),
    get_resources_by_category (VDict [("resources", VList three_resources)])
    = Ok (skeys g)
    /\ get_resource_statistics (VDict [("resources", VList three_resources)])
       = Ok st
    /\ List.length g = total_categories st.
Proof.
  destruct (grouping_agrees_with_statistics
              (VDict [("resources", VList three_resources)]) three_resources
              eq_refl eq_refl) as (g & st & c & Hg & Hst & _ & _ & _ & Hlen).
  exists g, st. auto.
Defined.

(* ================================================================== *)
(** * Responses without a backtick *)

Lemma no_backtick_drop (n : nat) (s : string) :
  no_backtick s = true -> no_backtick (drop n s) = true.
Proof.
  revert s. induction n as [|n IH]; intros s H; [exact H|].
  destruct s as [|c s]; [reflexivity|].
  simpl in H. apply andb_true_iff in H. destruct H as [_ H].
  simpl drop. apply IH, H.
Qed.

Lemma no_backtick_prefix (p s : string) :
  no_backtick s = true -> prefix (String "`" p) s = false.
Proof.
  destruct s as [|c s]; [reflexivity|]. simpl no_backtick.
  intros H. apply andb_true_iff in H. destruct H as [Hc _].
  rewrite prefix_cons, Ascii.eqb_sym.
  destruct (Ascii.eqb c "`"); [discriminate|reflexivity].
Qed.

Lemma fence_match_no_backtick (s : string) :
  no_backtick s = true -> fence_match s = None.
Proof.
  intros H. unfold fence_match, fence_json, fence.
  rewrite (no_backtick_prefix _ s H).
  rewrite (no_backtick_prefix _ _ (no_backtick_drop (space_run s) s H)).
  reflexivity.
Qed.

Lemma re_sub_fences_no_backtick (s : string) :
  no_backtick s = true -> re_sub_fences s = s.
Proof.
  unfold re_sub_fences. induction s as [|c s IH]; intros H; [reflexivity|].
  rewrite sub_scan_step, (fence_match_no_backtick _ H).
  simpl in H. apply andb_true_iff in H. destruct H as [_ H].
  rewrite (IH H). reflexivity.
Qed.

(** X9.  A response that holds no backtick is left as it is by the fence
    pattern: the text given to the parser is the response with its
    surrounding white space removed, so [_parse_response] is the parser
    followed by the back-fill. *)
Theorem response_without_backtick_only_stripped
        (json_loads : string -> outcome pyval) (text : string) :
  no_backtick text = true ->
  re_sub_fences text = text
  /\ clean_text text = strip text
  /\ _parse_response json_loads text
     = (v <- json_loads (strip text) ;; backfill_all v).
Proof.
  intros H. pose proof (re_sub_fences_no_backtick text H) as E.
  split; [exact E|].
  assert (Hc : clean_text text = strip text)
    by (unfold clean_text; rewrite E; reflexivity).
  split; [exact Hc|].
  rewrite parse_response_unfold, Hc. reflexivity.
Qed.

Lemma response_without_backtick_only_stripped_witness :
  clean_text ("  {} " ++ newline) = "{}".
Proof.
  rewrite (proj1 (proj2 (response_without_backtick_only_stripped
                           MiniJson.loads ("  {} " ++ newline) eq_refl))).
  reflexivity.
Defined.

(* ================================================================== *)
(** * [display_statistics] *)

Lemma categories_loop (rs : list pyval) :
  forallb str_category rs = true ->
  for_each category_seen rs [] = Ok (map VStr (fold_left seen_add rs [])).
Proof.
  intros H.
  exact (for_each_refine (map VStr) category_seen seen_add
           (fun r => str_category r = true) rs
           (fun t x Hx => category_seen_strs t x Hx)
           (all_true_Forall _ _ H) []).
Qed.

Lemma connections_loop (rs : list pyval) :
  forallb list_connections rs = true ->
  for_each add_connections rs 0
  = Ok (fold_left (fun acc r => acc + conn_count r) rs 0).
Proof.
  intros H.
  exact (for_each_refine (fun n : nat => n) add_connections
           (fun acc r => acc + conn_count r)
           (fun r => list_connections r = true) rs
           (fun t x Hx => add_connections_list t x Hx)
           (all_true_Forall _ _ H) 0).
Qed.

Lemma display_statistics_of (str_upper : string -> string)
      (result : pyval) (rs : list pyval) :
  resources_are result rs ->
  forallb well_shaped rs = true ->
  display_statistics str_upper result
  = match py_upper str_upper (confidence (statistics_of result rs)) with
    | Ok upper =>
        ((three_boxes (statistics_of result rs)
          ++ [st_markdown (stat_box upper "Confidence")])%list, Ok tt)
    | Raised e => (three_boxes (statistics_of result rs), Raised e)
    end.
Proof.
  intros Hres Hrs.
  destruct (well_shaped_split rs Hrs) as [Hcat Hconn].
  unfold resources_are in Hres.
  destruct (py_get_ok_dict _ _ _ _ Hres) as [d ->].
  unfold display_statistics. rewrite Hres.
  cbn [emit lift ui_bind py_len py_iter].
  rewrite (categories_loop rs Hcat), (connections_loop rs Hconn).
  cbn [ui_bind py_get].
  unfold three_boxes. cbn [statistics_of total_resources total_categories
                             total_connections confidence confidence_or_na].
  rewrite length_map.
  destruct (dict_get d "metadata"); cbn [ui_bind app];
    destruct (dict_get d "confidence") as [c|]; cbn [ui_bind app];
      destruct (py_upper str_upper _); reflexivity.
Qed.

(** X10.  On well-shaped resources and a confidence that is a string, the
    four boxes of [display_statistics] show the numbers that
    [get_resource_statistics] computes (resources, categories, connections)
    and its confidence in upper case; nothing is raised. *)
Theorem display_statistics_shows_statistics
        (str_upper : string -> string) (result : pyval) (rs : list pyval)
        (conf : string) :
  resources_are result rs ->
  forallb well_shaped rs = true ->
  py_get result "confidence" (VStr "N/A") = Ok (VStr conf) ->
  exists st,
    get_resource_statistics result = Ok st
    /\ confidence st = VStr conf
    /\ display_statistics str_upper result
       = ([ st_header "Analysis Statistics";
            st_markdown
              (stat_box (decimal (total_resources st)) "Total Resources");
            st_markdown
              (stat_box (decimal (total_categories st)) "Categories");
            st_markdown
              (stat_box (decimal (total_connections st)) "Connections");
            st_markdown (stat_box (str_upper conf) "Confidence") ],
          Ok tt).
Proof.
  intros Hres Hrs Hconf. exists (statistics_of result rs).
  split; [exact (get_resource_statistics_of result rs Hres Hrs)|].
  assert (Hc : confidence (statistics_of result rs) = VStr conf).
  { simpl. destruct result; simpl in *; try discriminate.
    destruct (dict_get d "confidence"); congruence. }
  split; [exact Hc|].
  rewrite (display_statistics_of str_upper result rs Hres Hrs), Hc.
  reflexivity.
Qed.

Lemma display_statistics_shows_statistics_witness :
  display_statistics (fun s => s) two_resources
  = ([ st_header "Analysis Statistics";
       st_markdown (stat_box "2" "Total Resources");
       st_markdown (stat_box "1" "Categories");
       st_markdown (stat_box "3" "Connections");
       st_markdown (stat_box "N/A" "Confidence") ],
     Ok tt).
Proof.
  destruct (display_statistics_shows_statistics (fun s => s) two_resources
              [ VDict [ ("resource_name", VStr "A");
                        ("connections", VList [VStr "B"]) ];
                VDict [ ("resource_name", VStr "B");
                        ("connections", VList [VStr "A"; VStr "C"]) ] ]
              "N/A" eq_refl eq_refl eq_refl) as (st & Hst & _ & Hshow).
  injection Hst as <-. exact Hshow.
Defined.

(** X11.  When the confidence of the result is present and is not a string
    (the JSON value [null], a number, a list), [get_resource_statistics]
    returns, but [display_statistics] shows its first three boxes and then
    raises an [AttributeError] on [upper]. *)
Theorem display_statistics_confidence_not_string
        (str_upper : string -> string) (result : pyval) (rs : list pyval)
        (conf : pyval) :
  resources_are result rs ->
  forallb well_shaped rs = true ->
  py_get result "confidence" (VStr "N/A") = Ok conf ->
  is_strv conf = false ->
  exists st,
    get_resource_statistics result = Ok st
    /\ display_statistics str_upper result
       = ([ st_header "Analysis Statistics";
            st_markdown
              (stat_box (decimal (total_resources st)) "Total Resources");
            st_markdown
              (stat_box (decimal (total_categories st)) "Categories");
            st_markdown
              (stat_box (decimal (total_connections st)) "Connections") ],
          Raised (Exn AttributeError
                    ("'" ++ type_name conf
                     ++ "' object has no attribute 'upper'"))).
Proof.
  intros Hres Hrs Hconf Hns. exists (statistics_of result rs).
  split; [exact (get_resource_statistics_of result rs Hres Hrs)|].
  assert (Hc : confidence (statistics_of result rs) = conf).
  { simpl. destruct result; simpl in *; try discriminate.
    destruct (dict_get d "confidence"); congruence. }
  rewrite (display_statistics_of str_upper result rs Hres Hrs), Hc.
  destruct conf; try discriminate; reflexivity.
Qed.

Lemma display_statistics_confidence_not_string_witness :
  exists r,
    _parse_response MiniJson.loads text_null_confidence = Ok r
    /\ snd (display_statistics (fun s => s) r)
       = Raised (Exn AttributeError
                   "'NoneType' object has no attribute 'upper'").
Proof.
  exists (VDict (with_defaults [("confidence", VNone)])).
  split; [reflexivity|].
  destruct (display_statistics_confidence_not_string (fun s => s)
              (VDict (with_defaults [("confidence", VNone)])) [] VNone
              eq_refl eq_refl eq_refl eq_refl) as (st & _ & Hshow).
  rewrite Hshow. reflexivity.
Defined.

(* ================================================================== *)
(** * The CSV rows of [display_export_options] *)

Lemma strings_of_map (l : list pyval) :
  forallb is_strv l = true -> map VStr (strings_of l) = l.
Proof.
  induction l as [|v l IH]; simpl; [reflexivity|].
  destruct v; simpl; try discriminate. intros H. rewrite (IH H). reflexivity.
Qed.

Lemma join_items_strings (sep : string) (strs : list string) (i : nat) :
  join_items sep (map VStr strs) i = Ok (String.concat sep strs).
Proof.
  revert i. induction strs as [|s strs IH]; intros i; simpl; [reflexivity|].
  destruct strs as [|s' strs]; [reflexivity|].
  change (map VStr (s' :: strs)) with (VStr s' :: map VStr strs) in *.
  cbv iota. rewrite (IH (S i)). reflexivity.
Qed.

Lemma join_items_not_string (sep : string) (strs : list string) (v : pyval)
      (rest : list pyval) (i : nat) :
  is_strv v = false ->
  join_items sep (map VStr strs ++ v :: rest) i
  = Raised (Exn TypeError
              ("sequence item " ++ decimal (i + List.length strs)
               ++ ": expected str instance, " ++ type_name v ++ " found")).
Proof.
  intros Hv. revert i. induction strs as [|s strs IH]; intros i.
  - simpl. rewrite Nat.add_0_r. destruct v; try discriminate; reflexivity.
  - simpl app. simpl join_items.
    destruct (map VStr strs ++ v :: rest)%list as [|x l] eqn:E.
    + destruct strs; discriminate.
    + rewrite (IH (S i)). simpl List.length.
      rewrite Nat.add_succ_r. reflexivity.
Qed.

Lemma conn_count_names (r : pyval) :
  str_connections r = true ->
  conn_count r = List.length (connection_names r).
Proof.
  destruct r; simpl; try discriminate.
  destruct (dict_get d "connections") as [[]|]; simpl; try discriminate;
    [|reflexivity].
  intros H. rewrite <- (strings_of_map l H) at 1. apply length_map.
Qed.

Lemma str_connections_list (r : pyval) :
  str_connections r = true -> list_connections r = true.
Proof.
  destruct r; simpl; try discriminate.
  destruct (dict_get d "connections") as [[]|]; simpl; try discriminate;
    reflexivity.
Qed.

Lemma csv_row_of_shaped (r : pyval) :
  str_connections r = true -> csv_row_of r = Ok (csv_of r).
Proof.
  intros H.
  assert (Hdict : is_dict r = true) by (destruct r; try discriminate; reflexivity).
  unfold csv_row_of. rewrite !(py_get_field r _ Hdict). simpl bind.
  rewrite (connection_count_list r (str_connections_list r H)).
  unfold csv_of. rewrite <- (conn_count_names r H).
  destruct r; simpl in *; try discriminate.
  destruct (dict_get d "connections") as [[]|]; simpl in *; try discriminate.
  - rewrite <- (strings_of_map l H) at 1.
    rewrite join_items_strings. reflexivity.
  - reflexivity.
Qed.

Lemma for_each_csv_rows (rs : list pyval) (acc : list csv_row) :
  forallb str_connections rs = true ->
  for_each (fun rows resource =>
              row <- csv_row_of resource ;; Ok (rows ++ [row])%list) rs acc
  = Ok (acc ++ map csv_of rs)%list.
Proof.
  revert acc. induction rs as [|r rs IH]; intros acc H; simpl.
  - rewrite app_nil_r. reflexivity.
  - simpl in H. apply andb_true_iff in H. destruct H as [Hr Hrs].
    rewrite (csv_row_of_shaped r Hr). simpl.
    rewrite (IH _ Hrs), <- app_assoc. reflexivity.
Qed.

Lemma export_csv_rows_of (result : pyval) (rs : list pyval) :
  resources_are result rs ->
  rs <> [] ->
  forallb str_connections rs = true ->
  export_csv_rows result = Ok (Some (map csv_of rs)).
Proof.
  intros Hres Hne Hrs. unfold export_csv_rows.
  rewrite Hres. unfold bind at 1.
  assert (Ht : py_truthy (VList rs) = true).
  { destruct rs; [congruence|reflexivity]. }
  rewrite Ht. unfold py_iter, bind at 1.
  rewrite (for_each_csv_rows rs [] Hrs). reflexivity.
Qed.

(** X12.  On resources that are dicts with a string description and a list
    of strings for connections, the table and the CSV export have one row
    for each resource, in the same order, and the rows agree
    ([rows_agree]); the 'Connections' cell of the export is the names joined
    by "; " and its 'Connection Count' is their number.  With no resources
    the table shows its warning and the export builds no rows. *)
Theorem csv_rows_agree_with_table :
  (forall (result : pyval) (rs : list pyval),
      resources_are result rs ->
      rs <> [] ->
      forallb str_description rs = true ->
      forallb str_connections rs = true ->
      exists rows crows,
        display_resources_table result = Ok (st_dataframe rows)
        /\ export_csv_rows result = Ok (Some crows)
        /\ Forall2 rows_agree rows crows
        /\ Forall2 (fun r crow =>
                      csv_Connections crow
                      = String.concat "; " (connection_names r)
                      /\ csv_Connection_Count crow
                         = List.length (connection_names r)) rs crows)
  /\ (forall result,
         resources_are result [] ->
         display_resources_table result
         = Ok (st_warning "No resources to display.")
         /\ export_csv_rows result = Ok None).
Proof.
  split.
  - intros result rs Hres Hne Hdesc Hconn.
    exists (map row_of rs), (map csv_of rs).
    assert (Hshape : forallb table_shaped rs = true).
    { apply forallb_forall. intros r Hr. unfold table_shaped.
      rewrite (str_connections_list r
                 (proj1 (forallb_forall _ _) Hconn r Hr)).
      exact (proj1 (forallb_forall _ _) Hdesc r Hr). }
    split; [exact (display_resources_table_rows result rs Hres Hne Hshape)|].
    split; [exact (export_csv_rows_of result rs Hres Hne Hconn)|].
    clear Hres Hne Hshape. split.
    + induction rs as [|r rs IH]; simpl; [constructor|].
      simpl in Hdesc, Hconn.
      apply andb_true_iff in Hdesc. destruct Hdesc as [Hd Hdesc].
      apply andb_true_iff in Hconn. destruct Hconn as [Hc Hconn].
      constructor; [|exact (IH Hdesc Hconn)].
      unfold rows_agree, row_of, csv_of; simpl.
      repeat (split; [reflexivity|]).
      split; [exact (conn_count_names r Hc)|].
      exists (description_str r). split; [|reflexivity].
      destruct r; simpl in *; try discriminate.
      destruct (dict_get d "description") as [[]|]; simpl in *;
        try discriminate; reflexivity.
    + induction rs as [|r rs IH]; simpl; constructor.
      * split; reflexivity.
      * simpl in Hdesc, Hconn.
        apply andb_true_iff in Hdesc. destruct Hdesc as [_ Hdesc].
        apply andb_true_iff in Hconn. destruct Hconn as [_ Hconn].
        exact (IH Hdesc Hconn).
  - intros result Hres. unfold display_resources_table, export_csv_rows.
    rewrite Hres. split; reflexivity.
Qed.

Lemma csv_rows_agree_with_table_witness :
  exists rows crows,
    display_resources_table (VDict [("resources", VList long_and_short)])
    = Ok (st_dataframe rows)
    /\ export_csv_rows (VDict [("resources", VList long_and_short)])
       = Ok (Some crows)
    /\ Forall2 rows_agree rows crows.
Proof.
  destruct (proj1 csv_rows_agree_with_table
              (VDict [("resources", VList long_and_short)]) long_and_short
              eq_refl ltac:(discriminate) eq_refl eq_refl)
    as (rows & crows & Hrows & Hcrows & Hagree & _).
  exists rows, crows. auto.
Defined.

Lemma for_each_app {A S : Type} (body : S -> A -> outcome S)
      (l1 l2 : list A) (s : S) :
  for_each body (l1 ++ l2) s
  = (s' <- for_each body l1 s ;; for_each body l2 s').
Proof.
  revert s. induction l1 as [|x l1 IH]; intros s; simpl; [reflexivity|].
  destruct (body s x) as [s'|e]; simpl; [apply IH|reflexivity].
Qed.

(** X13.  A connection that is not a string stops the CSV export: when the
    resources before [r] are well formed and the connections of [r] are
    strings up to an item [v] that is not one, [export_csv_rows] raises the
    [TypeError] of [join] naming the position and the type of [v]; the table,
    which only counts the connections, still has a row for each resource. *)
Theorem csv_export_needs_string_connections
        (result : pyval) (pre post : list pyval) (d : pydict)
        (strs : list string) (v : pyval) (rest : list pyval) :
  resources_are result (pre ++ VDict d :: post) ->
  forallb str_connections pre = true ->
  dict_get d "connections" = Some (VList (map VStr strs ++ v :: rest)) ->
  is_strv v = false ->
  export_csv_rows result
  = Raised (Exn TypeError
              ("sequence item " ++ decimal (List.length strs)
               ++ ": expected str instance, " ++ type_name v ++ " found"))
  /\ (forallb table_shaped (pre ++ VDict d :: post) = true ->
      display_resources_table result
      = Ok (st_dataframe (map row_of (pre ++ VDict d :: post)))).
Proof.
  intros Hres Hpre Hconn Hv. split.
  - unfold export_csv_rows. rewrite Hres. unfold bind at 1.
    assert (Ht : py_truthy (VList (pre ++ VDict d :: post)) = true)
      by (destruct pre; reflexivity).
    rewrite Ht. unfold py_iter, bind at 1.
    rewrite for_each_app, (for_each_csv_rows pre [] Hpre). simpl bind.
    simpl for_each. unfold csv_row_of at 1. simpl py_get.
    rewrite Hconn.
    destruct (dict_get d "resource_name"), (dict_get d "resource_type"),
      (dict_get d "category"), (dict_get d "description"); simpl bind;
      unfold py_join; rewrite (join_items_not_string _ _ _ _ 0 Hv);
      reflexivity.
  - intros Hshape. apply display_resources_table_rows;
      [exact Hres|destruct pre; discriminate|exact Hshape].
Qed.

Lemma csv_export_needs_string_connections_witness :
  export_csv_rows (VDict [("resources", VList [VDict number_connection])])
  = Raised (Exn TypeError "sequence item 1: expected str instance, int found").
Proof.
  apply (proj1 (csv_export_needs_string_connections
                  (VDict [("resources", VList [VDict number_connection])])
                  [] [] number_connection ["db"] (VInt 3) []
                  eq_refl eq_refl eq_refl eq_refl)).
Defined.

(* ================================================================== *)
(** * Results that are not of the expected shape *)

Lemma for_each_group_step_from (rs : list pyval) :
  forallb str_category rs = true ->
  for_each group_step rs [] = Ok (skeys (fold_left bucket_add rs [])).
Proof. exact (for_each_group_step rs []). Qed.

Lemma count_loop (rs : list pyval) :
  forallb str_category rs = true ->
  for_each count_step rs [] = Ok (skeys (fold_left count_add rs [])).
Proof.
  intros H.
  exact (for_each_refine skeys count_step count_add
           (fun r => str_category r = true) rs
           (fun t x Hx => count_step_skeys t x Hx)
           (all_true_Forall _ _ H) []).
Qed.

Lemma py_get_not_dict {A : Type} (v : pyval) (k : string) (default : pyval)
      (f : pyval -> outcome A) :
  is_dict v = false ->
  (x <- py_get v k default ;; f x) = Raised (no_get v).
Proof. destruct v; simpl; try discriminate; reflexivity. Qed.

(** X14.  The normaliser does not look into the resources, and a resource
    that is not an object (a string, a number, a list, [null]) makes every
    reader raise: when the resources before it are well shaped, the
    statistics, the grouping, the table and the CSV export all raise the
    [AttributeError] of [get] on that resource. *)
Theorem resource_not_an_object_raises
        (result : pyval) (pre post : list pyval) (v : pyval) :
  resources_are result (pre ++ v :: post) ->
  is_dict v = false ->
  (forallb well_shaped pre = true ->
   get_resource_statistics result = Raised (no_get v)
   /\ get_resources_by_category result = Raised (no_get v))
  /\ (forallb table_shaped pre = true ->
      display_resources_table result = Raised (no_get v))
  /\ (forallb str_connections pre = true ->
      export_csv_rows result = Raised (no_get v)).
Proof.
  intros Hres Hv.
  assert (Ht : py_truthy (VList (pre ++ v :: post)) = true)
    by (destruct pre; reflexivity).
  split; [|split].
  - intros Hpre. destruct (well_shaped_split pre Hpre) as [Hcat _]. split.
    + unfold get_resource_statistics. rewrite Hres. simpl bind.
      rewrite for_each_app, (categories_loop pre Hcat). simpl bind.
      simpl for_each. unfold category_seen at 1, category_of.
      rewrite (py_get_not_dict v _ _ _ Hv). reflexivity.
    + unfold get_resources_by_category. rewrite Hres. simpl bind.
      rewrite for_each_app, (for_each_group_step_from pre Hcat). simpl bind.
      simpl for_each. unfold group_step at 1, category_of.
      rewrite (py_get_not_dict v _ _ _ Hv). reflexivity.
  - intros Hpre. unfold display_resources_table. rewrite Hres.
    unfold bind at 1. rewrite Ht. unfold negb, py_iter, bind at 1.
    rewrite for_each_app, (for_each_rows pre [] Hpre). simpl bind.
    simpl for_each. unfold table_row_of at 1.
    rewrite (py_get_not_dict v _ _ _ Hv). reflexivity.
  - intros Hpre. unfold export_csv_rows. rewrite Hres.
    unfold bind at 1. rewrite Ht. unfold py_iter, bind at 1.
    rewrite for_each_app, (for_each_csv_rows pre [] Hpre). simpl bind.
    simpl for_each. unfold csv_row_of at 1.
    rewrite (py_get_not_dict v _ _ _ Hv). reflexivity.
Qed.

Lemma resource_not_an_object_raises_witness :
  (r <- _parse_response MiniJson.loads text_resource_name_only ;;
   get_resource_statistics r)
  = Raised (Exn AttributeError "'str' object has no attribute 'get'").
Proof.
  change (_parse_response MiniJson.loads text_resource_name_only)
    with (Ok (VDict (with_defaults [("resources", VList [VStr "vm"])]))).
  simpl bind.
  apply (proj1 (resource_not_an_object_raises
                  (VDict (with_defaults [("resources", VList [VStr "vm"])]))
                  [] [] (VStr "vm") eq_refl eq_refl)).
  reflexivity.
Defined.

(** X15.  A [resources] value that is [null], a boolean or a number is kept
    by the normaliser, since the key is present.  On the normalised result
    the statistics raise the [TypeError] of [len], the grouping raises the
    [TypeError] of the loop, and the table shows its warning when the value
    is falsy and raises the [TypeError] of the loop otherwise. *)
Theorem scalar_resources_not_defaulted
        (json_loads : string -> outcome pyval) (text : string) (d : pydict)
        (v : pyval) :
  json_loads (clean_text text) = Ok (VDict d) ->
  dict_get d "resources" = Some v ->
  is_scalar v = true ->
  exists r,
    _parse_response json_loads text = Ok (VDict r)
    /\ dict_get r "resources" = Some v
    /\ get_resource_statistics (VDict r)
       = Raised (Exn TypeError
                   ("object of type '" ++ type_name v ++ "' has no len()"))
    /\ get_resources_by_category (VDict r)
       = Raised (Exn TypeError
                   ("'" ++ type_name v ++ "' object is not iterable"))
    /\ display_resources_table (VDict r)
       = if py_truthy v
         then Raised (Exn TypeError
                        ("'" ++ type_name v ++ "' object is not iterable"))
         else Ok (st_warning "No resources to display.").
Proof.
  intros Hd Hres Hv. exists (with_defaults d).
  split; [exact (parse_response_dict json_loads text d Hd)|].
  assert (Hr : dict_get (with_defaults d) "resources" = Some v)
    by (rewrite dict_get_with_defaults, Hres; reflexivity).
  split; [exact Hr|].
  unfold get_resource_statistics, get_resources_by_category,
    display_resources_table.
  simpl py_get. rewrite Hr.
  destruct v; try discriminate; simpl.
  - repeat split.
  - destruct b; repeat split.
  - destruct (Z.eqb z 0); repeat split.
Qed.

Lemma scalar_resources_not_defaulted_witness :
  exists r,
    _parse_response MiniJson.loads text_null_resources = Ok (VDict r)
    /\ get_resource_statistics (VDict r)
       = Raised (Exn TypeError "object of type 'NoneType' has no len()")
    /\ display_resources_table (VDict r)
       = Ok (st_warning "No resources to display.").
Proof.
  destruct (scalar_resources_not_defaulted MiniJson.loads text_null_resources
              [("resources", VNone)] VNone eq_refl eq_refl eq_refl)
    as (r & Hr & _ & Hst & _ & Htab).
  exists r. split; [exact Hr|]. split; [exact Hst|exact Htab].
Defined.

(* ================================================================== *)
(** * Categories that are not all strings *)

Lemma key_eqb_class (a b : pyval) :
  key_eqb a b = true -> key_class a = key_class b.
Proof. destruct a, b; simpl; try discriminate; reflexivity. Qed.

Lemma py_lt_raises (a b : pyval) :
  key_class a <> key_class b \/ 2 <= key_class a ->
  exists msg, py_lt a b = Raised (Exn TypeError msg).
Proof.
  destruct a, b; simpl; intros [H|H]; try congruence; try lia;
    eexists; reflexivity.
Qed.

Lemma py_lt_ok (a b : pyval) :
  key_class a = key_class b -> key_class a <= 1 ->
  exists lt, py_lt a b = Ok lt.
Proof.
  destruct a, b; simpl; intros H1 H2; try discriminate; try lia;
    eexists; reflexivity.
Qed.

Lemma category_of_hashable (r : pyval) :
  hashable_category r = true ->
  category_of r = Ok (category_val r)
  /\ check_hashable (category_val r) = Ok tt.
Proof.
  destruct r; simpl; try discriminate. unfold category_of. simpl.
  destruct (dict_get d "category") as [[]|]; simpl; try discriminate;
    split; reflexivity.
Qed.

(** A loop whose body does not raise on the items does not raise. *)
Lemma for_each_total {A S : Type} (body : S -> A -> outcome S)
      (P : A -> Prop) (l : list A) :
  (forall s x, P x -> exists s', body s x = Ok s') ->
  Forall P l ->
  forall s, exists s', for_each body l s = Ok s'.
Proof.
  intros Hbody Hl. induction Hl as [|x l Hx _ IH]; intros s; simpl.
  - eauto.
  - destruct (Hbody s x Hx) as [s' ->]. simpl. apply IH.
Qed.

Lemma kdict_set_classes {V : Type} (g : kdict V) (k : pyval) (v : V) :
  In (key_class k) (map key_class (map fst (kdict_set g k v)))
  /\ forall c, In c (map key_class (map fst g)) ->
               In c (map key_class (map fst (kdict_set g k v))).
Proof.
  induction g as [|[k0 v0] g [IH1 IH2]]; simpl.
  - split; [auto|tauto].
  - destruct (key_eqb k0 k) eqn:E; simpl.
    + apply key_eqb_class in E. split; [auto|tauto].
    + split; [auto|]. intros c [Hc|Hc]; auto.
Qed.

(** The loop of the grouping on hashable categories: it returns, and every
    category of the resources has its kind among the keys. *)
Lemma group_loop_classes (rs : list pyval) :
  forallb hashable_category rs = true ->
  forall g,
  exists g',
    for_each group_step rs g = Ok g'
    /\ (forall c, In c (map key_class (map fst g)) ->
                  In c (map key_class (map fst g')))
    /\ (forall r, In r rs ->
                  In (key_class (category_val r))
                     (map key_class (map fst g'))).
Proof.
  induction rs as [|r rs IH]; intros H g; simpl.
  - exists g. split; [reflexivity|]. split; [auto|tauto].
  - simpl in H. apply andb_true_iff in H. destruct H as [Hr Hrs].
    destruct (category_of_hashable r Hr) as [Hc Hh].
    unfold group_step at 1. rewrite Hc. simpl bind. rewrite Hh. simpl bind.
    match goal with
    | |- context [for_each group_step rs ?g1] =>
        destruct (IH Hrs g1) as (g' & Hg' & Hkeep & Hin);
        assert (Hstep : In (key_class (category_val r))
                           (map key_class (map fst g1))
                        /\ forall c, In c (map key_class (map fst g)) ->
                                     In c (map key_class (map fst g1)))
    end.
    { split; [apply (proj1 (kdict_set_classes _ _ _))|].
      intros c Hcg. apply (proj2 (kdict_set_classes _ _ _)).
      destruct (negb (kdict_mem g (category_val r)));
        [apply (proj2 (kdict_set_classes _ _ _))|]; exact Hcg. }
    destruct Hstep as [Hs1 Hs2].
    exists g'. split; [exact Hg'|]. split.
    + intros c Hcg. exact (Hkeep c (Hs2 c Hcg)).
    + intros r' [<-|Hr']; [exact (Hkeep _ Hs1)|exact (Hin r' Hr')].
Qed.

Lemma insert_item_same_class {V : Type} (x : pyval * V)
      (l : list (pyval * V)) :
  key_class (fst x) <= 1 ->
  Forall (fun kv => key_class (fst kv) = key_class (fst x)) l ->
  exists l',
    insert_item x l = Ok l'
    /\ l' <> []
    /\ Forall (fun kv => key_class (fst kv) = key_class (fst x)) l'.
Proof.
  intros Hc Hl. induction Hl as [|y l Hy Hl IH]; simpl.
  - exists [x]. split; [reflexivity|]. split; [discriminate|].
    constructor; [reflexivity|constructor].
  - destruct (py_lt_ok (fst x) (fst y) (eq_sym Hy) Hc) as [lt ->].
    simpl bind. destruct lt.
    + eexists. split; [reflexivity|]. split; [discriminate|].
      constructor; [reflexivity|]. constructor; [exact Hy|exact Hl].
    + destruct IH as (l' & -> & _ & Hl'). simpl bind.
      eexists. split; [reflexivity|]. split; [discriminate|].
      constructor; [exact Hy|exact Hl'].
Qed.

(** Inserting the items into a sorted list of keys of one kind raises when
    an item has a key of another kind. *)
Lemma sort_other_class_raises {V : Type} (items acc : list (pyval * V))
      (c : nat) :
  acc <> [] ->
  Forall (fun kv => key_class (fst kv) = c) acc ->
  Exists (fun kv => key_class (fst kv) <> c) items ->
  exists msg,
    for_each (fun acc x => insert_item x acc) items acc
    = Raised (Exn TypeError msg).
Proof.
  revert acc. induction items as [|x items IH]; intros acc Hne Hacc Hex.
  - inversion Hex.
  - simpl. destruct acc as [|y acc]; [congruence|].
    destruct (Nat.eq_dec (key_class (fst x)) c) as [Hx|Hx].
    + destruct (le_lt_dec (key_class (fst x)) 1) as [Hle|Hgt].
      * rewrite <- Hx in Hacc.
        destruct (insert_item_same_class x (y :: acc) Hle Hacc)
          as (l' & -> & Hl' & Hcl').
        simpl bind. rewrite Hx in Hcl'. apply IH; [exact Hl'|exact Hcl'|].
        inversion Hex; subst; [congruence|assumption].
      * simpl insert_item.
        destruct (py_lt_raises (fst x) (fst y)) as [msg ->]; [right; lia|].
        exists msg. reflexivity.
    + simpl insert_item. inversion Hacc; subst.
      destruct (py_lt_raises (fst x) (fst y)) as [msg ->];
        [left; congruence|].
      exists msg. reflexivity.
Qed.

Lemma sorted_two_classes_raises {V : Type} (items : list (pyval * V))
      (c1 c2 : nat) :
  In c1 (map key_class (map fst items)) ->
  In c2 (map key_class (map fst items)) ->
  c1 <> c2 ->
  exists msg, py_sorted_items items = Raised (Exn TypeError msg).
Proof.
  intros H1 H2 Hne. unfold py_sorted_items.
  destruct items as [|x items]; [contradiction|].
  simpl for_each.
  apply (sort_other_class_raises items [x] (key_class (fst x)));
    [discriminate|constructor; [reflexivity|constructor]|].
  assert (Hother : exists c, In c (map key_class (map fst items))
                             /\ c <> key_class (fst x)).
  { simpl in H1, H2.
    destruct H1 as [E1|H1]; destruct H2 as [E2|H2].
    - congruence.
    - exists c2. split; [exact H2|congruence].
    - exists c1. split; [exact H1|congruence].
    - destruct (Nat.eq_dec c1 (key_class (fst x)));
        [exists c2; split; [exact H2|congruence]
        |exists c1; split; [exact H1|assumption]]. }
  destruct Hother as (c & Hc & Hcx).
  apply Exists_exists.
  rewrite map_map in Hc. apply in_map_iff in Hc.
  destruct Hc as (kv & Hkv & Hin). exists kv. split; [exact Hin|congruence].
Qed.

Lemma max_scan_total (rest : list pyval) (best : pyval) (best_key : nat) :
  forallb list_connections rest = true ->
  exists m, max_scan connection_count best best_key rest = Ok m
            /\ In m (best :: rest).
Proof.
  revert best best_key. induction rest as [|r rest IH]; intros best bk H.
  - exists best. split; [reflexivity|left; reflexivity].
  - simpl in H. apply andb_true_iff in H. destruct H as [Hr Hrest].
    simpl. rewrite (connection_count_list r Hr). simpl bind.
    destruct (bk <? conn_count r)%nat.
    + destruct (IH r (conn_count r) Hrest) as (m & -> & Hm).
      exists m. split; [reflexivity|]. simpl in *. tauto.
    + destruct (IH best bk Hrest) as (m & -> & Hm).
      exists m. split; [reflexivity|]. simpl in *. tauto.
Qed.

(** X16.  The grouping sorts its keys and the statistics do not: when the
    resources are dicts whose categories can be keys, and two of them have
    categories of different kinds (a string and a number, a string and
    [null]), [get_resources_by_category] raises a [TypeError] from the
    comparison of the keys, while [get_resource_statistics] returns when the
    connections are lists. *)
Theorem mixed_categories_raise_in_grouping_only
        (result : pyval) (rs : list pyval) (r1 r2 : pyval) :
  resources_are result rs ->
  forallb hashable_category rs = true ->
  In r1 rs -> In r2 rs ->
  key_class (category_val r1) <> key_class (category_val r2) ->
  (exists msg, get_resources_by_category result = Raised (Exn TypeError msg))
  /\ (forallb list_connections rs = true ->
      exists st, get_resource_statistics result = Ok st
                 /\ total_resources st = List.length rs).
Proof.
  intros Hres Hrs H1 H2 Hne. split.
  - unfold get_resources_by_category. rewrite Hres. simpl bind.
    destruct (group_loop_classes rs Hrs []) as (g & -> & _ & Hin).
    simpl bind.
    exact (sorted_two_classes_raises g _ _ (Hin r1 H1) (Hin r2 H2) Hne).
  - intros Hconn. unfold get_resource_statistics. rewrite Hres. simpl bind.
    assert (Hh : Forall (fun r => hashable_category r = true) rs)
      by (apply all_true_Forall; exact Hrs).
    assert (Hseen : forall s x, hashable_category x = true ->
                            exists s', category_seen s x = Ok s').
    { intros s x Hx. destruct (category_of_hashable x Hx) as [Hc Hk].
      unfold category_seen. rewrite Hc. simpl bind. rewrite Hk.
      simpl bind. eexists. reflexivity. }
    destruct (for_each_total category_seen _ rs Hseen Hh []) as [cats ->].
    simpl bind. rewrite (connections_loop rs Hconn). simpl bind.
    unfold resources_are in Hres.
    destruct (py_get_ok_dict _ _ _ _ Hres) as [d ->].
    rewrite py_get_dict. simpl bind.
    assert (Hcount : forall s x, hashable_category x = true ->
                             exists s', count_step s x = Ok s').
    { intros s x Hx. destruct (category_of_hashable x Hx) as [Hc Hk].
      unfold count_step. rewrite Hc. simpl bind. rewrite Hk.
      simpl bind. eexists. reflexivity. }
    destruct (for_each_total count_step _ rs Hcount Hh []) as [by_cat ->].
    simpl bind.
    destruct rs as [|x rest].
    + simpl. eexists. split; reflexivity.
    + simpl py_truthy. cbv iota. unfold py_max.
      pose proof Hconn as Hconn'.
      simpl in Hconn. apply andb_true_iff in Hconn.
      destruct Hconn as [Hx Hrest].
      rewrite (connection_count_list x Hx). simpl bind.
      destruct (max_scan_total rest x (conn_count x) Hrest) as (m & -> & Hm).
      simpl bind.
      assert (Hml : list_connections m = true)
        by (exact (proj1 (forallb_forall _ _) Hconn' m Hm)).
      assert (Hmd : is_dict m = true)
        by (destruct m; try discriminate; reflexivity).
      destruct m; try discriminate. rewrite py_get_dict. simpl bind.
      rewrite (connection_count_list _ Hml). simpl bind.
      eexists. split; reflexivity.
Qed.

Lemma mixed_categories_raise_in_grouping_only_witness :
  (exists msg,
      get_resources_by_category
        (VDict [("resources", VList string_and_number)])
      = Raised (Exn TypeError msg))
  /\ exists st,
      get_resource_statistics (VDict [("resources", VList string_and_number)])
      = Ok st
      /\ total_resources st = 2.
Proof.
  destruct (mixed_categories_raise_in_grouping_only
              (VDict [("resources", VList string_and_number)])
              string_and_number
              (VDict [ ("resource_name", VStr "vm");
                       ("category", VStr "Compute") ])
              (VDict [ ("resource_name", VStr "x"); ("category", VInt 7) ])
              eq_refl eq_refl (or_introl eq_refl)
              (or_intror (or_introl eq_refl)) ltac:(discriminate))
    as [Hg Hs].
  split; [exact Hg|]. exact (Hs eq_refl).
Defined.
